(** * notion-md-sync: the block converter, the front-matter store and the
      sync engine, embedded from the Python sources.

    Text is modelled by [string]; a character is a code point in the range
    0..255 (the Latin-1 block of Unicode), classified the way Python's
    [str.isspace], [str.isalnum], [str.lower] and the [re] classes [\s] and
    [\d] classify it.  Python objects (the block and page dictionaries, the
    YAML values of a front matter) are values of [pyval]; a dictionary
    literal is an association list in insertion order.  Code that may raise
    returns a [res]; code that reads or changes files or calls the remote
    side runs in a monad over the world.

    The embedding comes first (the string primitives, Python values,
    block_converter.py, datetime, the world, markdown_parser.py,
    sync_engine.py, the paths of the pull commands of cli.py, config.py and
    the patterns of file_watcher.py, a gateway in memory for the examples),
    then the notions the statements use, then the lemmas, then the
    properties of the specification, each under its number, and further
    properties of the code. *)

From Stdlib Require Import ZArith Lia Ascii String List Bool.
From stdpp Require Import base option list strings gmap fin_maps pretty.

Local Open Scope string_scope.
Local Open Scope nat_scope.
Import ListNotations.
#[local] Arguments String.append !s1 s2 : simpl nomatch.

(** ** Characters and the string primitives the sources use *)

Module Text.

Definition code (c : ascii) : nat := nat_of_ascii c.

(** [str.isspace] / regex [\s] on code points 0..255. *)
Definition is_space (c : ascii) : bool :=
  let n := code c in
  ((9 <=? n) && (n <=? 13)) || ((28 <=? n) && (n <=? 32))
  || (n =? 133) || (n =? 160).

(** regex [\d] on code points 0..255. *)
Definition is_digit (c : ascii) : bool :=
  let n := code c in (48 <=? n) && (n <=? 57).

(** [str.isalnum] on code points 0..255. *)
Definition is_alnum (c : ascii) : bool :=
  let n := code c in
  is_digit c
  || ((65 <=? n) && (n <=? 90)) || ((97 <=? n) && (n <=? 122))
  || (n =? 170) || (n =? 178) || (n =? 179) || (n =? 181)
  || (n =? 185) || (n =? 186) || ((188 <=? n) && (n <=? 190))
  || ((192 <=? n) && (n <=? 214)) || ((216 <=? n) && (n <=? 246))
  || ((248 <=? n) && (n <=? 255)).

(** [str.lower] on one code point of 0..255. *)
Definition lower_char (c : ascii) : ascii :=
  let n := code c in
  if ((65 <=? n) && (n <=? 90))
     || ((192 <=? n) && (n <=? 214)) || ((216 <=? n) && (n <=? 222))
  then ascii_of_nat (n + 32) else c.

Fixpoint lower (s : string) : string :=
  match s with
  | EmptyString => EmptyString
  | String c s' => String (lower_char c) (lower s')
  end.

Definition is_empty (s : string) : bool :=
  match s with EmptyString => true | String _ _ => false end.

(** [s.lstrip()] *)
Fixpoint lstrip (s : string) : string :=
  match s with
  | EmptyString => EmptyString
  | String c s' => if is_space c then lstrip s' else s
  end.

(** [s.rstrip()] *)
Fixpoint rstrip (s : string) : string :=
  match s with
  | EmptyString => EmptyString
  | String c s' =>
      match rstrip s' with
      | EmptyString => if is_space c then EmptyString else String c EmptyString
      | r => String c r
      end
  end.

(** [s.strip()] *)
Definition strip (s : string) : string := rstrip (lstrip s).

(** [s.startswith(p)] *)
Fixpoint startswith (p s : string) : bool :=
  match p, s with
  | EmptyString, _ => true
  | String a p', String b s' => if Ascii.eqb a b then startswith p' s' else false
  | String _ _, EmptyString => false
  end.

(** the slice [s[n:]] *)
Fixpoint skip (n : nat) (s : string) : string :=
  match n, s with
  | O, _ => s
  | S n', String _ s' => skip n' s'
  | S _, EmptyString => EmptyString
  end.

(** the slice [s[:n]] *)
Fixpoint keep (n : nat) (s : string) : string :=
  match n, s with
  | O, _ => EmptyString
  | S n', String c s' => String c (keep n' s')
  | S _, EmptyString => EmptyString
  end.

Definition newline : ascii := ascii_of_nat 10.
Definition carriage_return : ascii := ascii_of_nat 13.

(** What reading a file opened as text makes of the characters in it
    (universal newlines): ['\r\n'] and ['\r'] come as ['\n']. *)
Fixpoint universal_newlines (s : string) : string :=
  match s with
  | EmptyString => EmptyString
  | String c s' =>
      if Ascii.eqb c carriage_return
      then String newline
             match s' with
             | String d s'' =>
                 if Ascii.eqb d newline then universal_newlines s''
                 else universal_newlines s'
             | EmptyString => EmptyString
             end
      else String c (universal_newlines s')
  end.

(** [s.split('\n')]: never empty, one more piece than there are newlines. *)
Fixpoint split_nl (s : string) : list string :=
  match s with
  | EmptyString => [EmptyString]
  | String c s' =>
      if Ascii.eqb c newline then EmptyString :: split_nl s'
      else match split_nl s' with
           | h :: t => String c h :: t
           | [] => [String c EmptyString]
           end
  end.

(** ['\n'.join(l)] *)
Fixpoint join_nl (l : list string) : string :=
  match l with
  | [] => EmptyString
  | [x] => x
  | x :: rest => x +:+ String newline (join_nl rest)
  end.

(** ['#' * n] *)
Fixpoint repeat_char (c : ascii) (n : nat) : string :=
  match n with O => EmptyString | S n' => String c (repeat_char c n') end.

(** [s.replace(a, b)] for one-character [a] and [b]. *)
Fixpoint replace_char (a b : ascii) (s : string) : string :=
  match s with
  | EmptyString => EmptyString
  | String c s' => String (if Ascii.eqb c a then b else c) (replace_char a b s')
  end.

(** [''.join(c for c in s if p(c))] *)
Fixpoint filter_chars (p : ascii -> bool) (s : string) : string :=
  match s with
  | EmptyString => EmptyString
  | String c s' => if p c then String c (filter_chars p s') else filter_chars p s'
  end.

(** number of leading characters of [s] that satisfy [p] *)
Fixpoint count_leading (p : ascii -> bool) (s : string) : nat :=
  match s with
  | String c s' => if p c then S (count_leading p s') else 0
  | EmptyString => 0
  end.

Definition last_char (s : string) : string :=
  skip (String.length s - 1) s.

End Text.
Export Text.

(** ** Python values *)

#[warnings="-register-all"]
Inductive pyval : Type :=
| PNone
| PBool (b : bool)
| PInt (z : Z)
| PStr (s : string)
| PList (l : list pyval)
| PDict (d : list (string * pyval)).

(** Exceptions carry their class name and the text [str(e)] gives. *)
Record exn : Type := Exn { exn_class : string; exn_msg : string }.

Inductive res (A : Type) : Type :=
| Ok (a : A)
| Raise (e : exn).
Arguments Ok {A} a.
Arguments Raise {A} e.

Definition res_bind {A B} (m : res A) (k : A -> res B) : res B :=
  match m with Ok a => k a | Raise e => Raise e end.

Definition is_ok {A} (r : res A) : bool :=
  match r with Ok _ => true | Raise _ => false end.

Declare Scope res_scope.
Delimit Scope res_scope with res.
Notation "'let*' x ':=' m 'in' k" := (res_bind m (fun x => k))
  (at level 10, x name, m at level 100, k at level 200) : res_scope.
Local Open Scope res_scope.

Module Py.

(** lookup in an association list: the first binding of the key *)
Fixpoint assoc (k : string) (d : list (string * pyval)) : option pyval :=
  match d with
  | [] => None
  | (k', v) :: d' => if String.eqb k k' then Some v else assoc k d'
  end.

(** the name of the type of a value *)
Definition type_name (v : pyval) : string :=
  match v with
  | PNone => "NoneType"
  | PBool _ => "bool"
  | PInt _ => "int"
  | PStr _ => "str"
  | PList _ => "list"
  | PDict _ => "dict"
  end.

(** the exception of [o.what] for an object of the type [type] *)
Definition AttributeError (type what : string) : exn :=
  Exn "AttributeError"
      ("'" +:+ type +:+ "' object has no attribute '" +:+ what +:+ "'").
Definition KeyError (k : string) : exn := Exn "KeyError" ("'" +:+ k +:+ "'").
Definition TypeError (msg : string) : exn := Exn "TypeError" msg.
Definition ValueError (msg : string) : exn := Exn "ValueError" msg.

(** [o.get(k, default)]: only dictionaries have [get]. *)
Definition get (o : pyval) (k : string) (default : pyval) : res pyval :=
  match o with
  | PDict d => Ok (match assoc k d with Some v => v | None => default end)
  | _ => Raise (AttributeError (type_name o) "get")
  end.

(** [o[k]] for a string key [k] *)
Definition getitem (o : pyval) (k : string) : res pyval :=
  match o with
  | PDict d => match assoc k d with
               | Some v => Ok v
               | None => Raise (KeyError k)
               end
  | PList _ => Raise (TypeError "list indices must be integers or slices, not str")
  | PStr _ => Raise (TypeError "string indices must be integers")
  | _ => Raise (TypeError ("'" +:+ type_name o +:+ "' object is not subscriptable"))
  end.

(** truth value of an object, as [if x:] and [not x] test it *)
Definition truthy (v : pyval) : bool :=
  match v with
  | PNone => false
  | PBool b => b
  | PInt z => negb (Z.eqb z 0)
  | PStr s => negb (is_empty s)
  | PList l => match l with [] => false | _ => true end
  | PDict d => match d with [] => false | _ => true end
  end.

(** [repr] of a value; the escapes [repr] writes inside a quoted string are
    not modelled. *)
Fixpoint py_repr (v : pyval) : string :=
  match v with
  | PNone => "None"
  | PBool true => "True"
  | PBool false => "False"
  | PInt z => pretty z
  | PStr s => "'" +:+ s +:+ "'"
  | PList l =>
      "[" +:+ (fix items (l : list pyval) : string :=
                 match l with
                 | [] => ""
                 | x :: r => match r with
                             | [] => py_repr x
                             | _ :: _ => py_repr x +:+ ", " +:+ items r
                             end
                 end) l +:+ "]"
  | PDict d =>
      "{" +:+ (fix items (d : list (string * pyval)) : string :=
                 match d with
                 | [] => ""
                 | (k, x) :: r =>
                     let kv := "'" +:+ k +:+ "': " +:+ py_repr x in
                     match r with
                     | [] => kv
                     | _ :: _ => kv +:+ ", " +:+ items r
                     end
                 end) d +:+ "}"
  end.

(** [str(v)], what an f-string writes for [{v}] *)
Definition py_str (v : pyval) : string :=
  match v with PStr s => s | _ => py_repr v end.

(** [o[0]] *)
Definition getitem0 (o : pyval) : res pyval :=
  match o with
  | PList (x :: _) => Ok x
  | PList [] => Raise (Exn "IndexError" "list index out of range")
  | PStr (String c _) => Ok (PStr (String c EmptyString))
  | PStr EmptyString => Raise (Exn "IndexError" "string index out of range")
  | PDict _ => Raise (Exn "KeyError" "0")
  | _ => Raise (TypeError ("'" +:+ type_name o +:+ "' object is not subscriptable"))
  end.

(** [d[k] = v] on the binding list of a dictionary: an old key keeps its
    place, a new one goes to the end *)
Fixpoint dict_set (k : string) (v : pyval) (d : list (string * pyval))
    : list (string * pyval) :=
  match d with
  | [] => [(k, v)]
  | (k', v') :: d' =>
      if String.eqb k k' then (k, v) :: d' else (k', v') :: dict_set k v d'
  end.

End Py.

(** ** block_converter.py *)

Module BlockConverter.
Import Py.

Definition rich_text_of (text : string) : pyval :=
  PList [PDict [("type", PStr "text");
                ("text", PDict [("content", PStr text)])]].

Definition _create_heading_block (text : string) (level : nat) : pyval :=
  let level := if 3 <? level then 3 else level in
  let block_type := "heading_" +:+ pretty level in
  PDict [("type", PStr block_type);
         (block_type, PDict [("rich_text", rich_text_of text)])].

Definition _create_paragraph_block (text : string) : pyval :=
  PDict [("type", PStr "paragraph");
         ("paragraph", PDict [("rich_text", rich_text_of text)])].

Definition _create_code_block (code language : string) : pyval :=
  PDict [("type", PStr "code");
         ("code", PDict [("rich_text", rich_text_of code);
                         ("language", PStr language)])].

Definition _create_quote_block (text : string) : pyval :=
  PDict [("type", PStr "quote");
         ("quote", PDict [("rich_text", rich_text_of text)])].

Definition _create_bullet_list_item (text : string) : pyval :=
  PDict [("type", PStr "bulleted_list_item");
         ("bulleted_list_item", PDict [("rich_text", rich_text_of text)])].

Definition _create_numbered_list_item (text : string) : pyval :=
  PDict [("type", PStr "numbered_list_item");
         ("numbered_list_item", PDict [("rich_text", rich_text_of text)])].

(** The tail [\s+(.+)$] of both regular expressions, matched at the start of
    [r].  [\s+] is greedy; when [r] is nothing but two or more white-space
    characters it gives the last one back to [(.+)].  The lines the parser
    matches come from [split('\n')] and hold no newline, the one character
    [.] refuses. *)
Definition ws_then_text (r : string) : option string :=
  match r with
  | EmptyString => None
  | String c r' =>
      if is_space c then
        match lstrip r' with
        | EmptyString => if is_empty r' then None else Some (last_char r')
        | t => Some t
        end
      else None
  end.

Definition is_hash (c : ascii) : bool := Ascii.eqb c "#"%char.

(** [re.match(r'^(#{1,3})\s+(.+)$', line)]: the two groups. *)
Definition heading_match (line : string) : option (string * string) :=
  let n := count_leading is_hash line in
  if (1 <=? n) && (n <=? 3) then
    match ws_then_text (skip n line) with
    | Some text => Some (keep n line, text)
    | None => None
    end
  else None.

(** [re.match(r'^\d+\.\s+(.+)$', line)]: the group. *)
Definition numbered_match (line : string) : option string :=
  let n := count_leading is_digit line in
  if 1 <=? n then
    match skip n line with
    | String "."%char r => ws_then_text r
    | _ => None
    end
  else None.

Definition fence : string := "```".

(** The inner [while] of a fenced region: [ls] is [lines[i:]], [code_lines]
    the lines collected so far, and [k] the outer loop, resumed after the
    closing fence ([i += 1] skips it, also when the input ended before). *)
Fixpoint code_loop (k : list string -> list pyval) (language : string)
    (ls code_lines : list string) {struct ls} : list pyval :=
  match ls with
  | [] => [_create_code_block (join_nl code_lines) language]
  | l :: ls' =>
      if startswith fence (strip l)
      then _create_code_block (join_nl code_lines) language :: k ls'
      else code_loop k language ls' (code_lines ++ [l])%list
  end.

(** The [while i < len(lines)] loop of [markdown_to_blocks]; the argument is
    the suffix [lines[i:]]. *)
Fixpoint parse_lines (lines : list string) : list pyval :=
  match lines with
  | [] => []
  | raw :: rest =>
      let line := strip raw in
      if is_empty line then parse_lines rest
      else
        match heading_match line with
        | Some (hashes, text) =>
            _create_heading_block text (String.length hashes) :: parse_lines rest
        | None =>
            if startswith fence line then
              code_loop parse_lines (strip (skip 3 line)) rest []
            else if startswith "- " line || startswith "* " line then
              _create_bullet_list_item (strip (skip 2 line)) :: parse_lines rest
            else
              match numbered_match line with
              | Some text => _create_numbered_list_item text :: parse_lines rest
              | None =>
                  if startswith "> " line then
                    _create_quote_block (strip (skip 2 line)) :: parse_lines rest
                  else _create_paragraph_block line :: parse_lines rest
              end
        end
  end.

Definition markdown_to_blocks (markdown_content : string) : list pyval :=
  parse_lines (split_nl markdown_content).

(** [item.get('text', {}).get('content', '')] for every item, in order *)
Fixpoint rich_text_contents (items : list pyval) : res (list pyval) :=
  match items with
  | [] => Ok []
  | item :: more =>
      let* t := get item "text" (PDict []) in
      let* c := get t "content" (PStr "") in
      let* cs := rich_text_contents more in
      Ok (c :: cs)
  end.

(** [''.join(...)] over the collected values: every one must be a [str]. *)
Fixpoint join_values (vs : list pyval) : res string :=
  match vs with
  | [] => Ok ""
  | PStr s :: more => let* r := join_values more in Ok (s +:+ r)
  | _ :: _ => Raise (TypeError "sequence item: expected str instance")
  end.

(** [_get_text_from_rich_text]: iterating a list gives its items; a non-empty
    dictionary or string gives strings, which have no [get]; the empty ones
    give nothing; the other values are not iterable. *)
Definition _get_text_from_rich_text (rich_text : pyval) : res string :=
  match rich_text with
  | PList items => let* cs := rich_text_contents items in join_values cs
  | PDict [] => Ok ""
  | PStr EmptyString => Ok ""
  | PDict (_ :: _) => Raise (AttributeError "str" "get")
  | PStr (String _ _) => Raise (AttributeError "str" "get")
  | _ => Raise (TypeError ("'" +:+ type_name rich_text
                           +:+ "' object is not iterable"))
  end.

(** the text of [block[tag].get('rich_text', [])] *)
Definition payload_text (block : pyval) (tag : string) : res string :=
  let* payload := getitem block tag in
  let* rich_text := get payload "rich_text" (PList []) in
  _get_text_from_rich_text rich_text.

(** One iteration of the [for block in blocks] loop of [blocks_to_markdown]:
    the entries it appends to [markdown_lines], the blank one included. *)
Definition block_lines (block : pyval) : res (list string) :=
  let* block_type := get block "type" PNone in
  match block_type with
  | PStr t =>
      if String.eqb t "heading_1" || String.eqb t "heading_2"
         || String.eqb t "heading_3" then
        let level := (* int(block_type[-1]) *)
          if String.eqb t "heading_1" then 1
          else if String.eqb t "heading_2" then 2 else 3 in
        let* text := payload_text block t in
        Ok [repeat_char "#" level +:+ " " +:+ text; ""]
      else if String.eqb t "paragraph" then
        let* text := payload_text block "paragraph" in
        Ok [text; ""]
      else if String.eqb t "code" then
        let* text := payload_text block "code" in
        let* payload := getitem block "code" in
        let* language := get payload "language" (PStr "") in
        Ok [fence +:+ py_str language; text; fence; ""]
      else if String.eqb t "quote" then
        let* text := payload_text block "quote" in
        Ok ["> " +:+ text; ""]
      else if String.eqb t "bulleted_list_item" then
        let* text := payload_text block "bulleted_list_item" in
        Ok ["- " +:+ text; ""]
      else if String.eqb t "numbered_list_item" then
        let* text := payload_text block "numbered_list_item" in
        Ok ["1. " +:+ text; ""]
      else Ok [""]
  | _ => Ok [""]
  end.

(** the list [markdown_lines] after the loop *)
Fixpoint markdown_lines (blocks : list pyval) : res (list string) :=
  match blocks with
  | [] => Ok []
  | block :: more =>
      let* here := block_lines block in
      let* there := markdown_lines more in
      Ok (here ++ there)%list
  end.

Definition blocks_to_markdown (blocks : list pyval) : res string :=
  let* ls := markdown_lines blocks in Ok (join_nl ls).

End BlockConverter.

(** ** datetime

    The part of Python's [datetime] the engine uses.  [fromisoformat] reads
    the format [isoformat] writes
    ([YYYY-MM-DD[*HH[:MM[:SS[.fff[fff]]]][+HH:MM[:SS[.ffffff]]]]]); a string
    outside it raises here, though later versions of Python read some of
    them.  The time of a file is a whole number of microseconds, and the
    local time zone is a fixed offset. *)

Module Datetime.
Import Py.
Local Open Scope Z_scope.

(** [wall] is the wall-clock reading in microseconds from 1970-01-01T00:00;
    an aware value carries its UTC offset, in microseconds. *)
Record datetime : Type := Datetime { wall : Z; utcoffset : option Z }.

Definition is_leap (y : Z) : bool :=
  (y mod 4 =? 0) && (negb (y mod 100 =? 0) || (y mod 400 =? 0)).

Definition days_in_month (y m : Z) : Z :=
  if m =? 2 then (if is_leap y then 29 else 28)
  else if (m =? 4) || (m =? 6) || (m =? 9) || (m =? 11) then 30 else 31.

(** days from 1970-01-01 to the given date of the proleptic Gregorian
    calendar *)
Definition days_from_civil (y m d : Z) : Z :=
  let y' := if m <=? 2 then y - 1 else y in
  let era := y' / 400 in
  let yoe := y' - era * 400 in
  let mp := (m + 9) mod 12 in
  let doy := (153 * mp + 2) / 5 + d - 1 in
  let doe := yoe * 365 + yoe / 4 - yoe / 100 + doy in
  era * 146097 + doe - 719468.

Definition civil_from_days (z : Z) : Z * Z * Z :=
  let z := z + 719468 in
  let era := z / 146097 in
  let doe := z - era * 146097 in
  let yoe := (doe - doe / 1460 + doe / 36524 - doe / 146096) / 365 in
  let doy := doe - (365 * yoe + yoe / 4 - yoe / 100) in
  let mp := (5 * doy + 2) / 153 in
  let d := doy - (153 * mp + 2) / 5 + 1 in
  let m := if mp <? 10 then mp + 3 else mp - 9 in
  (if m <=? 2 then yoe + era * 400 + 1 else yoe + era * 400, m, d).

Definition us_per_second : Z := 1000000.
Definition us_per_day : Z := 86400 * us_per_second.

Definition digit (c : ascii) : option Z :=
  if is_digit c then Some (Z.of_nat (code c) - 48) else None.

(** exactly [k] decimal digits at the start of [s] *)
Fixpoint digits (k : nat) (s : string) (acc : Z) : option (Z * string) :=
  match k with
  | O => Some (acc, s)
  | S k' =>
      match s with
      | String c s' =>
          match digit c with
          | Some d => digits k' s' (acc * 10 + d)
          | None => None
          end
      | EmptyString => None
      end
  end.

Definition expect (c : ascii) (s : string) : option string :=
  match s with
  | String c' s' => if Ascii.eqb c c' then Some s' else None
  | EmptyString => None
  end.

(** [HH[:MM[:SS[.fff[fff]]]]] over all of [s]: hour, minute, second,
    microsecond *)
Definition parse_hh_mm_ss_ff (s : string) : option (Z * Z * Z * Z) :=
  match digits 2 s 0 with
  | None => None
  | Some (h, EmptyString) => Some (h, 0, 0, 0)
  | Some (h, s1) =>
      match expect ":" s1 with
      | None => None
      | Some s1' =>
          match digits 2 s1' 0 with
          | None => None
          | Some (m, EmptyString) => Some (h, m, 0, 0)
          | Some (m, s2) =>
              match expect ":" s2 with
              | None => None
              | Some s2' =>
                  match digits 2 s2' 0 with
                  | None => None
                  | Some (sec, EmptyString) => Some (h, m, sec, 0)
                  | Some (sec, s3) =>
                      match expect "." s3 with
                      | None => None
                      | Some f =>
                          match digits 6 f 0 with
                          | Some (us, EmptyString) => Some (h, m, sec, us)
                          | Some (_, String _ _) => None
                          | None =>
                              match digits 3 f 0 with
                              | Some (ms, EmptyString) => Some (h, m, sec, ms * 1000)
                              | _ => None
                              end
                          end
                      end
                  end
              end
          end
      end
  end.

(** the time string up to its first ['+'] or ['-'], the sign found there and
    what follows it *)
Fixpoint split_tz (s : string) : string * option (Z * string) :=
  match s with
  | EmptyString => (EmptyString, None)
  | String c s' =>
      if Ascii.eqb c "+" then (EmptyString, Some (1, s'))
      else if Ascii.eqb c "-" then (EmptyString, Some (-1, s'))
      else let '(t, z) := split_tz s' in (String c t, z)
  end.

Definition invalid (s : string) : exn :=
  ValueError ("Invalid isoformat string: '" +:+ s +:+ "'").

(** [datetime.fromisoformat(s)] for a string [s] *)
Definition fromisoformat_str (s : string) : res datetime :=
  let bad := Raise (invalid s) in
  match digits 4 s 0 with
  | None => bad
  | Some (y, s) =>
  match expect "-" s with
  | None => bad
  | Some s =>
  match digits 2 s 0 with
  | None => bad
  | Some (mo, s) =>
  match expect "-" s with
  | None => bad
  | Some s =>
  match digits 2 s 0 with
  | None => bad
  | Some (d, rest) =>
      if negb ((1 <=? y) && (1 <=? mo) && (mo <=? 12)
               && (1 <=? d) && (d <=? days_in_month y mo))
      then bad
      else
        let day := days_from_civil y mo d * us_per_day in
        match rest with
        | EmptyString => Ok (Datetime day None)
        | String _ tstr =>
            let '(timestr, tz) := split_tz tstr in
            match parse_hh_mm_ss_ff timestr with
            | None => bad
            | Some (h, mi, sec, us) =>
                if negb ((h <? 24) && (mi <? 60) && (sec <? 60)) then bad
                else
                  let w := day + ((h * 60 + mi) * 60 + sec) * us_per_second + us in
                  match tz with
                  | None => Ok (Datetime w None)
                  | Some (sign, tzstr) =>
                      let n := String.length tzstr in
                      if negb ((n =? 5)%nat || (n =? 8)%nat || (n =? 15)%nat) then bad
                      else
                        match parse_hh_mm_ss_ff tzstr with
                        | None => bad
                        | Some (th, tm, ts, tus) =>
                            let off := ((th * 60 + tm) * 60 + ts) * us_per_second + tus in
                            if negb ((tm <? 60) && (ts <? 60) && (off <? us_per_day)) then bad
                            else Ok (Datetime w (Some (sign * off)))
                        end
                  end
            end
        end
  end end end end end.

(** [datetime.fromisoformat(v)]: the argument must be a [str]. *)
Definition fromisoformat (v : pyval) : res datetime :=
  match v with
  | PStr s => fromisoformat_str s
  | _ => Raise (TypeError "fromisoformat: argument must be str")
  end.

(** [a > b]: two naive values compare by their readings, two aware ones by
    their instants, and a naive with an aware one not at all. *)
Definition dt_gt (a b : datetime) : res bool :=
  match utcoffset a, utcoffset b with
  | None, None => Ok (wall b <? wall a)
  | Some oa, Some ob => Ok (wall b - ob <? wall a - oa)
  | _, _ => Raise (TypeError "can't compare offset-naive and offset-aware datetimes")
  end.

(** [datetime.fromtimestamp(t)] and [datetime.now()]: the naive local time
    of the instant [t] (microseconds since the epoch) *)
Definition fromtimestamp (local_offset t : Z) : datetime :=
  Datetime (t + local_offset) None.

(** [n] written with at least [k] digits *)
Definition pad (k : nat) (n : Z) : string :=
  let s := pretty n in
  repeat_char "0" (k - String.length s) +:+ s.

(** [d.isoformat()] of a naive [d] *)
Definition isoformat (d : datetime) : string :=
  let days := wall d / us_per_day in
  let rem := wall d mod us_per_day in
  let '(y, mo, dd) := civil_from_days days in
  let secs := rem / us_per_second in
  let us := rem mod us_per_second in
  pad 4 y +:+ "-" +:+ pad 2 mo +:+ "-" +:+ pad 2 dd +:+ "T"
  +:+ pad 2 (secs / 3600) +:+ ":" +:+ pad 2 (secs / 60 mod 60) +:+ ":"
  +:+ pad 2 (secs mod 60)
  +:+ (if us =? 0 then "" else "." +:+ pad 6 us).

End Datetime.

(** ** The world the engine runs in

    A file is kept as what [frontmatter.load] makes of it: the post it
    reads, or the exception it raises.  The text of the file, YAML and
    [frontmatter.dumps] are not modelled; what is known of them is in
    [dumped], the file a written post becomes: the body is read back
    trimmed and with its line ends as [\n], a header with a key [content]
    or [handler] cannot be read back at all, and the header is read back as
    the YAML library rereads it, which is left open ([reread]).  The header of a post is a finite map,
    its order of keys forgotten (YAML writes them sorted).  Directories are
    not modelled.  The remote side is any implementation of the gateway
    interface, the methods of [NotionClient]; [calls] records the calls
    made on it, for the statements only.  The clock stands still during
    one operation. *)

Module World.
Import Py Datetime.

Record post : Type := Post { metadata : gmap string pyval; content : string }.

(** A file by what [frontmatter.load] does on it.  [Document p]: it
    returns the post [p], with the body as it is read ([as_read]) and the
    header without the keys [content] and [handler], as every post it
    returns is.
    [Malformed]: the front matter is not YAML.  [Unloadable e]: it raises
    [e]. *)
Inductive file_text : Type :=
| Document (p : post)
| Malformed
| Unloadable (e : exn).

Record file : Type := File { f_text : file_text; f_mtime : Z }.

Inductive call : Type :=
| GetPage (page_id : pyval)
| GetPageBlocks (page_id : pyval)
| UpdatePageBlocks (page_id : pyval) (blocks : list pyval)
| CreatePage (parent_id : string) (title properties : pyval)
| DatabasesRetrieve (database_id : string).

(** The methods of [NotionClient] the engine calls, over a remote state
    [R]: each gives a result or raises, and leaves a remote state. *)
Class Gateway (R : Type) : Type := {
  get_page : pyval -> R -> res pyval * R;
  get_page_blocks : pyval -> R -> res (list pyval) * R;
  update_page_blocks : pyval -> list pyval -> R -> res pyval * R;
  create_page : string -> pyval -> pyval -> R -> res pyval * R;
  databases_retrieve : string -> R -> res pyval * R
}.

(** What is left open of the libraries under [frontmatter.dumps].
    [reread m]: the header [yaml.load] reads from the text [yaml.dump]
    writes for [m], after [frontmatter] has trimmed that text (a value that
    ends in a no-break space comes back without it).  [format_with s p]:
    for a post whose [handler] is the string [s], the post that is read
    from the text [s.format(p)], or the exception [str.format] raises. *)
Record codec : Type := Codec {
  reread : gmap string pyval -> gmap string pyval;
  format_with : string -> post -> res post
}.

Record world (R : Type) : Type := MkWorld {
  fs : gmap string file;
  readonly : gset string;      (* paths [open(path, 'w')] refuses *)
  remote : R;
  clock : Z;                   (* microseconds since the epoch *)
  local_offset : Z;            (* of the local time zone, microseconds *)
  calls : list call;
  library : codec
}.
Arguments MkWorld {R}.
Arguments fs {R}.
Arguments readonly {R}.
Arguments remote {R}.
Arguments clock {R}.
Arguments local_offset {R}.
Arguments calls {R}.
Arguments library {R}.

(** [frontmatter.load] ends in [Post(content, handler, **metadata)]: a
    header with a key of one of these two names gives the parameter a
    second value.  The keys come sorted, so [content] is met first.  (The
    message is the one of Python 3.9; later versions put the name of the
    class in front.) *)
Definition reserved (m : gmap string pyval) : option string :=
  if bool_decide (is_Some (m !! "content")) then Some "content"
  else if bool_decide (is_Some (m !! "handler")) then Some "handler"
  else None.

(** a header as a loaded post has it *)
Definition loadable (m : gmap string pyval) : gmap string pyval :=
  delete "handler" (delete "content" m).

Definition multiple_values (parameter : string) : exn :=
  Py.TypeError ("__init__() got multiple values for argument '"
                +:+ parameter +:+ "'").

(** The body [frontmatter.load] gives for a file whose body was written
    as [c]: the file is read as text, and the library trims the body. *)
Definition as_read (c : string) : string := strip (universal_newlines c).

(** The file that [f.write(frontmatter.dumps(post))] leaves for a post
    whose handler is the YAML one, by what [load] makes of it.  (A header
    that is reread with one of the two names where the written one had
    none is taken not to occur.) *)
Definition dumped (lib : codec) (p : post) : file_text :=
  match reserved (metadata p) with
  | Some parameter => Unloadable (multiple_values parameter)
  | None => Document (Post (reread lib (metadata p)) (as_read (content p)))
  end.

(** the file [open(path, 'w')] leaves when nothing is written to it: it
    is read as a post without header or body *)
Definition emptied : file_text := Document (Post ∅ "").

(** what the configuration answers to the three keys the engine asks for *)
Record config : Type := Config {
  notion_token : option string;
  notion_parent_page_id : option string;
  directories_markdown_root : option string
}.

Section Monad.
Context {R : Type}.

(** computations that read and change the world and may raise *)
Definition M (A : Type) : Type := world R -> res A * world R.

Definition ret {A} (a : A) : M A := fun w => (Ok a, w).
Definition raise {A} (e : exn) : M A := fun w => (Raise e, w).
Definition lift {A} (r : res A) : M A := fun w => (r, w).
Definition bind {A B} (m : M A) (k : A -> M B) : M B :=
  fun w => match m w with
           | (Ok a, w') => k a w'
           | (Raise e, w') => (Raise e, w')
           end.

(** [try: m  except Exception as e: h e] *)
Definition try_catch {A} (m : M A) (h : exn -> M A) : M A :=
  fun w => match m w with
           | (Ok a, w') => (Ok a, w')
           | (Raise e, w') => h e w'
           end.

Definition set_fs (f : gmap string file) (w : world R) : world R :=
  MkWorld f (readonly w) (remote w) (clock w) (local_offset w) (calls w)
          (library w).

(** the world after the call [c] that left the remote state [rem] *)
Definition logged (c : call) (rem : R) (w : world R) : world R :=
  MkWorld (fs w) (readonly w) rem (clock w) (local_offset w) (calls w ++ [c])
          (library w).

(** a call on the gateway: its outcome, the remote state it leaves, and the
    entry in the record of calls *)
Definition gateway_call {A} (c : call) (op : R -> res A * R) : M A :=
  fun w => let '(r, rem) := op (remote w) in (r, logged c rem w).

(** [os.path.exists(path)] *)
Definition path_exists (path : string) : M bool :=
  fun w => (Ok (bool_decide (is_Some (fs w !! path))), w).

(** [os.path.getmtime(path)] *)
Definition getmtime (path : string) : M Z :=
  fun w => match fs w !! path with
           | Some f => (Ok (f_mtime f), w)
           | None => (Raise (Exn "FileNotFoundError"
                               ("[Errno 2] No such file or directory: '"
                                +:+ path +:+ "'")), w)
           end.

(** [with open(path, 'r') as f: post = frontmatter.load(f)]; the post
    comes with its body as read and without the two keys [Post] keeps for
    itself *)
Definition load_post (path : string) : M post :=
  fun w => match fs w !! path with
           | Some (File (Document p) _) =>
               (Ok (Post (loadable (metadata p)) (as_read (content p))), w)
           | Some (File Malformed _) =>
               (Raise (Exn "YAMLError" "could not parse the front matter"), w)
           | Some (File (Unloadable e) _) => (Raise e, w)
           | None => (Raise (Exn "FileNotFoundError"
                               ("[Errno 2] No such file or directory: '"
                                +:+ path +:+ "'")), w)
           end.

(** [with open(path, 'w') as f: f.write(frontmatter.dumps(post))], for a
    post whose handler is the YAML one *)
Definition write_post (path : string) (p : post) : M unit :=
  fun w => if bool_decide (path ∈ readonly w)
           then (Raise (Exn "PermissionError"
                          ("[Errno 13] Permission denied: '" +:+ path +:+ "'")), w)
           else (Ok tt,
                 set_fs (<[path := File (dumped (library w) p) (clock w)]> (fs w)) w).

(** The same two lines for a post whose [handler] is the object [handler],
    not a handler of the library: [dumps] calls [handler.format(post)].
    Only a string has a [format], and it is the file's text; when the call
    raises, [open] has emptied the file already. *)
Definition write_with (handler : pyval) (path : string) (p : post) : M unit :=
  fun w => if bool_decide (path ∈ readonly w)
           then (Raise (Exn "PermissionError"
                          ("[Errno 13] Permission denied: '" +:+ path +:+ "'")), w)
           else
             match match handler with
                   | PStr s => format_with (library w) s p
                   | _ => Raise (Py.AttributeError (Py.type_name handler) "format")
                   end with
             | Ok p' =>
                 (Ok tt, set_fs (<[path := File (Document p') (clock w)]> (fs w)) w)
             | Raise e =>
                 (Raise e, set_fs (<[path := File emptied (clock w)]> (fs w)) w)
             end.

(** [datetime.fromtimestamp(t)] in the local time zone of the world *)
Definition local_fromtimestamp (t : Z) : M datetime :=
  fun w => (Ok (fromtimestamp (local_offset w) t), w).

(** [datetime.now()] *)
Definition now : M datetime :=
  fun w => (Ok (fromtimestamp (local_offset w) (clock w)), w).

End Monad.

Declare Scope world_scope.
Delimit Scope world_scope with world.
Notation "'do' x <- m ; k" := (bind m (fun x => k))
  (at level 10, x name, m at level 100, k at level 200) : world_scope.
Notation "'do' ' pat <- m ; k" :=
  (bind m (fun x => match x with pat => k end))
  (at level 10, pat pattern, m at level 100, k at level 200) : world_scope.

End World.
(** ** markdown_parser.py *)

Module MarkdownParser.
Import Py World.
Local Open Scope world_scope.

Section WithRemote.
Context {R : Type}.

Definition not_found (file_path : string) : exn :=
  Exn "FileNotFoundError" ("Markdown file not found: " +:+ file_path).

(** [parse_file]: the front matter and the raw content (the HTML rendering,
    which the engine never reads, is left out) *)
Definition parse_file (file_path : string) : M (R:=R) (gmap string pyval * string) :=
  do found <- path_exists file_path;
  if negb found then raise (not_found file_path)
  else
    do post <- load_post file_path;
    ret (metadata post, content post).

(** [update_frontmatter]; [new_metadata] is the dictionary's items *)
Definition update_frontmatter (file_path : string)
    (new_metadata : list (string * pyval)) : M (R:=R) unit :=
  do found <- path_exists file_path;
  if negb found then raise (not_found file_path)
  else
    do post <- load_post file_path;
    let updated :=
      foldl (fun m kv => <[kv.1 := kv.2]> m) (metadata post) new_metadata in
    write_post file_path (Post updated (content post)).

(** [create_markdown_with_frontmatter].  [frontmatter.Post(content,
    **metadata)] takes its own parameters [content] and [handler] out of the
    keywords: a key [content] is a second value for the first parameter, the
    value of a key [handler] becomes the handler of the post.
    [frontmatter.dumps] uses [post.handler or YAMLHandler()]. *)
Definition create_markdown_with_frontmatter (file_path : string)
    (metadata : gmap string pyval) (content : string) : M (R:=R) unit :=
  if bool_decide (is_Some (metadata !! "content"))
  then raise (multiple_values "content")
  else
    let post := Post (delete "handler" metadata) content in
    let handler := default PNone (metadata !! "handler") in
    if truthy handler then write_with handler file_path post
    else write_post file_path post.

End WithRemote.

(** [extract_title]: the first line that starts with ["# "] *)
Fixpoint first_h1 (lines : list string) : option string :=
  match lines with
  | [] => None
  | line :: rest =>
      if startswith "# " line then Some (strip (skip 2 line)) else first_h1 rest
  end.

Definition extract_title (content : string) : option string :=
  first_h1 (split_nl content).

End MarkdownParser.

(** ** sync_engine.py *)

Module SyncEngine.
Import Py Datetime World MarkdownParser BlockConverter.
Local Open Scope world_scope.

(** index of the last [c] in [s] ([s.rfind(c)]) *)
Fixpoint rfind (c : ascii) (s : string) : option nat :=
  match s with
  | EmptyString => None
  | String x s' =>
      match rfind c s' with
      | Some i => Some (S i)
      | None => if Ascii.eqb x c then Some 0 else None
      end
  end.

(** [os.path.basename(p)] *)
Definition basename (p : string) : string :=
  match rfind "/" p with Some i => skip (S i) p | None => p end.

Fixpoint all_dots (s : string) : bool :=
  match s with
  | EmptyString => true
  | String c s' => Ascii.eqb c "." && all_dots s'
  end.

(** [os.path.splitext(name)[0]] for a [name] without separator: the last dot
    starts the extension unless only dots come before it *)
Definition splitext_root (name : string) : string :=
  match rfind "." name with
  | Some i => if all_dots (keep i name) then name else keep i name
  | None => name
  end.

(** [os.path.join(a, b)] *)
Definition path_join (a b : string) : string :=
  if startswith "/" b then b
  else if is_empty a || Ascii.eqb (match last_char a with
                                   | String c _ => c
                                   | EmptyString => " "%char
                                   end) "/"
       then a +:+ b
       else a +:+ "/" +:+ b.

Fixpoint contains_char (c : ascii) (s : string) : bool :=
  match s with
  | EmptyString => false
  | String x s' => Ascii.eqb x c || contains_char c s'
  end.

(** the slice [s[a:b]] *)
Definition slice (a b : nat) (s : string) : string := keep (b - a) (skip a s).

(** the dashes put into a 32-character parent id *)
Definition format_parent_id (parent_id : string) : string :=
  if (String.length parent_id =? 32) && negb (contains_char "-" parent_id)
  then slice 0 8 parent_id +:+ "-" +:+ slice 8 12 parent_id +:+ "-"
       +:+ slice 12 16 parent_id +:+ "-" +:+ slice 16 20 parent_id +:+ "-"
       +:+ skip 20 parent_id
  else parent_id.

Definition text_items (content : pyval) : pyval :=
  PList [PDict [("type", PStr "text"); ("text", PDict [("content", content)])]].

(** the character test of the file-name comprehension:
    [c.isalnum() or c in [' ', '-', '_']] *)
Definition keeps_char (c : ascii) : bool :=
  is_alnum c || Ascii.eqb c " " || Ascii.eqb c "-" || Ascii.eqb c "_".

(** [x.isalnum()] of a string *)
Definition str_isalnum (x : string) : bool :=
  negb (is_empty x) && is_empty (filter_chars (fun c => negb (is_alnum c)) x).

(** one element of the comprehension, for the items of a title that is not
    a string *)
Definition kept_item (c : pyval) : res string :=
  match c with
  | PStr x =>
      Ok (if str_isalnum x || String.eqb x " " || String.eqb x "-"
             || String.eqb x "_" then x else "")
  | _ => Raise (AttributeError (type_name c) "isalnum")
  end.

Fixpoint kept_items (l : list pyval) : res string :=
  match l with
  | [] => Ok ""
  | c :: more =>
      let* x := kept_item c in
      let* xs := kept_items more in
      Ok (x +:+ xs)
  end.

(** The file name made of a title:
    [filename = "".join([c if c.isalnum() or c in [' ', '-', '_'] else ''
                         for c in title])],
    then [filename.replace(' ', '-').lower()]. *)
Definition sanitize_title (title : pyval) : res string :=
  let* kept :=
    match title with
    | PStr s => Ok (filter_chars keeps_char s)
    | PList l => kept_items l
    | PDict d => kept_items (map (fun kv => PStr kv.1) d)
    | _ => Raise (TypeError ("'" +:+ type_name title +:+ "' object is not iterable"))
    end in
  Ok (lower (replace_char " " "-" kept)).

(** [s.replace("Z", "+00:00")] *)
Fixpoint replace_Z (s : string) : string :=
  match s with
  | EmptyString => EmptyString
  | String c s' =>
      if Ascii.eqb c "Z" then "+00:00" +:+ replace_Z s'
      else String c (replace_Z s')
  end.

Section Engine.
Context {R : Type} {G : Gateway R}.
Variable cfg : config.

(** [self.notion_client] is a client exactly when the token is set. *)
Definition has_client : bool :=
  match notion_token cfg with
  | Some t => negb (is_empty t)
  | None => false
  end.

(** The test of the stored link: [page_exists] is true when
    [notion_page_id] is set and [get_page] answers. *)
Definition probe_page (notion_page_id : pyval) : M (R:=R) bool :=
  if truthy notion_page_id then
    try_catch
      (do _ <- gateway_call (GetPage notion_page_id) (get_page notion_page_id);
       ret true)
      (fun _ => ret false)
  else ret false.

(** the title: the header's, else the first heading, else the file name *)
Definition resolve_title (metadata : gmap string pyval) (raw_content file_path : string)
    : pyval :=
  let title := default PNone (metadata !! "title") in
  if truthy title then title
  else
    let stem := PStr (splitext_root (basename file_path)) in
    match extract_title raw_content with
    | Some t => if is_empty t then stem else PStr t
    | None => stem
    end.

(** the update of [last_synced] that ends every successful push *)
Definition finish_push (file_path message : string) : M (R:=R) (bool * string) :=
  do t <- now;
  do _ <- update_frontmatter file_path [("last_synced", PStr (isoformat t))];
  ret (true, message).

(** the branch [if page_exists:] *)
Definition update_existing (file_path : string) (notion_page_id title : pyval)
    (blocks : list pyval) : M (R:=R) (bool * string) :=
  do _ <- gateway_call (UpdatePageBlocks notion_page_id blocks)
            (update_page_blocks notion_page_id blocks);
  finish_push file_path ("Updated Notion page: " +:+ py_str title).

Definition extra_property (properties : list (string * pyval))
    (kv : string * pyval) : list (string * pyval) :=
  if String.eqb kv.1 "title" || String.eqb kv.1 "notion_page_id"
     || String.eqb kv.1 "last_synced"
  then properties
  else dict_set kv.1 (PDict [("rich_text", text_items (PStr (py_str kv.2)))])
         properties.

(** the branch [else:], the creation of a page *)
Definition create_new (file_path : string) (metadata : gmap string pyval)
    (title : pyval) (blocks : list pyval) : M (R:=R) (bool * string) :=
  match notion_parent_page_id cfg with
  | None => ret (false, "Parent page ID not configured")
  | Some configured =>
      if is_empty configured then ret (false, "Parent page ID not configured")
      else
        let parent_id := format_parent_id configured in
        let base := [("title", PDict [("title", text_items title)])] in
        do properties <-
          try_catch
            (do _ <- gateway_call (DatabasesRetrieve parent_id)
                       (databases_retrieve parent_id);
             ret (foldl extra_property base (map_to_list metadata)))
            (fun _ => ret base);
        do page <- gateway_call (CreatePage parent_id title (PDict properties))
                     (create_page parent_id title (PDict properties));
        do notion_page_id <- lift (getitem page "id");
        do _ <- gateway_call (UpdatePageBlocks notion_page_id blocks)
                  (update_page_blocks notion_page_id blocks);
        do t <- now;
        do _ <- update_frontmatter file_path
                  [("notion_page_id", notion_page_id);
                   ("last_synced", PStr (isoformat t))];
        finish_push file_path ("Created new Notion page: " +:+ py_str title)
  end.

(** the [try] block of [sync_file_to_notion] *)
Definition sync_file_body (file_path : string) : M (R:=R) (bool * string) :=
  do '(metadata, raw_content) <- parse_file file_path;
  let notion_page_id := default PNone (metadata !! "notion_page_id") in
  do page_exists <- probe_page notion_page_id;
  let title := resolve_title metadata raw_content file_path in
  let blocks := markdown_to_blocks raw_content in
  if page_exists
  then update_existing file_path notion_page_id title blocks
  else create_new file_path metadata title blocks.

Definition sync_file_to_notion (file_path : string) : M (R:=R) (bool * string) :=
  if negb has_client then ret (false, "Notion API token not configured")
  else
    try_catch (sync_file_body file_path)
      (fun e => ret (false, "Error syncing file to Notion: " +:+ exn_msg e)).

(** one round of the loop over [page.get("properties", {}).items()] *)
Definition pulled_property (metadata : gmap string pyval) (kv : string * pyval)
    : res (gmap string pyval) :=
  if String.eqb kv.1 "title" then Ok metadata
  else
    let* type := get kv.2 "type" PNone in
    match type with
    | PStr "rich_text" =>
        let* rich_text := get kv.2 "rich_text" (PList []) in
        if truthy rich_text then
          let* first := getitem0 rich_text in
          let* text := get first "text" (PDict []) in
          let* text_content := get text "content" (PStr "") in
          Ok (<[kv.1 := text_content]> metadata)
        else Ok metadata
    | _ => Ok metadata
    end.

Fixpoint pulled_properties (metadata : gmap string pyval)
    (items : list (string * pyval)) : res (gmap string pyval) :=
  match items with
  | [] => Ok metadata
  | kv :: more =>
      let* metadata' := pulled_property metadata kv in
      pulled_properties metadata' more
  end.

(** [d.items()]: only a dictionary has it *)
Definition items (d : pyval) : res (list (string * pyval)) :=
  match d with
  | PDict l => Ok l
  | _ => Raise (AttributeError (type_name d) "items")
  end.

(** the [try] block of [sync_notion_to_file] *)
Definition sync_notion_body (notion_page_id : pyval) (file_path : option string)
    : M (R:=R) (bool * string) :=
  do page <- gateway_call (GetPage notion_page_id) (get_page notion_page_id);
  do title <- lift (
    let* properties := get page "properties" (PDict []) in
    let* title_property := get properties "title" (PDict []) in
    let* title_items := get title_property "title" (PList [PDict []]) in
    let* first := getitem0 title_items in
    let* text := get first "text" (PDict []) in
    get text "content" (PStr "Untitled"));
  do blocks <- gateway_call (GetPageBlocks notion_page_id)
                 (get_page_blocks notion_page_id);
  do markdown_content <- lift (blocks_to_markdown blocks);
  do t <- now;
  let metadata : gmap string pyval :=
    <["last_synced" := PStr (isoformat t)]>
      (<["notion_page_id" := notion_page_id]> (<["title" := title]> ∅)) in
  do metadata <- lift (
    let* properties := get page "properties" (PDict []) in
    let* l := items properties in
    pulled_properties metadata l);
  match file_path with
  | Some (String c p) =>
      let file_path := String c p in
      do found <- path_exists file_path;
      do _ <- create_markdown_with_frontmatter file_path metadata markdown_content;
      ret (true, (if found then "Updated markdown file: "
                  else "Created new markdown file: ") +:+ file_path)
  | _ =>
      let markdown_root := default "./docs" (directories_markdown_root cfg) in
      do filename <- lift (sanitize_title title);
      let file_path := path_join markdown_root (filename +:+ ".md") in
      do _ <- create_markdown_with_frontmatter file_path metadata markdown_content;
      ret (true, "Created new markdown file: " +:+ file_path)
  end.

Definition sync_notion_to_file (notion_page_id : pyval) (file_path : option string)
    : M (R:=R) (bool * string) :=
  if negb has_client then ret (false, "Notion API token not configured")
  else
    try_catch (sync_notion_body notion_page_id file_path)
      (fun e => ret (false, "Error syncing Notion page to file: " +:+ exn_msg e)).

(** [self.notion_client.get_page(id)] where the client may be [None] *)
Definition client_get_page (notion_page_id : pyval) : M (R:=R) pyval :=
  if has_client
  then gateway_call (GetPage notion_page_id) (get_page notion_page_id)
  else raise (AttributeError "NoneType" "get_page").

(** [notion_last_edited.replace("Z", "+00:00")] *)
Definition with_utc_offset (notion_last_edited : pyval) : res pyval :=
  match notion_last_edited with
  | PStr s => Ok (PStr (replace_Z s))
  | _ => Raise (AttributeError (type_name notion_last_edited) "replace")
  end.

(** the [try] block of [detect_conflicts] *)
Definition detect_conflicts_body (file_path : string) (notion_page_id : pyval)
    : M (R:=R) bool :=
  do '(metadata, _) <- parse_file file_path;
  let last_synced := default PNone (metadata !! "last_synced") in
  if negb (truthy last_synced) then ret false
  else
    do last_synced_dt <- lift (fromisoformat last_synced);
    do page <- client_get_page notion_page_id;
    do notion_last_edited <- lift (get page "last_edited_time" PNone);
    do notion_last_edited_dt <- lift (
      let* replaced := with_utc_offset notion_last_edited in
      fromisoformat replaced);
    do file_last_modified <- getmtime file_path;
    do file_last_modified_dt <- local_fromtimestamp file_last_modified;
    do notion_modified <- lift (dt_gt notion_last_edited_dt last_synced_dt);
    do file_modified <- lift (dt_gt file_last_modified_dt last_synced_dt);
    ret (notion_modified && file_modified).

Definition detect_conflicts (file_path : string) (notion_page_id : pyval)
    : M (R:=R) bool :=
  try_catch (detect_conflicts_body file_path notion_page_id)
    (fun _ => ret true).

End Engine.

End SyncEngine.
(** ** markdown_parser.py: [extract_headings] *)

Module MarkdownHeadings.
Import BlockConverter.

(** the loop over the lines: a line that starts with ['#'] is a heading, its
    level the number of ['#'] it starts with, its text the trimmed rest *)
Fixpoint headings_of (lines : list string) : list (nat * string) :=
  match lines with
  | [] => []
  | line :: rest =>
      if startswith "#" line then
        let level := count_leading is_hash line in
        (level, strip (skip level line)) :: headings_of rest
      else headings_of rest
  end.

Definition extract_headings (content : string) : list (nat * string) :=
  headings_of (split_nl content).

End MarkdownHeadings.
(** ** cli.py: where the pull commands put a page *)

Module Cli.
Import Py World MarkdownParser SyncEngine.
Local Open Scope world_scope.

(** [os.path.splitext(p)]: the last dot of the last component starts the
    extension, unless only dots come before it in the component *)
Definition splitext (p : string) : string * string :=
  match rfind "." p with
  | Some dot =>
      let start := match rfind "/" p with Some sep => S sep | None => 0 end in
      if (start <=? dot) && negb (all_dots (slice start dot p))
      then (keep dot p, skip dot p)
      else (p, "")
  | None => (p, "")
  end.

(** The file name [pull_workspace] and [pull_children] make of the title of
    a page whose id is the string [page_id]: the comprehension and the
    replacement of [sync_notion_to_file], then
    [if not filename: filename = f"untitled-{page_id[:8]}"]. *)
Definition pull_filename (title : pyval) (page_id : string) : res string :=
  let* filename := sanitize_title title in
  Ok (if is_empty filename then "untitled-" +:+ keep 8 page_id else filename).

(** the path of the round [counter] of the loop below:
    [name, ext = os.path.splitext(original_file_path)], then
    [f"{name}-{counter}{ext}"] *)
Definition numbered_path (original_file_path : string) (counter : nat) : string :=
  let '(name, ext) := splitext original_file_path in
  name +:+ "-" +:+ pretty counter +:+ ext.

Section WithRemote.
Context {R : Type}.

(** [while os.path.exists(file_path): ...; counter += 1], run for at most
    [fuel] rounds; [None] when the rounds are used up *)
Fixpoint free_path (fuel counter : nat) (original_file_path file_path : string)
    : M (R:=R) (option string) :=
  do found <- path_exists file_path;
  if found then
    match fuel with
    | 0 => ret None
    | S fuel' =>
        free_path fuel' (S counter) original_file_path
          (numbered_path original_file_path counter)
    end
  else ret (Some file_path).

(** The path a page is pulled to: [os.path.join(pull_directory,
    f"{filename}.md")], then the loop with [counter = 1].  One round more
    than there are files is enough, as the theorems show. *)
Definition pull_path (pull_directory : string) (title : pyval) (page_id : string)
    : M (R:=R) (option string) :=
  do filename <- lift (pull_filename title page_id);
  let original_file_path := path_join pull_directory (filename +:+ ".md") in
  fun w => free_path (S (size (fs w))) 1 original_file_path original_file_path w.

End WithRemote.

End Cli.
(** ** config.py and file_watcher.py *)

Module ConfigFile.
Import Py.

(** [s.split(sep)] for a separator of one character *)
Fixpoint split_on (sep : ascii) (s : string) : list string :=
  match s with
  | EmptyString => [EmptyString]
  | String c s' =>
      if Ascii.eqb c sep then EmptyString :: split_on sep s'
      else match split_on sep s' with
           | h :: t => String c h :: t
           | [] => [String c EmptyString]
           end
  end.

(** [sub in s] for two strings *)
Fixpoint contains (sub s : string) : bool :=
  startswith sub s
  || match s with
     | EmptyString => false
     | String _ s' => contains sub s'
     end.

(** The state of a [Config]: the environment it reads and the data loaded
    from its file.  The data is a tree: two places of it never share one
    dictionary object. *)
Record state : Type := State {
  environ : gmap string string;
  config_data : pyval
}.

(** the loop of [get]: [for k in keys: if not isinstance(data, dict) or k
    not in data: return default; data = data[k]] *)
Fixpoint walk (keys : list string) (data default : pyval) : pyval :=
  match keys with
  | [] => data
  | k :: rest =>
      match data with
      | PDict d =>
          match assoc k d with
          | Some v => walk rest v default
          | None => default
          end
      | _ => default
      end
  end.

(** [data[k] = value] for a string [k] *)
Definition setitem (data : pyval) (k : string) (value : pyval) : res pyval :=
  match data with
  | PDict d => Ok (PDict (dict_set k value d))
  | PList _ => Raise (TypeError "list indices must be integers or slices, not str")
  | _ => Raise (TypeError ("'" +:+ type_name data
                           +:+ "' object does not support item assignment"))
  end.

(** The loop of [set] over [keys[:-1]] and the assignment to [keys[-1]],
    as the value [data] ends up: under a key that is missing a new
    dictionary is put, and filled.  Anything but a dictionary on the way
    makes the membership test, the assignment or the subscript raise; a
    new dictionary never does, so nothing has changed when [set] raises. *)
Fixpoint assign (keys : list string) (value data : pyval) : res pyval :=
  match keys with
  | [] => Raise (Exn "IndexError" "list index out of range")
  | k :: rest =>
      match rest with
      | [] => setitem data k value
      | _ :: _ =>
          match data with
          | PDict d =>
              let child := match assoc k d with
                           | Some v => v
                           | None => PDict []
                           end in
              let* child' := assign rest value child in
              Ok (PDict (dict_set k child' d))
          | PStr s =>
              if contains k s
              then Raise (TypeError "string indices must be integers")
              else Raise (TypeError "'str' object does not support item assignment")
          | PList _ =>
              Raise (TypeError "list indices must be integers or slices, not str")
          | _ => Raise (TypeError ("argument of type '" +:+ type_name data
                                   +:+ "' is not iterable"))
          end
      end
  end.

(** [Config.set] *)
Definition set (st : state) (key : string) (value : pyval) : res unit * state :=
  match assign (split_on "." key) value (config_data st) with
  | Ok data => (Ok tt, State (environ st) data)
  | Raise e => (Raise e, st)
  end.

Section WithUpper.
(** [str.upper]: it takes some characters out of the range of code points
    a text has here (the sharp s, the micro sign, the y with diaeresis), so
    it is a parameter of the model. *)
Variable upper : string -> string.

(** [key.replace(".", "_").upper()] *)
Definition env_key (key : string) : string := upper (replace_char "." "_" key).

(** [Config.get] *)
Definition get (st : state) (key : string) (default : pyval) : pyval :=
  match environ st !! env_key key with
  | Some env_value => PStr env_value
  | None => walk (split_on "." key) (config_data st) default
  end.

(** [Config.validate] *)
Definition validate (st : state) : bool :=
  if negb (truthy (get st "notion.token" PNone)) then false
  else
    let sync_direction := get st "sync.direction" PNone in
    let pushes :=
      match sync_direction with
      | PStr d => String.eqb d "markdown_to_notion" || String.eqb d "bidirectional"
      | _ => false
      end in
    if pushes && negb (truthy (get st "notion.parent_page_id" PNone)) then false
    else
      match sync_direction with
      | PStr d => String.eqb d "markdown_to_notion"
                  || String.eqb d "notion_to_markdown"
                  || String.eqb d "bidirectional"
      | _ => false
      end.

End WithUpper.

(** [str.upper] on a text of ASCII characters *)
Definition upper_char (c : ascii) : ascii :=
  let n := code c in
  if (97 <=? n) && (n <=? 122) then ascii_of_nat (n - 32) else c.

Fixpoint ascii_upper (s : string) : string :=
  match s with
  | EmptyString => EmptyString
  | String c s' => String (upper_char c) (ascii_upper s')
  end.

End ConfigFile.

Module FileWatcher.
Import Py ConfigFile.

(** [s.endswith(suffix)] *)
Definition endswith (suffix s : string) : bool :=
  (String.length suffix <=? String.length s)
  && String.eqb (skip (String.length s - String.length suffix) s) suffix.

(** [_is_markdown_file] *)
Definition _is_markdown_file (path : string) : bool :=
  endswith ".md" (lower path) || endswith ".markdown" (lower path).

(** one round of the loop of [_is_excluded]: whether [pattern] excludes
    [path] *)
Definition pattern_excludes (pattern path : string) : bool :=
  if endswith "/**" pattern then
    startswith (keep (String.length pattern - 3) pattern) path
  else if startswith "*" pattern && endswith "*" pattern then
    contains (keep (String.length pattern - 2) (skip 1 pattern)) path
  else if startswith "*" pattern then
    endswith (skip 1 pattern) path
  else if endswith "*" pattern then
    startswith (keep (String.length pattern - 1) pattern) path
  else String.eqb pattern path.

(** [_is_excluded], for the patterns of the configuration *)
Fixpoint _is_excluded (excluded_patterns : list string) (path : string) : bool :=
  match excluded_patterns with
  | [] => false
  | pattern :: rest =>
      if pattern_excludes pattern path then true else _is_excluded rest path
  end.

(** the test of [on_created] and [on_modified]: whether the event goes on
    to [_debounce_event] *)
Definition handles (excluded_patterns : list string) (is_directory : bool)
    (src_path : string) : bool :=
  negb is_directory && _is_markdown_file src_path
  && negb (_is_excluded excluded_patterns src_path).

End FileWatcher.
(** ** A gateway kept in memory, and the worlds of the examples *)

Module MemoryGateway.
Import Py World.

Record store : Type := Store {
  pages : gmap string (pyval * list pyval);   (* the page and its blocks *)
  databases : gset string
}.

Definition no_page : exn :=
  Exn "APIResponseError" "Could not find page with that ID.".
Definition no_database : exn :=
  Exn "APIResponseError" "Could not find database with that ID.".

Definition lookup_page (page_id : pyval) (s : store)
    : option (string * pyval * list pyval) :=
  match page_id with
  | PStr i => match pages s !! i with
              | Some (page, blocks) => Some (i, page, blocks)
              | None => None
              end
  | _ => None
  end.

Definition new_page (i : string) (properties : pyval) : pyval :=
  PDict [("id", PStr i); ("properties", properties);
         ("last_edited_time", PStr "2024-01-01T00:00:00.000Z")].

#[export] Instance memory_gateway : Gateway store := {|
  get_page page_id s :=
    match lookup_page page_id s with
    | Some (_, page, _) => (Ok page, s)
    | None => (Raise no_page, s)
    end;
  get_page_blocks page_id s :=
    match lookup_page page_id s with
    | Some (_, _, blocks) => (Ok blocks, s)
    | None => (Raise no_page, s)
    end;
  update_page_blocks page_id blocks s :=
    match lookup_page page_id s with
    | Some (i, page, _) =>
        (Ok (PList blocks), Store (<[i := (page, blocks)]> (pages s)) (databases s))
    | None => (Raise no_page, s)
    end;
  create_page parent_id title properties s :=
    let i := "page-" +:+ pretty (size (pages s)) in
    (Ok (new_page i properties),
     Store (<[i := (new_page i properties, [])]> (pages s)) (databases s));
  databases_retrieve database_id s :=
    if bool_decide (database_id ∈ databases s)
    then (Ok (PDict [("id", PStr database_id)]), s)
    else (Raise no_database, s)
|}.

Definition remote_page (i title last_edited_time : string) : pyval :=
  PDict [("id", PStr i);
         ("properties",
          PDict [("title",
                  PDict [("title",
                          PList [PDict [("type", PStr "text");
                                        ("text", PDict [("content", PStr title)])]])])]);
         ("last_edited_time", PStr last_edited_time)].

End MemoryGateway.

Module Examples.
Import Py Datetime World MemoryGateway BlockConverter.
Local Open Scope Z_scope.

Definition configured : config :=
  Config (Some "secret") (Some "parent") (Some "./docs").

(** 2024-01-01T12:00:00 UTC, in microseconds since the epoch *)
Definition T0 : Z := 1704110400000000.
Definition second : Z := 1000000.

(** a library for the examples: a header is reread as it was written, as
    YAML does with the headers below, and a handler that is a string is
    taken for a text without replacement fields, the text of the file *)
Definition plain_library : codec :=
  Codec (fun m => m) (fun s _ => Ok (Post ∅ (as_read s))).

(** the header of the integration test *)
Definition test_header : gmap string pyval :=
  <["tags" := PList [PStr "test"; PStr "integration"]]>
    (<["notion_page_id" := PStr "abc123"]>
       (<["title" := PStr "Test Document"]> ∅)).

Definition test_document : post :=
  Post test_header (join_nl ["# Test Document"; ""; "This is a test document."]).

(** a world with one document at [doc.md], last written at [mtime], and one
    remote page [abc123] last edited at [edited]; the local time zone is
    UTC *)
Definition one_document (header : gmap string pyval) (mtime : Z) (edited : string)
    : world store :=
  MkWorld {["doc.md" := File (Document (Post header (content test_document))) mtime]}
          ∅
          (Store {["abc123" := (remote_page "abc123" "Test Document" edited, [])]} ∅)
          (T0 + 10 * second) 0 [] plain_library.

Definition synced_header : gmap string pyval :=
  <["last_synced" := PStr "2024-01-01T12:00:00"]> test_header.

(** a world with the pulled file of a page titled [Notes] already there *)
Definition pull_world (title : string) : world store :=
  MkWorld {["./docs/notes.md" := File (Document (Post ∅ "my own notes")) T0]}
          ∅
          (Store {["0123456789abcdef" :=
                     (remote_page "0123456789abcdef" title "2024-01-01T12:00:00.000Z",
                      [_create_paragraph_block "remote text"])]} ∅)
          (T0 + 10 * second) 0 [] plain_library.

(** the content of the document at [path], if there is one *)
Definition content_at {R} (path : string) (w : world R) : option string :=
  match fs w !! path with
  | Some (File (Document p) _) => Some (content p)
  | _ => None
  end.

(** the method a call was made on *)
Definition call_name (c : call) : string :=
  match c with
  | GetPage _ => "get_page"
  | GetPageBlocks _ => "get_page_blocks"
  | UpdatePageBlocks _ _ => "update_page_blocks"
  | CreatePage _ _ _ => "create_page"
  | DatabasesRetrieve _ => "databases_retrieve"
  end.

(** the header of a document never pushed, and of one whose page is gone *)
Definition unlinked_header : gmap string pyval :=
  <["title" := PStr "Test Document"]> ∅.
Definition stale_header : gmap string pyval :=
  <["notion_page_id" := PStr "gone"]> unlinked_header.

End Examples.

(** * Auxiliary notions for the statements and proofs *)

Module Aux.
Import Py BlockConverter.

Definition rfix (s : string) : Prop := rstrip s = s.

(** A line as [strip] leaves it when it is not blank: it neither starts nor
    ends with white space. *)
Record tight (s : string) : Prop := Tight {
  tight_nonempty : is_empty s = false;
  tight_left : lstrip s = s;
  tight_right : rfix s
}.

Fixpoint nl_free (s : string) : bool :=
  match s with
  | EmptyString => true
  | String c s' => negb (Ascii.eqb c newline) && nl_free s'
  end.

Fixpoint cr_free (s : string) : bool :=
  match s with
  | EmptyString => true
  | String c s' => negb (Ascii.eqb c carriage_return) && cr_free s'
  end.

(** a line that ends a fenced region *)
Definition closes (l : string) : bool := startswith fence (strip l).

(** The lines of a fenced region up to its closing line, and the lines
    after it: what the inner loop collects and where the outer loop
    resumes. *)
Fixpoint code_span (ls : list string) : list string * list string :=
  match ls with
  | [] => ([], [])
  | l :: ls' =>
      if closes l then ([], ls')
      else let '(c, r) := code_span ls' in (l :: c, r)
  end.

(** the lines [split('\n')] finds in the joined entries of [markdown_lines] *)
Fixpoint reflow (out : list string) : list string :=
  match out with
  | [] => []
  | x :: more => (split_nl x ++ reflow more)%list
  end.

(** The count the specification gives for the blocks of a body: one for
    every non-blank line outside a fenced region, one for every fenced
    region.  [in_fence] tells whether the line at hand lies inside a region
    that an earlier line opened. *)
Fixpoint block_units (in_fence : bool) (lines : list string) : nat :=
  match lines with
  | [] => 0
  | l :: rest =>
      if in_fence then block_units (negb (closes l)) rest
      else if is_empty (strip l) then block_units false rest
      else if startswith fence (strip l) then S (block_units true rest)
      else S (block_units false rest)
  end.

(** the tags of the blocks that carry nothing but their rich text *)
Definition plain_tags : list string :=
  ["heading_1"; "heading_2"; "heading_3"; "paragraph"; "quote";
   "bulleted_list_item"; "numbered_list_item"].

(** [t] occurs in [s] as a run of consecutive characters *)
Definition within (t s : string) : Prop := exists a b, s = a +:+ t +:+ b.

(** The remote block object built from [body]: [{type: t, t: {rich_text:
    [{type: "text", text: {content: c}}]}}], where the content [c] is text
    of the body; a code block has [language] besides, text of the body as
    well. *)
Definition well_formed_block (body : string) (b : pyval) : Prop :=
  (exists t content,
      In t plain_tags /\ within content body
      /\ b = PDict [("type", PStr t);
                    (t, PDict [("rich_text", rich_text_of content)])])
  \/ (exists content language,
         within content body /\ within language body
         /\ b = PDict [("type", PStr "code");
                       ("code", PDict [("rich_text", rich_text_of content);
                                       ("language", PStr language)])]).

End Aux.

Module Paths.
Import Py World.

(** the header [update_frontmatter] writes: the updates laid over the old
    header, in their order *)
Definition merge (m : gmap string pyval) (u : list (string * pyval))
    : gmap string pyval :=
  foldl (fun m kv => <[kv.1 := kv.2]> m) m u.





End Paths.

(** * Further notions: the blocks the converter writes and reads back *)

Module AuxExtra.
Import Py BlockConverter Aux.

(** every character of [s] satisfies [p] *)
Fixpoint all_chars (p : ascii -> bool) (s : string) : bool :=
  match s with
  | EmptyString => true
  | String c s' => p c && all_chars p s'
  end.

(** a text the parser takes for a paragraph: trimmed, on one line, and of
    none of the five other shapes *)
Record plain_text (t : string) : Prop := PlainText {
  plain_tight : tight t;
  plain_line : nl_free t = true;
  plain_no_heading : heading_match t = None;
  plain_no_fence : startswith fence t = false;
  plain_no_bullet : startswith "- " t || startswith "* " t = false;
  plain_no_number : numbered_match t = None;
  plain_no_quote : startswith "> " t = false
}.

(** The blocks in the form [markdown_to_blocks] gives them: a heading of
    level 1 to 3, a list item or a quote with a trimmed text on one line, a
    paragraph with a plain text, a code block whose language is trimmed and
    whose lines do not begin with the fence. *)
Inductive canonical : pyval -> Prop :=
| canonical_heading n t :
    1 <= n <= 3 -> tight t -> nl_free t = true ->
    canonical (_create_heading_block t n)
| canonical_paragraph t :
    plain_text t -> canonical (_create_paragraph_block t)
| canonical_code text language :
    strip language = language -> nl_free language = true ->
    Forall (fun l => closes l = false) (split_nl text) ->
    canonical (_create_code_block text language)
| canonical_quote t :
    tight t -> nl_free t = true -> canonical (_create_quote_block t)
| canonical_bullet t :
    tight t -> nl_free t = true -> canonical (_create_bullet_list_item t)
| canonical_numbered t :
    tight t -> nl_free t = true -> canonical (_create_numbered_list_item t).

(** the tags [blocks_to_markdown] has a branch for *)
Definition handled_tags : list string :=
  ["heading_1"; "heading_2"; "heading_3"; "paragraph"; "code"; "quote";
   "bulleted_list_item"; "numbered_list_item"].

Fixpoint mem (x : string) (l : list string) : bool :=
  match l with
  | [] => false
  | y :: l' => String.eqb x y || mem x l'
  end.

(** a block object [blocks_to_markdown] has a branch for: a dictionary whose
    [type] is one of the handled tags *)
Definition supported (b : pyval) : bool :=
  match b with
  | PDict d => match assoc "type" d with
               | Some (PStr t) => mem t handled_tags
               | _ => false
               end
  | _ => false
  end.

(** a block object of any other type (or of none) *)
Definition unsupported (b : pyval) : Prop :=
  exists d, b = PDict d /\ supported b = false.

(** a block object of a handled type [t] that lacks its payload [t] *)
Definition lacks_payload (t : string) (b : pyval) : Prop :=
  exists d, b = PDict d /\ In t handled_tags
            /\ assoc "type" d = Some (PStr t) /\ assoc t d = None.

End AuxExtra.

Module EngineAux.
Import Py Datetime World.

(** a computation that leaves the files, the clock, the time zone and the
    library as they are *)
Definition keeps_files {R A} (m : M (R:=R) A) : Prop :=
  forall w r w', m w = (r, w') ->
    fs w' = fs w /\ readonly w' = readonly w
    /\ clock w' = clock w /\ local_offset w' = local_offset w
    /\ library w' = library w.

(** a computation that changes no file but the one at [path] *)
Definition touches_only {R A} (path : string) (m : M (R:=R) A) : Prop :=
  forall w r w', m w = (r, w') ->
    (forall q, q <> path -> fs w' !! q = fs w !! q)
    /\ readonly w' = readonly w
    /\ clock w' = clock w /\ local_offset w' = local_offset w
    /\ library w' = library w.

(** a header that is read back from its file as it was written *)
Definition rereads_unchanged {R} (w : world R) (m : gmap string pyval) : Prop :=
  reread (library w) m = m.

(** a character of a file name made of a title *)
Definition name_char (c : ascii) : bool :=
  is_alnum c || Ascii.eqb c "-" || Ascii.eqb c "_".

(** the title of a remote page, as the pull reads it:
    [page.get("properties", {}).get("title", {}).get("title", [{}])[0]
         .get("text", {}).get("content", "Untitled")] *)
Definition page_title (page : pyval) : res pyval :=
  let* properties := get page "properties" (PDict []) in
  let* title_property := get properties "title" (PDict []) in
  let* title_items := get title_property "title" (PList [PDict []]) in
  let* first := getitem0 title_items in
  let* text := get first "text" (PDict []) in
  get text "content" (PStr "Untitled").

(** the time a push or a pull writes into [last_synced]:
    [datetime.now().isoformat()] *)
Definition stamp {R} (w : world R) : pyval :=
  PStr (isoformat (fromtimestamp (local_offset w) (clock w))).

(** an outcome of an entry point that is not a success *)
Definition failed (r : res (bool * string)) : Prop :=
  match r with
  | Ok (b, _) => b = false
  | Raise _ => True
  end.

(** a computation that has changed no file when it does not succeed *)
Definition fails_clean {R} (m : M (R:=R) (bool * string)) : Prop :=
  forall w r w', m w = (r, w') -> failed r -> fs w' = fs w.

(** the files after [open(path, 'w')] and nothing written *)
Definition emptied_at {R} (path : string) (w : world R) : gmap string file :=
  <[path := File emptied (clock w)]> (fs w).

(** a computation that, when it does not succeed, has changed no file or
    has only emptied one *)
Definition fails_softly {R} (m : M (R:=R) (bool * string)) : Prop :=
  forall w r w', m w = (r, w') -> failed r ->
    fs w' = fs w \/ exists path, fs w' = emptied_at path w.


End EngineAux.
(** * Facts about the string primitives *)

Module TextFacts.
Import Aux.

Lemma append_empty_r (s : string) : s +:+ "" = s.
Proof. induction s as [|c s IH]; simpl; [reflexivity | now rewrite IH]. Qed.

Lemma append_assoc (a b c : string) : (a +:+ b) +:+ c = a +:+ b +:+ c.
Proof. induction a as [|x a IH]; simpl; [reflexivity | now rewrite IH]. Qed.

Lemma rstrip_cons_keep c s :
  is_space c = false -> rstrip (String c s) = String c (rstrip s).
Proof. intros Hc. simpl. rewrite Hc. now destruct (rstrip s). Qed.

Lemma rfix_cons c s : rfix s -> is_empty s = false -> rfix (String c s).
Proof.
  unfold rfix. intros Hs Hne. simpl. rewrite Hs. destruct s; [discriminate | reflexivity].
Qed.

Lemma rfix_tail c s : rfix (String c s) -> rfix s.
Proof.
  unfold rfix. simpl. destruct (rstrip s) as [|d r] eqn:E.
  - destruct (is_space c); intros H; [discriminate | now inversion H].
  - intros H. now inversion H.
Qed.

Lemma rfix_head_of_single c : rfix (String c "") -> is_space c = false.
Proof. unfold rfix. simpl. now destruct (is_space c). Qed.

Lemma rfix_skip n s : rfix s -> rfix (skip n s).
Proof.
  revert s. induction n as [|n IH]; intros s Hs; [exact Hs |].
  destruct s as [|c s]; [exact Hs |]. simpl. apply IH. eapply rfix_tail; eauto.
Qed.

Lemma rfix_lstrip s : rfix s -> rfix (lstrip s).
Proof.
  induction s as [|c s IH]; intros Hs; [exact Hs |]. simpl.
  destruct (is_space c); [apply IH; eapply rfix_tail; eauto | exact Hs].
Qed.

Lemma rstrip_idem s : rfix (rstrip s).
Proof.
  unfold rfix. induction s as [|c s IH]; [reflexivity |]. simpl.
  destruct (rstrip s) as [|d r] eqn:E.
  - destruct (is_space c) eqn:Hc; [reflexivity |]. simpl. now rewrite Hc.
  - change (rstrip (String c (String d r)) = String c (String d r)).
    apply rfix_cons; [exact IH | reflexivity].
Qed.

Lemma lstrip_idem s : lstrip (lstrip s) = lstrip s.
Proof.
  induction s as [|c s IH]; [reflexivity |]. simpl.
  destruct (is_space c) eqn:Hc; [exact IH |]. simpl. now rewrite Hc.
Qed.

Lemma lstrip_head c s : is_space c = false -> lstrip (String c s) = String c s.
Proof. intros Hc. simpl. now rewrite Hc. Qed.

Lemma lstrip_result_head s c u : lstrip s = String c u -> is_space c = false.
Proof.
  induction s as [|d s IH]; [discriminate |]. simpl.
  destruct (is_space d) eqn:Hd; [exact IH |]. intros H. now inversion H; subst.
Qed.

Lemma lstrip_rstrip_lstrip s : lstrip (rstrip (lstrip s)) = rstrip (lstrip s).
Proof.
  destruct (lstrip s) as [|c u] eqn:E; [reflexivity |].
  pose proof (lstrip_result_head _ _ _ E) as Hc.
  rewrite rstrip_cons_keep by exact Hc. now apply lstrip_head.
Qed.

Lemma strip_idem s : strip (strip s) = strip s.
Proof. unfold strip. rewrite lstrip_rstrip_lstrip. apply rstrip_idem. Qed.

Lemma cr_free_lstrip s : cr_free s = true -> cr_free (lstrip s) = true.
Proof.
  induction s as [|c s IH]; [reflexivity |]. intros H. simpl.
  destruct (is_space c); [| exact H]. simpl in H.
  apply andb_prop in H. now apply IH.
Qed.

Lemma cr_free_rstrip s : cr_free s = true -> cr_free (rstrip s) = true.
Proof.
  induction s as [|c s IH]; [reflexivity |]. simpl. intros H.
  apply andb_prop in H. destruct H as [Hc Hs]. specialize (IH Hs).
  destruct (rstrip s) eqn:E.
  - destruct (is_space c); [reflexivity | simpl; now rewrite Hc].
  - simpl in *. now rewrite Hc.
Qed.

Lemma cr_free_strip s : cr_free s = true -> cr_free (strip s) = true.
Proof. intros H. unfold strip. now apply cr_free_rstrip, cr_free_lstrip. Qed.

Lemma universal_newlines_cr_free s : cr_free (universal_newlines s) = true.
Proof.
  assert (H : forall n s, String.length s <= n ->
                          cr_free (universal_newlines s) = true).
  { clear s. induction n as [|n IH]; intros [|c s] Hn; try reflexivity;
      cbn [String.length] in Hn; [lia |].
    cbn [universal_newlines].
    destruct (Ascii.eqb c carriage_return) eqn:Ec.
    - cbn [cr_free]. change (Ascii.eqb newline carriage_return) with false.
      cbn [negb andb]. destruct s as [|d s]; [reflexivity |].
      cbn [String.length] in Hn.
      destruct (Ascii.eqb d newline); apply IH; cbn [String.length]; lia.
    - cbn [cr_free]. rewrite Ec. cbn [negb andb]. apply IH. lia. }
  now apply (H (String.length s)).
Qed.

Lemma universal_newlines_id s : cr_free s = true -> universal_newlines s = s.
Proof.
  induction s as [|c s IH]; [reflexivity |]. cbn [cr_free universal_newlines].
  intros H. apply andb_prop in H. destruct H as [Hc Hs].
  destruct (Ascii.eqb c carriage_return); [discriminate |]. now rewrite IH.
Qed.

(** reading a body that was read gives the same body *)
Lemma read_twice s :
  strip (universal_newlines (strip (universal_newlines s)))
  = strip (universal_newlines s).
Proof.
  rewrite (universal_newlines_id (strip (universal_newlines s))).
  - apply strip_idem.
  - apply cr_free_strip, universal_newlines_cr_free.
Qed.

Lemma strip_tight_iff s : tight s -> strip s = s.
Proof. intros [_ Hl Hr]. unfold strip. now rewrite Hl. Qed.

Lemma tight_strip raw : is_empty (strip raw) = false -> tight (strip raw).
Proof.
  intros Hne. split; [exact Hne | apply lstrip_rstrip_lstrip | apply rstrip_idem].
Qed.

Lemma rfix_lstrip_empty s : rfix s -> lstrip s = "" -> s = "".
Proof.
  induction s as [|c s IH]; [reflexivity |]. intros Hs. simpl.
  destruct (is_space c) eqn:Hc; [| discriminate].
  intros Hl. rewrite (IH (rfix_tail _ _ Hs) Hl) in Hs.
  apply rfix_head_of_single in Hs. congruence.
Qed.

Lemma tight_lstrip_rfix s : rfix s -> is_empty s = false -> tight (lstrip s).
Proof.
  intros Hs Hne. split.
  - destruct (lstrip s) eqn:E; [| reflexivity].
    apply rfix_lstrip_empty in E; [subst; discriminate | exact Hs].
  - apply lstrip_idem.
  - now apply rfix_lstrip.
Qed.

Lemma tight_strip_rfix s : rfix s -> is_empty s = false -> strip s = lstrip s.
Proof.
  intros Hs Hne. unfold strip. now apply rfix_lstrip.
Qed.

Lemma tight_app_head c p s :
  is_space c = false -> tight s -> tight (String c (p +:+ s)).
Proof.
  intros Hc [Hne Hl Hr]. split; [reflexivity | now apply lstrip_head |].
  apply rfix_cons.
  - induction p as [|d p IH]; [exact Hr |]. simpl.
    apply rfix_cons; [exact IH |]. destruct p; [now destruct s | reflexivity].
  - destruct p; [exact Hne | reflexivity].
Qed.

Lemma tight_head s : tight s -> exists c u, s = String c u /\ is_space c = false.
Proof.
  intros [Hne Hl _]. destruct s as [|c u]; [discriminate |].
  exists c, u. split; [reflexivity |]. eapply lstrip_result_head; eauto.
Qed.

(** *** Newlines: [split] and [join] *)

Lemma split_nl_nonempty s : split_nl s <> [].
Proof.
  destruct s as [|c s]; simpl; [discriminate |].
  destruct (Ascii.eqb c newline); [discriminate |].
  destruct (split_nl s); discriminate.
Qed.

Lemma split_nl_app a b :
  split_nl (a +:+ String newline b) = (split_nl a ++ split_nl b)%list.
Proof.
  induction a as [|c a IH]; simpl.
  - reflexivity.
  - destruct (Ascii.eqb c newline); [now rewrite IH |].
    rewrite IH. destruct (split_nl a) eqn:E; [now apply split_nl_nonempty in E |].
    reflexivity.
Qed.

Lemma split_nl_free s : nl_free s = true -> split_nl s = [s].
Proof.
  induction s as [|c s IH]; [reflexivity |]. simpl.
  destruct (Ascii.eqb c newline); [discriminate |]. simpl.
  intros H. now rewrite IH.
Qed.

Lemma split_nl_all_free s : Forall (fun l => nl_free l = true) (split_nl s).
Proof.
  induction s as [|c s IH]; simpl; [repeat constructor |].
  destruct (Ascii.eqb c newline) eqn:Hc; [constructor; [reflexivity | exact IH] |].
  destruct (split_nl s) as [|h t]; [repeat constructor; simpl; now rewrite Hc |].
  inversion IH; subst. constructor; [simpl; rewrite Hc; assumption | assumption].
Qed.

Lemma join_split_nl s : join_nl (split_nl s) = s.
Proof.
  induction s as [|c s IH]; [reflexivity |]. simpl.
  destruct (Ascii.eqb c newline) eqn:Hc.
  - apply Ascii.eqb_eq in Hc. subst c.
    destruct (split_nl s) eqn:E; [now apply split_nl_nonempty in E |].
    change (join_nl ("" :: s0 :: l)) with ("" +:+ String newline (join_nl (s0 :: l))).
    now rewrite IH.
  - destruct (split_nl s) as [|h t] eqn:E; [now apply split_nl_nonempty in E |].
    destruct t as [|h' t]; simpl in *; now rewrite <- IH.
Qed.

Lemma split_join_nl (ls : list string) :
  ls <> [] -> Forall (fun l => nl_free l = true) ls -> split_nl (join_nl ls) = ls.
Proof.
  induction ls as [|x ls IH]; [congruence |]. intros _ Hf.
  inversion Hf as [|? ? Hx Hls]; subst.
  destruct ls as [|y ls]; [now apply split_nl_free |].
  change (join_nl (x :: y :: ls)) with (x +:+ String newline (join_nl (y :: ls))).
  rewrite split_nl_app, split_nl_free by exact Hx.
  rewrite IH by (try discriminate; exact Hls). reflexivity.
Qed.

Lemma nl_free_lstrip s : nl_free s = true -> nl_free (lstrip s) = true.
Proof.
  induction s as [|c s IH]; [reflexivity |]. intros H. simpl.
  destruct (is_space c); [| exact H]. simpl in H.
  apply andb_prop in H. now apply IH.
Qed.

Lemma nl_free_rstrip s : nl_free s = true -> nl_free (rstrip s) = true.
Proof.
  induction s as [|c s IH]; [reflexivity |]. simpl. intros H.
  apply andb_prop in H. destruct H as [Hc Hs]. specialize (IH Hs).
  destruct (rstrip s) eqn:E.
  - destruct (is_space c); [reflexivity | simpl; now rewrite Hc].
  - simpl in *. now rewrite Hc.
Qed.

Lemma nl_free_strip s : nl_free s = true -> nl_free (strip s) = true.
Proof. intros H. unfold strip. now apply nl_free_rstrip, nl_free_lstrip. Qed.

Lemma nl_free_skip n s : nl_free s = true -> nl_free (skip n s) = true.
Proof.
  revert s. induction n as [|n IH]; intros s H; [exact H |].
  destruct s as [|c s]; [reflexivity |]. simpl in *.
  apply andb_prop in H. now apply IH.
Qed.

Lemma nl_free_app a b :
  nl_free a = true -> nl_free b = true -> nl_free (a +:+ b) = true.
Proof.
  induction a as [|c a IH]; simpl; [auto |]. intros H Hb.
  apply andb_prop in H. destruct H as [-> Ha]. simpl. now apply IH.
Qed.

(** *** Text within a text *)

Lemma within_refl s : within s s.
Proof. exists "", "". now rewrite append_empty_r. Qed.

Lemma within_trans a b c : within a b -> within b c -> within a c.
Proof.
  intros (x & y & ->) (u & v & ->). exists (u +:+ x), (y +:+ v).
  now rewrite !append_assoc.
Qed.

Lemma within_suffix a s : within s (a +:+ s).
Proof. exists a, "". now rewrite append_empty_r. Qed.

Lemma within_prefix s b : within s (s +:+ b).
Proof. now exists "", b. Qed.

Lemma within_empty s : within "" s.
Proof. now exists "", s. Qed.

Lemma skip_suffix n s : exists a, s = a +:+ skip n s.
Proof.
  revert s. induction n as [|n IH]; intros s; [now exists "" |].
  destruct s as [|c s]; [now exists "" |]. destruct (IH s) as [a Ha].
  exists (String c a). cbn [skip]. now rewrite Ha at 1.
Qed.

Lemma within_skip n s : within (skip n s) s.
Proof. destruct (skip_suffix n s) as [a Ha]. rewrite Ha at 2. apply within_suffix. Qed.

Lemma lstrip_suffix s : exists a, s = a +:+ lstrip s.
Proof.
  induction s as [|c s [a Ha]]; [now exists "" |]. cbn [lstrip].
  destruct (is_space c); [| now exists ""].
  exists (String c a). now rewrite Ha at 1.
Qed.

Lemma within_lstrip s : within (lstrip s) s.
Proof. destruct (lstrip_suffix s) as [a Ha]. rewrite Ha at 2. apply within_suffix. Qed.

Lemma rstrip_prefix s : exists b, s = rstrip s +:+ b.
Proof.
  induction s as [|c s [b Hb]]; [now exists "" |]. cbn [rstrip].
  destruct (rstrip s) as [|d r] eqn:E.
  - destruct (is_space c); [now exists (String c s) |].
    exists s. reflexivity.
  - exists b. cbn. now rewrite Hb at 1.
Qed.

Lemma within_rstrip s : within (rstrip s) s.
Proof. destruct (rstrip_prefix s) as [b Hb]. rewrite Hb at 2. apply within_prefix. Qed.

Lemma within_strip s : within (strip s) s.
Proof.
  unfold strip. eapply within_trans; [apply within_rstrip | apply within_lstrip].
Qed.

Lemma join_nl_app (a b : list string) :
  a <> [] -> b <> [] ->
  join_nl (a ++ b)%list = join_nl a +:+ String newline (join_nl b).
Proof.
  intros Ha Hb. induction a as [|x a IH]; [congruence |].
  destruct a as [|y a].
  - destruct b; [congruence | reflexivity].
  - change (join_nl ((x :: y :: a) ++ b)%list)
      with (x +:+ String newline (join_nl ((y :: a) ++ b)%list)).
    rewrite IH by discriminate.
    change (join_nl (x :: y :: a)) with (x +:+ String newline (join_nl (y :: a))).
    now rewrite append_assoc.
Qed.

(** consecutive lines of a text, joined, are text of it *)
Lemma within_lines (pre mid post : list string) s :
  split_nl s = (pre ++ mid ++ post)%list -> within (join_nl mid) s.
Proof.
  intros H. rewrite <- (join_split_nl s), H.
  destruct mid as [|m mid]; [apply within_empty |].
  assert (Hmid : within (join_nl (m :: mid)) (join_nl ((m :: mid) ++ post)%list)).
  { destruct post as [|p post]; [rewrite app_nil_r; apply within_refl |].
    rewrite join_nl_app by discriminate. apply within_prefix. }
  eapply within_trans; [exact Hmid |].
  destruct pre as [|p pre]; [apply within_refl |].
  rewrite (join_nl_app (p :: pre) ((m :: mid) ++ post)) by (cbn; congruence).
  exists (join_nl (p :: pre) +:+ String newline ""), "".
  now rewrite append_empty_r, append_assoc.
Qed.

End TextFacts.

(** * Facts about the converter *)

Module ConverterFacts.
Import Py BlockConverter Aux TextFacts.

Lemma code_loop_span lang ls acc :
  code_loop parse_lines lang ls acc
  = _create_code_block (join_nl (acc ++ fst (code_span ls))%list) lang
      :: parse_lines (snd (code_span ls)).
Proof.
  revert acc. induction ls as [|l ls IH]; intros acc; cbn [code_loop code_span].
  - cbn [fst snd parse_lines]. now rewrite app_nil_r.
  - fold (closes l). destruct (closes l); cbn [fst snd].
    + now rewrite app_nil_r.
    + rewrite IH. destruct (code_span ls) as [c r]. cbn [fst snd].
      now rewrite <- List.app_assoc.
Qed.

Lemma code_span_length ls : length (snd (code_span ls)) <= length ls.
Proof.
  induction ls as [|l ls IH]; simpl; [lia |].
  destruct (closes l); simpl; [lia |].
  destruct (code_span ls); simpl in *; lia.
Qed.

Lemma code_span_open ls : Forall (fun l => closes l = false) (fst (code_span ls)).
Proof.
  induction ls as [|l ls IH]; simpl; [constructor |].
  destruct (closes l) eqn:E; simpl; [constructor |].
  destruct (code_span ls); simpl in *. now constructor.
Qed.

Lemma code_span_free ls :
  Forall (fun l => nl_free l = true) ls ->
  Forall (fun l => nl_free l = true) (fst (code_span ls))
  /\ Forall (fun l => nl_free l = true) (snd (code_span ls)).
Proof.
  induction ls as [|l ls IH]; simpl; [now split |].
  intros H. inversion H as [|? ? Hl Hls]; subst.
  destruct (closes l); simpl; [now split |].
  destruct (code_span ls), (IH Hls); simpl in *. split; [now constructor | assumption].
Qed.

Lemma code_span_app c more :
  Forall (fun l => closes l = false) c ->
  code_span (c ++ fence :: more)%list = (c, more).
Proof.
  induction c as [|l c IH]; intros H; simpl; [reflexivity |].
  inversion H as [|? ? Hl Hc]; subst. rewrite Hl, IH by exact Hc. reflexivity.
Qed.

Lemma count_leading_le p s : count_leading p s <= String.length s.
Proof. induction s as [|c s IH]; simpl; [lia |]. destruct (p c); simpl; lia. Qed.

Lemma length_keep n s : n <= String.length s -> String.length (keep n s) = n.
Proof.
  revert s. induction n as [|n IH]; intros s H; [reflexivity |].
  destruct s as [|c s]; simpl in *; [lia |]. rewrite IH; lia.
Qed.

Lemma ws_then_text_tight r t :
  rfix r -> ws_then_text r = Some t ->
  tight t /\ (nl_free r = true -> nl_free t = true).
Proof.
  destruct r as [|c r]; [discriminate |]. intros Hr. simpl.
  destruct (is_space c); [| discriminate].
  pose proof (rfix_tail _ _ Hr) as Hr'.
  destruct (lstrip r) as [|d u] eqn:E.
  - apply rfix_lstrip_empty in E; [| exact Hr']. subst r. discriminate.
  - intros [= <-]. rewrite <- E. split.
    + apply tight_lstrip_rfix; [exact Hr' |]. destruct r; [discriminate | reflexivity].
    + intros H. apply andb_prop in H. now apply nl_free_lstrip.
Qed.

Lemma heading_match_spec line h t :
  rfix line -> heading_match line = Some (h, t) ->
  (1 <= String.length h <= 3) /\ tight t
  /\ (nl_free line = true -> nl_free t = true).
Proof.
  intros Hl. unfold heading_match.
  set (n := count_leading is_hash line).
  destruct ((1 <=? n) && (n <=? 3)) eqn:En; [| discriminate].
  destruct (ws_then_text (skip n line)) as [t'|] eqn:Ew; [| discriminate].
  intros [= <- <-].
  apply andb_prop in En. destruct En as [E1 E3].
  apply Nat.leb_le in E1. apply Nat.leb_le in E3.
  rewrite length_keep by apply count_leading_le.
  destruct (ws_then_text_tight _ _ (rfix_skip n _ Hl) Ew) as [Ht Hf].
  split; [lia | split; [exact Ht |]]. intros H. now apply Hf, nl_free_skip.
Qed.

Lemma numbered_match_spec line t :
  rfix line -> numbered_match line = Some t ->
  tight t /\ (nl_free line = true -> nl_free t = true).
Proof.
  intros Hl. unfold numbered_match.
  set (n := count_leading is_digit line).
  destruct (1 <=? n); [| discriminate].
  pose proof (rfix_skip n _ Hl) as Hs.
  destruct (skip n line) as [|c r] eqn:E; [discriminate |].
  destruct (Ascii.eqb c "."%char) eqn:Ec.
  - apply Ascii.eqb_eq in Ec. subst c. intros Hw.
    destruct (ws_then_text_tight _ _ (rfix_tail _ _ Hs) Hw) as [Ht Hf].
    split; [exact Ht |]. intros H.
    apply (nl_free_skip n) in H. rewrite E in H. apply andb_prop in H. now apply Hf.
  - intros H. exfalso. revert H Ec.
    destruct c as [[] [] [] [] [] [] [] []]; simpl; congruence.
Qed.

Arguments startswith !p !s.

Lemma parse_lines_tight line more :
  tight line ->
  parse_lines (line :: more) =
    match heading_match line with
    | Some (hashes, text) =>
        _create_heading_block text (String.length hashes) :: parse_lines more
    | None =>
        if startswith fence line then
          code_loop parse_lines (strip (skip 3 line)) more []
        else if startswith "- " line || startswith "* " line then
          _create_bullet_list_item (strip (skip 2 line)) :: parse_lines more
        else
          match numbered_match line with
          | Some text => _create_numbered_list_item text :: parse_lines more
          | None =>
              if startswith "> " line then
                _create_quote_block (strip (skip 2 line)) :: parse_lines more
              else _create_paragraph_block line :: parse_lines more
          end
    end.
Proof.
  intros Ht. cbn [parse_lines].
  rewrite (strip_tight_iff _ Ht), (tight_nonempty _ Ht). reflexivity.
Qed.

Lemma parse_lines_blank more : parse_lines ("" :: more) = parse_lines more.
Proof. reflexivity. Qed.

Lemma count_leading_repeat n c s :
  is_hash c = false ->
  count_leading is_hash (repeat_char "#" n +:+ String c s) = n.
Proof. intros Hc. induction n as [|n IH]; simpl; [now rewrite Hc | now rewrite IH]. Qed.

Lemma skip_repeat n x s : skip n (repeat_char x n +:+ s) = s.
Proof. induction n as [|n IH]; simpl; [reflexivity | exact IH]. Qed.

Lemma keep_repeat n x s : keep n (repeat_char x n +:+ s) = repeat_char x n.
Proof. induction n as [|n IH]; simpl; [reflexivity | now rewrite IH]. Qed.

Lemma length_repeat n x : String.length (repeat_char x n) = n.
Proof. induction n as [|n IH]; simpl; [reflexivity | now rewrite IH]. Qed.

Lemma ws_then_text_render c t :
  is_space c = true -> tight t -> ws_then_text (String c t) = Some t.
Proof.
  intros Hc [Hne Hl _]. unfold ws_then_text. rewrite Hc, Hl.
  destruct t; [discriminate | reflexivity].
Qed.

Lemma space_is_space : is_space " " = true.
Proof. reflexivity. Qed.

(** *** Every shape of line [blocks_to_markdown] writes is read back *)

Lemma reparse_heading n t more :
  1 <= n <= 3 -> tight t ->
  parse_lines ((repeat_char "#" n +:+ " " +:+ t) :: more)
  = _create_heading_block t n :: parse_lines more.
Proof.
  intros Hn Ht.
  assert (Hline : tight (repeat_char "#" n +:+ " " +:+ t)).
  { destruct n as [|n]; [lia |].
    change (tight (String "#" (repeat_char "#" n +:+ " " +:+ t))).
    rewrite <- append_assoc. now apply tight_app_head. }
  rewrite (parse_lines_tight _ _ Hline).
  assert (Hm : heading_match (repeat_char "#" n +:+ " " +:+ t)
               = Some (repeat_char "#" n, t)).
  { unfold heading_match. change (" " +:+ t) with (String " " t).
    rewrite count_leading_repeat by reflexivity.
    replace ((1 <=? n) && (n <=? 3)) with true
      by (symmetry; apply andb_true_intro; split; apply Nat.leb_le; lia).
    rewrite skip_repeat, keep_repeat.
    now rewrite (ws_then_text_render _ _ space_is_space Ht). }
  rewrite Hm, length_repeat. reflexivity.
Qed.

Lemma not_heading c s : is_hash c = false -> heading_match (String c s) = None.
Proof. intros Hc. unfold heading_match. cbn [count_leading]. now rewrite Hc. Qed.

Lemma not_numbered c s : is_digit c = false -> numbered_match (String c s) = None.
Proof. intros Hc. unfold numbered_match. cbn [count_leading]. now rewrite Hc. Qed.

Lemma strip_of_tight t : tight t -> strip t = t.
Proof. apply strip_tight_iff. Qed.

Lemma reparse_bullet t more :
  tight t ->
  parse_lines (("- " +:+ t) :: more) = _create_bullet_list_item t :: parse_lines more.
Proof.
  intros Ht.
  assert (Hline : tight ("- " +:+ t)) by (now apply (tight_app_head "-" " " t)).
  rewrite (parse_lines_tight _ _ Hline).
  change ("- " +:+ t) with (String "-" (String " " t)).
  rewrite not_heading by reflexivity.
  cbn [startswith Ascii.eqb Bool.eqb fence orb skip].
  now rewrite strip_of_tight.
Qed.

Lemma reparse_quote t more :
  tight t ->
  parse_lines (("> " +:+ t) :: more) = _create_quote_block t :: parse_lines more.
Proof.
  intros Ht.
  assert (Hline : tight ("> " +:+ t)) by (now apply (tight_app_head ">" " " t)).
  rewrite (parse_lines_tight _ _ Hline).
  change ("> " +:+ t) with (String ">" (String " " t)).
  rewrite not_heading, not_numbered by reflexivity.
  cbn [startswith Ascii.eqb Bool.eqb fence orb skip].
  now rewrite strip_of_tight.
Qed.

Lemma reparse_numbered t more :
  tight t ->
  parse_lines (("1. " +:+ t) :: more) = _create_numbered_list_item t :: parse_lines more.
Proof.
  intros Ht.
  assert (Hline : tight ("1. " +:+ t)) by (now apply (tight_app_head "1" ". " t)).
  rewrite (parse_lines_tight _ _ Hline).
  change ("1. " +:+ t) with (String "1" (String "." (String " " t))).
  rewrite not_heading by reflexivity.
  cbn [startswith Ascii.eqb Bool.eqb fence orb].
  assert (Hm : numbered_match (String "1" (String "." (String " " t))) = Some t).
  { unfold numbered_match.
    change (count_leading is_digit (String "1" (String "." (String " " t)))) with 1.
    cbn [Nat.leb skip]. now apply ws_then_text_render. }
  now rewrite Hm.
Qed.

Lemma reparse_code lang c more :
  strip lang = lang ->
  Forall (fun l => closes l = false) c ->
  parse_lines ((fence +:+ lang) :: c ++ fence :: "" :: more)%list
  = _create_code_block (join_nl c) lang :: parse_lines more.
Proof.
  intros Hlang Hc.
  assert (Hr : rfix lang) by (rewrite <- Hlang; apply rstrip_idem).
  assert (Hline : tight (fence +:+ lang)).
  { change (fence +:+ lang) with (String "`" (String "`" (String "`" lang))).
    split; [reflexivity | now apply lstrip_head |].
    unfold rfix. rewrite !rstrip_cons_keep by reflexivity. now rewrite Hr. }
  rewrite (parse_lines_tight _ _ Hline).
  change (fence +:+ lang) with (String "`" (String "`" (String "`" lang))).
  rewrite not_heading by reflexivity.
  cbn [startswith Ascii.eqb Bool.eqb fence skip].
  rewrite Hlang, code_loop_span, code_span_app by exact Hc.
  cbn [fst snd app]. now rewrite parse_lines_blank.
Qed.

Lemma startswith_2 a b line :
  startswith (String a (String b "")) line = true ->
  exists r, line = String a (String b r).
Proof.
  destruct line as [|x [|y r]]; cbn [startswith]; try discriminate.
  - destruct (Ascii.eqb a x); cbn [startswith]; discriminate.
  - destruct (Ascii.eqb a x) eqn:Ea; [| discriminate]. cbn [startswith].
    destruct (Ascii.eqb b y) eqn:Eb; [| discriminate].
    apply Ascii.eqb_eq in Ea, Eb. subst. intros _. now exists r.
Qed.

(** the text [line[2:].strip()] of a bullet or a quote *)
Lemma prefixed_text a line :
  tight line -> startswith (String a " ") line = true ->
  tight (strip (skip 2 line))
  /\ (nl_free line = true -> nl_free (strip (skip 2 line)) = true).
Proof.
  intros Ht Hs. destruct (startswith_2 _ _ _ Hs) as [r ->].
  cbn [skip]. pose proof (tight_right _ Ht) as Hr.
  apply rfix_tail in Hr. pose proof (rfix_tail _ _ Hr) as Hr'.
  assert (Hne : is_empty r = false).
  { destruct r; [| reflexivity]. apply rfix_head_of_single in Hr. discriminate. }
  rewrite tight_strip_rfix by assumption. split.
  - now apply tight_lstrip_rfix.
  - intros H. apply (nl_free_skip 2) in H. now apply nl_free_lstrip.
Qed.

(** *** What [blocks_to_markdown] writes for the blocks the parser builds *)

Lemma join_single text : join_values [PStr text] = Ok text.
Proof. cbn [join_values res_bind]. now rewrite append_empty_r. Qed.

Lemma text_of_rich_text text :
  _get_text_from_rich_text (rich_text_of text) = Ok text.
Proof. apply join_single. Qed.

Lemma block_lines_heading t n :
  1 <= n <= 3 ->
  block_lines (_create_heading_block t n)
  = Ok [repeat_char "#" n +:+ " " +:+ t; ""].
Proof.
  intros Hn.
  destruct n as [|[|[|[|n]]]]; try lia;
    match goal with
    | |- block_lines ?b = _ =>
        let b' := eval vm_compute in b in change b with b'
    end;
    unfold block_lines, payload_text; cbn; now rewrite append_empty_r.
Qed.

Lemma block_lines_paragraph t :
  block_lines (_create_paragraph_block t) = Ok [t; ""].
Proof.
  unfold block_lines, _create_paragraph_block, payload_text; cbn.
  now rewrite append_empty_r.
Qed.

Lemma block_lines_code t lang :
  block_lines (_create_code_block t lang) = Ok [fence +:+ lang; t; fence; ""].
Proof.
  unfold block_lines, _create_code_block, payload_text; cbn.
  now rewrite append_empty_r.
Qed.

Lemma block_lines_quote t :
  block_lines (_create_quote_block t) = Ok ["> " +:+ t; ""].
Proof.
  unfold block_lines, _create_quote_block, payload_text; cbn.
  now rewrite append_empty_r.
Qed.

Lemma block_lines_bullet t :
  block_lines (_create_bullet_list_item t) = Ok ["- " +:+ t; ""].
Proof.
  unfold block_lines, _create_bullet_list_item, payload_text; cbn.
  now rewrite append_empty_r.
Qed.

Lemma block_lines_numbered t :
  block_lines (_create_numbered_list_item t) = Ok ["1. " +:+ t; ""].
Proof.
  unfold block_lines, _create_numbered_list_item, payload_text; cbn.
  now rewrite append_empty_r.
Qed.

(** *** The round trip *)

Lemma split_join_reflow out : out <> [] -> split_nl (join_nl out) = reflow out.
Proof.
  induction out as [|x out IH]; [congruence |]. intros _.
  destruct out as [|y out].
  - cbn [join_nl reflow]. now rewrite app_nil_r.
  - change (join_nl (x :: y :: out)) with (x +:+ String newline (join_nl (y :: out))).
    rewrite split_nl_app, IH by discriminate. reflexivity.
Qed.

Lemma parse_split_join out :
  parse_lines (split_nl (join_nl out)) = parse_lines (reflow out).
Proof.
  destruct out as [|x out]; [reflexivity |]. now rewrite split_join_reflow.
Qed.

Lemma markdown_lines_cons b bs here there :
  block_lines b = Ok here -> markdown_lines bs = Ok there ->
  markdown_lines (b :: bs) = Ok (here ++ there)%list.
Proof. intros Hb Hbs. cbn [markdown_lines]. now rewrite Hb, Hbs. Qed.

(** a block written on one line [l] and read back from it *)
Lemma step_single b l bs out :
  block_lines b = Ok [l; ""] -> nl_free l = true ->
  (forall more, parse_lines (l :: more) = b :: parse_lines more) ->
  markdown_lines bs = Ok out -> parse_lines (reflow out) = bs ->
  exists out', markdown_lines (b :: bs) = Ok out'
               /\ parse_lines (reflow out') = b :: bs.
Proof.
  intros Hb Hl Hp Hout Hre. exists ([l; ""] ++ out)%list. split.
  - now apply markdown_lines_cons.
  - cbn [app reflow]. rewrite (split_nl_free l Hl). cbn [split_nl app].
    now rewrite Hp, parse_lines_blank, Hre.
Qed.

Lemma closes_empty : closes "" = false.
Proof. reflexivity. Qed.

(** the text of a fenced region, written as one entry, is split again into
    lines none of which closes the region *)
Lemma code_text_lines c :
  Forall (fun l => closes l = false) c ->
  Forall (fun l => nl_free l = true) c ->
  Forall (fun l => closes l = false) (split_nl (join_nl c))
  /\ join_nl (split_nl (join_nl c)) = join_nl c.
Proof.
  intros Hc Hf. split; [| apply join_split_nl].
  destruct c as [|x c]; [repeat constructor |].
  now rewrite split_join_nl.
Qed.

Lemma roundtrip_lines n : forall ls,
  length ls <= n -> Forall (fun l => nl_free l = true) ls ->
  exists out, markdown_lines (parse_lines ls) = Ok out
              /\ parse_lines (reflow out) = parse_lines ls.
Proof.
  induction n as [|n IH]; intros ls Hlen Hfree.
  { destruct ls; [| simpl in Hlen; lia]. now exists []. }
  destruct ls as [|raw rest]; [now exists [] |].
  simpl in Hlen. inversion Hfree as [|? ? Hraw Hrest]; subst.
  assert (IHrest := IH rest ltac:(lia) Hrest).
  destruct (is_empty (strip raw)) eqn:Hblank.
  { cbn [parse_lines]. rewrite Hblank. exact IHrest. }
  pose proof (tight_strip _ Hblank) as Ht.
  pose proof (nl_free_strip _ Hraw) as Hfl.
  assert (Hp : parse_lines (raw :: rest) = parse_lines (strip raw :: rest)).
  { cbn [parse_lines]. now rewrite strip_idem. }
  rewrite Hp, (parse_lines_tight _ _ Ht). clear Hp.
  set (line := strip raw) in *.
  destruct IHrest as (out & Hout & Hre).
  destruct (heading_match line) as [[hashes text]|] eqn:Hh.
  { destruct (heading_match_spec _ _ _ (tight_right _ Ht) Hh) as (Hn & Htext & Hnf).
    eapply step_single
      with (l := repeat_char "#" (String.length hashes) +:+ " " +:+ text);
      [now apply block_lines_heading | | intros; now apply reparse_heading
      | exact Hout | exact Hre].
    apply nl_free_app; [| apply (nl_free_app " "); auto].
    clear. induction (String.length hashes); auto. }
  destruct (startswith fence line) eqn:Hfence.
  { rewrite code_loop_span. cbn [app].
    destruct (code_span_free rest Hrest) as [Hcf Hrf].
    destruct (IH (snd (code_span rest))
                ltac:(pose proof (code_span_length rest); lia) Hrf)
      as (out' & Hout' & Hre').
    set (lang := strip (skip 3 line)).
    set (c := fst (code_span rest)) in *.
    destruct (code_text_lines c (code_span_open rest) Hcf) as [Hopen Hjoin].
    exists ([fence +:+ lang; join_nl c; fence; ""] ++ out')%list. split.
    - apply markdown_lines_cons; [apply block_lines_code | exact Hout'].
    - cbn [app reflow].
      rewrite (split_nl_free (fence +:+ lang)).
      2:{ apply (nl_free_app fence); [reflexivity |].
          apply nl_free_strip, nl_free_skip, Hfl. }
      change (split_nl fence) with [fence]. change (split_nl "") with [""].
      cbn [app].
      rewrite reparse_code by (try apply strip_idem; exact Hopen).
      now rewrite Hjoin, Hre'. }
  destruct (startswith "- " line || startswith "* " line) eqn:Hb.
  { assert (Htext : tight (strip (skip 2 line))
                    /\ (nl_free line = true -> nl_free (strip (skip 2 line)) = true)).
    { apply orb_prop in Hb. destruct Hb as [Hb|Hb]; eapply prefixed_text; eauto. }
    destruct Htext as [Htext Hnf].
    eapply step_single with (l := "- " +:+ strip (skip 2 line));
      [apply block_lines_bullet | | intros; now apply reparse_bullet
      | exact Hout | exact Hre].
    apply (nl_free_app "- "); auto. }
  destruct (numbered_match line) as [text|] eqn:Hnum.
  { destruct (numbered_match_spec _ _ (tight_right _ Ht) Hnum) as (Htext & Hnf).
    eapply step_single with (l := "1. " +:+ text);
      [apply block_lines_numbered | | intros; now apply reparse_numbered
      | exact Hout | exact Hre].
    apply (nl_free_app "1. "); auto. }
  destruct (startswith "> " line) eqn:Hq.
  { destruct (prefixed_text _ _ Ht Hq) as [Htext Hnf].
    eapply step_single with (l := "> " +:+ strip (skip 2 line));
      [apply block_lines_quote | | intros; now apply reparse_quote
      | exact Hout | exact Hre].
    apply (nl_free_app "> "); auto. }
  eapply step_single with (l := line);
    [apply block_lines_paragraph | exact Hfl | | exact Hout | exact Hre].
  intros more. rewrite (parse_lines_tight _ _ Ht), Hh, Hfence, Hb, Hnum, Hq.
  reflexivity.
Qed.

(** *** Fenced regions, counting and the shape of blocks *)

Lemma fence_not_heading line :
  startswith fence line = true -> heading_match line = None.
Proof.
  destruct line as [|c r]; [discriminate |]. cbn [startswith fence].
  destruct (Ascii.eqb "`" c) eqn:E; [| discriminate]. intros _.
  apply Ascii.eqb_eq in E. subst c. now apply not_heading.
Qed.

Lemma fence_not_empty line : startswith fence line = true -> is_empty line = false.
Proof. now destruct line. Qed.

Lemma parse_lines_fence raw rest :
  startswith fence (strip raw) = true ->
  parse_lines (raw :: rest)
  = code_loop parse_lines (strip (skip 3 (strip raw))) rest [].
Proof.
  intros H. cbn [parse_lines].
  now rewrite (fence_not_empty _ H), (fence_not_heading _ H), H.
Qed.

Lemma ws_then_text_within r t : ws_then_text r = Some t -> within t r.
Proof.
  destruct r as [|c r]; [discriminate |]. cbn [ws_then_text].
  destruct (is_space c); [| discriminate].
  assert (Hr : within r (String c r)) by apply (within_suffix (String c "")).
  destruct (lstrip r) as [|d u] eqn:E.
  - destruct (is_empty r); [discriminate |]. intros [= <-].
    eapply within_trans; [apply within_skip | exact Hr].
  - intros [= <-]. rewrite <- E.
    eapply within_trans; [apply within_lstrip | exact Hr].
Qed.

Lemma heading_match_within line h t :
  heading_match line = Some (h, t) -> within t line.
Proof.
  unfold heading_match.
  destruct ((1 <=? count_leading is_hash line) && (count_leading is_hash line <=? 3));
    [| discriminate].
  destruct (ws_then_text (skip (count_leading is_hash line) line)) as [t'|] eqn:E;
    [| discriminate].
  intros [= <- <-].
  eapply within_trans; [apply ws_then_text_within; exact E | apply within_skip].
Qed.

Lemma numbered_match_within line t : numbered_match line = Some t -> within t line.
Proof.
  unfold numbered_match.
  destruct (1 <=? count_leading is_digit line); [| discriminate].
  destruct (skip (count_leading is_digit line) line) as [|c r] eqn:E; [discriminate |].
  intros H.
  assert (Hw : ws_then_text r = Some t).
  { revert H. destruct c as [[] [] [] [] [] [] [] []]; try discriminate. auto. }
  eapply within_trans; [apply ws_then_text_within; exact Hw |].
  eapply within_trans; [apply (within_suffix (String c "")) |].
  change (String c "" +:+ r) with (String c r). rewrite <- E. apply within_skip.
Qed.

Lemma within_stripped_tail n raw body :
  within raw body -> within (strip (skip n (strip raw))) body.
Proof.
  intros H. eapply within_trans; [apply within_strip |].
  eapply within_trans; [apply within_skip |].
  eapply within_trans; [apply within_strip | exact H].
Qed.

(** a line that is neither blank nor a fence gives one block *)
Lemma parse_lines_step raw rest :
  is_empty (strip raw) = false -> startswith fence (strip raw) = false ->
  exists b, parse_lines (raw :: rest) = b :: parse_lines rest
            /\ forall body, within raw body -> well_formed_block body b.
Proof.
  intros Hne Hf. cbn [parse_lines]. rewrite Hne, Hf.
  assert (Hplain : forall t content,
            In t plain_tags -> within content (strip raw) ->
            forall body, within raw body ->
              well_formed_block body
                (PDict [("type", PStr t);
                        (t, PDict [("rich_text", rich_text_of content)])])).
  { intros t content Ht Hc body Hb. left. exists t, content.
    split; [exact Ht |]. split; [| reflexivity].
    eapply within_trans; [exact Hc |].
    eapply within_trans; [apply within_strip | exact Hb]. }
  assert (Htail : within (strip (skip 2 (strip raw))) (strip raw)).
  { eapply within_trans; [apply within_strip | apply within_skip]. }
  destruct (heading_match (strip raw)) as [[h t]|] eqn:Hh.
  { destruct (heading_match_spec _ _ _ (rstrip_idem _) Hh) as (Hn & _ & _).
    pose proof (heading_match_within _ _ _ Hh) as Hw.
    eexists; split; [reflexivity |].
    destruct (String.length h) as [|[|[|[|n]]]]; try lia;
      [apply (Hplain "heading_1") | apply (Hplain "heading_2")
      | apply (Hplain "heading_3")]; cbn; tauto. }
  destruct (startswith "- " (strip raw) || startswith "* " (strip raw)).
  { eexists; split; [reflexivity |].
    apply (Hplain "bulleted_list_item"); [cbn; tauto | exact Htail]. }
  destruct (numbered_match (strip raw)) as [t|] eqn:Hnum.
  { eexists; split; [reflexivity |].
    apply (Hplain "numbered_list_item");
      [cbn; tauto | now apply numbered_match_within]. }
  destruct (startswith "> " (strip raw)).
  { eexists; split; [reflexivity |].
    apply (Hplain "quote"); [cbn; tauto | exact Htail]. }
  eexists; split; [reflexivity |].
  apply (Hplain "paragraph"); [cbn; tauto | apply within_refl].
Qed.

Lemma well_formed_code body text lang :
  within text body -> within lang body ->
  well_formed_block body (_create_code_block text lang).
Proof. intros Ht Hl. right. now exists text, lang. Qed.

Lemma parse_lines_units ls :
  length (parse_lines ls) = block_units false ls
  /\ forall lang acc,
       length (code_loop parse_lines lang ls acc) = S (block_units true ls).
Proof.
  induction ls as [|l ls [IH1 IH2]]; [now split |]. split.
  - cbn [block_units].
    destruct (is_empty (strip l)) eqn:Hne.
    { cbn [parse_lines]. now rewrite Hne. }
    destruct (startswith fence (strip l)) eqn:Hf.
    { rewrite parse_lines_fence by exact Hf. apply IH2. }
    destruct (parse_lines_step l ls Hne Hf) as (b & -> & _).
    cbn [length]. now rewrite IH1.
  - intros lang acc. cbn [code_loop block_units]. fold (closes l).
    destruct (closes l); cbn [negb length]; [now rewrite IH1 | apply IH2].
Qed.

Lemma parse_lines_well_formed body ls :
  (forall pre, split_nl body = (pre ++ ls)%list ->
     Forall (well_formed_block body) (parse_lines ls))
  /\ (forall lang acc pre, split_nl body = (pre ++ acc ++ ls)%list ->
        within lang body ->
        Forall (well_formed_block body) (code_loop parse_lines lang ls acc)).
Proof.
  induction ls as [|l ls [IH1 IH2]].
  { split; [constructor |]. intros lang acc pre Hs Hl. cbn [code_loop].
    constructor; [| constructor].
    apply well_formed_code; [| exact Hl]. now apply (within_lines pre acc []). }
  split.
  - intros pre Hs.
    assert (Hl : within l body) by apply (within_lines pre [l] ls _ Hs).
    assert (Hs' : split_nl body = ((pre ++ [l]) ++ ls)%list)
      by (now rewrite <- List.app_assoc).
    destruct (is_empty (strip l)) eqn:Hne.
    { cbn [parse_lines]. rewrite Hne. now apply (IH1 (pre ++ [l])%list). }
    destruct (startswith fence (strip l)) eqn:Hf.
    { rewrite parse_lines_fence by exact Hf.
      apply (IH2 _ [] (pre ++ [l])%list); [exact Hs' |].
      now apply within_stripped_tail. }
    destruct (parse_lines_step l ls Hne Hf) as (b & -> & Hb).
    constructor; [now apply Hb | now apply (IH1 (pre ++ [l])%list)].
  - intros lang acc pre Hs Hlang. cbn [code_loop].
    destruct (startswith fence (strip l)).
    + constructor.
      * apply well_formed_code; [| exact Hlang].
        now apply (within_lines pre acc (l :: ls)).
      * apply (IH1 (pre ++ acc ++ [l])%list).
        rewrite Hs, <- !List.app_assoc. reflexivity.
    + apply (IH2 lang (acc ++ [l])%list pre); [| exact Hlang].
      rewrite Hs, <- !List.app_assoc. reflexivity.
Qed.

Lemma many_hashes_paragraph n t more :
  3 < n -> tight t ->
  parse_lines ((repeat_char "#" n +:+ " " +:+ t) :: more)
  = _create_paragraph_block (repeat_char "#" n +:+ " " +:+ t) :: parse_lines more.
Proof.
  intros Hn Ht.
  assert (Hline : tight (repeat_char "#" n +:+ " " +:+ t)).
  { destruct n as [|n]; [lia |].
    change (tight (String "#" (repeat_char "#" n +:+ " " +:+ t))).
    rewrite <- append_assoc. now apply tight_app_head. }
  rewrite (parse_lines_tight _ _ Hline).
  assert (Hm : heading_match (repeat_char "#" n +:+ " " +:+ t) = None).
  { unfold heading_match. change (" " +:+ t) with (String " " t).
    rewrite count_leading_repeat by reflexivity.
    replace (n <=? 3) with false by (symmetry; apply Nat.leb_gt; lia).
    now rewrite andb_false_r. }
  rewrite Hm. destruct n as [|n]; [lia |].
  change (repeat_char "#" (S n) +:+ " " +:+ t)
    with (String "#" (repeat_char "#" n +:+ " " +:+ t)).
  rewrite not_numbered by reflexivity.
  reflexivity.
Qed.

End ConverterFacts.

(** * Facts about the engine *)

Module EngineFacts.
Import Py Datetime World MarkdownParser SyncEngine BlockConverter Paths TextFacts.
Local Open Scope world_scope.

Section WithGateway.
Context {R : Type} {G : Gateway R}.














(** [parse_file] leaves the world as it is. *)
Lemma parse_file_pure path (w : world R) r w' :
  parse_file path w = (r, w') -> w' = w.
Proof.
  unfold parse_file, bind, path_exists.
  destruct (bool_decide (is_Some (fs w !! path))); cbn [negb].
  - unfold load_post. destruct (fs w !! path) as [[[q| |e] mt]|]; now intros [= <- <-].
  - now intros [= <- <-].
Qed.

(** *** The header after [update_frontmatter] *)

Lemma merge_other u : forall (m : gmap string pyval) k,
  k ∉ u.*1 -> merge m u !! k = m !! k.
Proof.
  induction u as [|[k' v'] u IH]; intros m k Hk; [reflexivity |].
  cbn in Hk. apply not_elem_of_cons in Hk. destruct Hk as [Hne Hk].
  cbn [merge foldl]. fold (merge (<[k' := v']> m) u).
  rewrite IH by exact Hk. now apply lookup_insert_ne.
Qed.


(** the header of a loaded post *)
Lemma loadable_lookup (m : gmap string pyval) k :
  k <> "handler" -> k <> "content" -> loadable m !! k = m !! k.
Proof.
  intros H1 H2. unfold loadable.
  rewrite lookup_delete_ne by congruence. now rewrite lookup_delete_ne by congruence.
Qed.

Lemma reserved_none (m : gmap string pyval) :
  reserved m = None <-> m !! "content" = None /\ m !! "handler" = None.
Proof.
  unfold reserved. split.
  - destruct (m !! "content") as [x|] eqn:E1.
    { rewrite bool_decide_eq_true_2 by eauto. discriminate. }
    rewrite bool_decide_eq_false_2 by (intros [x Hx]; discriminate).
    destruct (m !! "handler") as [x|] eqn:E2.
    { rewrite bool_decide_eq_true_2 by eauto. discriminate. }
    auto.
  - intros [-> ->].
    now rewrite !bool_decide_eq_false_2 by (intros [x Hx]; discriminate).
Qed.

Lemma loadable_id (m : gmap string pyval) : reserved m = None -> loadable m = m.
Proof.
  intros H. apply reserved_none in H as [H1 H2]. unfold loadable.
  rewrite (delete_id m "content") by exact H1. now apply delete_id.
Qed.

Lemma reserved_loadable (m : gmap string pyval) : reserved (loadable m) = None.
Proof.
  apply reserved_none. unfold loadable. split.
  - rewrite lookup_delete_ne by discriminate. apply lookup_delete_eq.
  - apply lookup_delete_eq.
Qed.

Lemma reserved_merge u (m : gmap string pyval) :
  reserved m = None -> "content" ∉ u.*1 -> "handler" ∉ u.*1 ->
  reserved (merge m u) = None.
Proof.
  intros H Hc Hh. apply reserved_none in H as [H1 H2]. apply reserved_none.
  now rewrite !merge_other by assumption.
Qed.

Lemma as_read_idem c : as_read (as_read c) = as_read c.
Proof. apply read_twice. Qed.

(** a body that was read is written as it is *)
Lemma dumped_as_read lib (m : gmap string pyval) c :
  dumped lib (Post m (as_read c)) = dumped lib (Post m c).
Proof.
  unfold dumped. cbn [metadata content]. destruct (reserved m); [reflexivity |].
  now rewrite as_read_idem.
Qed.

Lemma update_frontmatter_run path u (w : world R) p mtime :
  fs w !! path = Some (File (Document p) mtime) ->
  path ∉ readonly w ->
  update_frontmatter path u w
  = (Ok tt,
     set_fs (<[path := File (dumped (library w)
                                    (Post (merge (loadable (metadata p)) u)
                                          (as_read (content p))))
                            (clock w)]> (fs w)) w).
Proof.
  intros Hf Hro. unfold update_frontmatter, bind, path_exists.
  rewrite Hf. rewrite bool_decide_eq_true_2 by eauto. cbn [negb].
  unfold load_post. rewrite Hf. unfold write_post.
  now rewrite bool_decide_eq_false_2 by exact Hro.
Qed.

Lemma parse_file_run path (w : world R) p mtime :
  fs w !! path = Some (File (Document p) mtime) ->
  parse_file path w = (Ok (loadable (metadata p), as_read (content p)), w).
Proof.
  intros Hf. unfold parse_file, bind, path_exists.
  rewrite Hf. rewrite bool_decide_eq_true_2 by eauto. cbn [negb].
  unfold load_post. now rewrite Hf.
Qed.

(** *** The two paths of a push *)

Lemma probe_page_run notion_page_id (w : world R) :
  probe_page notion_page_id w
  = if truthy notion_page_id
    then let '(r, rem) := get_page notion_page_id (remote w) in
         (Ok (is_ok r), logged (GetPage notion_page_id) rem w)
    else (Ok false, w).
Proof.
  unfold probe_page. destruct (truthy notion_page_id); [| reflexivity].
  unfold try_catch, bind, gateway_call.
  now destruct (get_page notion_page_id (remote w)) as [[page|e] rem].
Qed.






End WithGateway.

End EngineFacts.
(** * Further facts about the converter *)

Module ConverterMore.
Import Py BlockConverter Aux AuxExtra TextFacts ConverterFacts.

Lemma block_lines_unsupported b : unsupported b -> block_lines b = Ok [""].
Proof.
  intros (d & -> & Hd). unfold block_lines, get. cbn [res_bind].
  unfold supported in Hd.
  destruct (assoc "type" d) as [[| | |t| |]|] eqn:E; try reflexivity.
  unfold handled_tags in Hd. cbn [mem] in Hd.
  repeat (apply orb_false_elim in Hd; destruct Hd as [? Hd]).
  repeat match goal with
         | H : String.eqb t ?s = false |- _ => rewrite H; clear H
         end.
  reflexivity.
Qed.

Lemma markdown_lines_app a b la lb :
  markdown_lines a = Ok la -> markdown_lines b = Ok lb ->
  markdown_lines (a ++ b)%list = Ok (la ++ lb)%list.
Proof.
  revert la. induction a as [|x a IH]; intros la Ha Hb; cbn [app markdown_lines] in *.
  - now injection Ha as <-.
  - destruct (block_lines x) as [lx|e]; [| discriminate]. cbn [res_bind] in *.
    destruct (markdown_lines a) as [la'|e]; [| discriminate]. cbn [res_bind] in *.
    injection Ha as <-. rewrite (IH la' eq_refl Hb). cbn [res_bind].
    now rewrite <- List.app_assoc.
Qed.

Lemma markdown_lines_raise a b la e :
  markdown_lines a = Ok la -> markdown_lines b = Raise e ->
  markdown_lines (a ++ b)%list = Raise e.
Proof.
  revert la. induction a as [|x a IH]; intros la Ha Hb; cbn [app markdown_lines] in *.
  - exact Hb.
  - destruct (block_lines x) as [lx|e']; [| discriminate]. cbn [res_bind] in *.
    destruct (markdown_lines a) as [la'|e']; [| discriminate]. cbn [res_bind] in *.
    now rewrite (IH la' eq_refl Hb).
Qed.

(** every block leaves at least its blank line *)
Lemma block_lines_nonempty b ls : block_lines b = Ok ls -> ls <> [].
Proof.
  unfold block_lines. destruct (get b "type" PNone) as [ty|e]; [| discriminate].
  cbn [res_bind]. destruct ty as [| | |t| |]; try (intros [= <-]; discriminate).
  repeat match goal with
         | |- context [if ?c then _ else _] => destruct c
         | |- context [payload_text ?x ?y] =>
             destruct (payload_text x y); cbn [res_bind]; [| discriminate]
         | |- context [getitem ?x ?y] =>
             destruct (getitem x y); cbn [res_bind]; [| discriminate]
         | |- context [get ?x ?y ?z] =>
             destruct (get x y z); cbn [res_bind]; [| discriminate]
         end; intros [= <-]; discriminate.
Qed.

Lemma markdown_lines_nonempty bs ls :
  bs <> [] -> markdown_lines bs = Ok ls -> ls <> [].
Proof.
  destruct bs as [|b bs]; [congruence |]. intros _. cbn [markdown_lines].
  destruct (block_lines b) as [lb|e] eqn:E; [| discriminate]. cbn [res_bind].
  destruct (markdown_lines bs) as [l|e]; [| discriminate]. cbn [res_bind].
  intros [= <-]. apply block_lines_nonempty in E. now destruct lb.
Qed.

Lemma block_lines_lacking t b : lacks_payload t b -> block_lines b = Raise (KeyError t).
Proof.
  intros (d & -> & Ht & Hty & Hp). unfold block_lines, get. cbn [res_bind].
  rewrite Hty. unfold handled_tags in Ht. cbn [In] in Ht.
  repeat (destruct Ht as [<- | Ht];
          [cbn; unfold payload_text, getitem; rewrite Hp; reflexivity |]).
  destruct Ht.
Qed.

(** *** Canonical blocks *)

Lemma canonical_supported b : canonical b -> supported b = true.
Proof.
  intros [n t Hn _ _| | | | |]; try reflexivity.
  destruct n as [|[|[|[|n]]]]; try lia; reflexivity.
Qed.

Lemma canonical_render b :
  canonical b ->
  exists ls, block_lines b = Ok ls
             /\ forall more, parse_lines (reflow ls ++ more)%list = b :: parse_lines more.
Proof.
  intros [n t Hn Ht Hf|t [Ht Hf Hh Hfe Hb Hnum Hq]|text lang Hl Hlf Hc|t Ht Hf|t Ht Hf|t Ht Hf].
  - exists [repeat_char "#" n +:+ " " +:+ t; ""]. split; [now apply block_lines_heading |].
    intros more. cbn [reflow app].
    rewrite split_nl_free.
    2:{ apply nl_free_app; [clear; induction n; auto | now apply (nl_free_app " ")]. }
    cbn [app split_nl]. now rewrite reparse_heading, parse_lines_blank.
  - exists [t; ""]. split; [apply block_lines_paragraph |].
    intros more. cbn [reflow app]. rewrite split_nl_free by exact Hf.
    cbn [app split_nl].
    rewrite (parse_lines_tight _ _ Ht), Hh, Hfe, Hb, Hnum, Hq.
    now rewrite parse_lines_blank.
  - exists [fence +:+ lang; text; fence; ""]. split; [apply block_lines_code |].
    intros more. cbn [reflow app].
    rewrite (split_nl_free (fence +:+ lang)) by (now apply (nl_free_app fence)).
    change (split_nl fence) with [fence]. change (split_nl "") with [""].
    cbn [app]. rewrite <- List.app_assoc. cbn [app].
    rewrite reparse_code by assumption. now rewrite join_split_nl.
  - exists ["> " +:+ t; ""]. split; [apply block_lines_quote |].
    intros more. cbn [reflow app].
    rewrite split_nl_free by (now apply (nl_free_app "> ")).
    cbn [app split_nl]. now rewrite reparse_quote, parse_lines_blank.
  - exists ["- " +:+ t; ""]. split; [apply block_lines_bullet |].
    intros more. cbn [reflow app].
    rewrite split_nl_free by (now apply (nl_free_app "- ")).
    cbn [app split_nl]. now rewrite reparse_bullet, parse_lines_blank.
  - exists ["1. " +:+ t; ""]. split; [apply block_lines_numbered |].
    intros more. cbn [reflow app].
    rewrite split_nl_free by (now apply (nl_free_app "1. ")).
    cbn [app split_nl]. now rewrite reparse_numbered, parse_lines_blank.
Qed.

Lemma reflow_app a b : reflow (a ++ b)%list = (reflow a ++ reflow b)%list.
Proof.
  induction a as [|x a IH]; [reflexivity |]. cbn [app reflow].
  now rewrite IH, List.app_assoc.
Qed.

Lemma mixed_roundtrip_lines bs :
  Forall (fun b => canonical b \/ unsupported b) bs ->
  exists ls, markdown_lines bs = Ok ls
             /\ parse_lines (reflow ls) = List.filter supported bs.
Proof.
  induction bs as [|b bs IH]; intros H; [now exists [] |].
  inversion H as [|? ? Hb Hbs]; subst. destruct (IH Hbs) as (ls & Hls & Hp).
  destruct Hb as [Hc | Hu].
  - destruct (canonical_render b Hc) as (lb & Hlb & Hre).
    exists (lb ++ ls)%list. split; [now apply markdown_lines_cons |].
    rewrite reflow_app, Hre, Hp. cbn [List.filter].
    now rewrite (canonical_supported b Hc).
  - exists ([""] ++ ls)%list. split.
    + apply markdown_lines_cons; [now apply block_lines_unsupported | exact Hls].
    + cbn [app reflow split_nl]. rewrite parse_lines_blank, Hp. cbn [List.filter].
      destruct Hu as (d & -> & ->). reflexivity.
Qed.

(** *** What the parser returns is canonical *)

Lemma digit_not_hash c : is_digit c = true -> is_hash c = false.
Proof.
  intros H. unfold is_hash. destruct (Ascii.eqb c "#") eqn:E; [| reflexivity].
  apply Ascii.eqb_eq in E. subst c. discriminate.
Qed.

Lemma parse_lines_step_canonical raw rest :
  nl_free raw = true ->
  is_empty (strip raw) = false -> startswith fence (strip raw) = false ->
  exists b, parse_lines (raw :: rest) = b :: parse_lines rest /\ canonical b.
Proof.
  intros Hfree Hne Hf. cbn [parse_lines]. rewrite Hne, Hf.
  pose proof (tight_strip _ Hne) as Ht.
  pose proof (nl_free_strip _ Hfree) as Hfl.
  destruct (heading_match (strip raw)) as [[h t]|] eqn:Hh.
  { destruct (heading_match_spec _ _ _ (tight_right _ Ht) Hh) as (Hn & Htext & Hnf).
    eexists; split; [reflexivity |]. constructor; auto. }
  destruct (startswith "- " (strip raw) || startswith "* " (strip raw)) eqn:Hb.
  { assert (Htext : tight (strip (skip 2 (strip raw)))
                    /\ (nl_free (strip raw) = true ->
                        nl_free (strip (skip 2 (strip raw))) = true)).
    { apply orb_prop in Hb. destruct Hb as [Hb|Hb]; eapply prefixed_text; eauto. }
    eexists; split; [reflexivity |]. constructor; tauto. }
  destruct (numbered_match (strip raw)) as [t|] eqn:Hnum.
  { destruct (numbered_match_spec _ _ (tight_right _ Ht) Hnum) as (Htext & Hnf).
    eexists; split; [reflexivity |]. constructor; auto. }
  destruct (startswith "> " (strip raw)) eqn:Hq.
  { destruct (prefixed_text _ _ Ht Hq) as [Htext Hnf].
    eexists; split; [reflexivity |]. constructor; auto. }
  eexists; split; [reflexivity |]. constructor. now constructor.
Qed.

Lemma parse_lines_canonical ls :
  Forall (fun l => nl_free l = true) ls ->
  Forall canonical (parse_lines ls)
  /\ forall lang acc,
       strip lang = lang -> nl_free lang = true ->
       Forall (fun l => closes l = false) acc ->
       Forall (fun l => nl_free l = true) acc ->
       Forall canonical (code_loop parse_lines lang ls acc).
Proof.
  induction ls as [|l ls IH]; intros Hfree.
  { split; [constructor |]. intros lang acc Hl Hlf Hc Hf. cbn [code_loop].
    constructor; [| constructor]. constructor; auto.
    now apply code_text_lines. }
  inversion Hfree as [|? ? Hl Hls]; subst. destruct (IH Hls) as [IH1 IH2]. split.
  - destruct (is_empty (strip l)) eqn:Hne.
    { cbn [parse_lines]. now rewrite Hne. }
    destruct (startswith fence (strip l)) eqn:Hf.
    { rewrite parse_lines_fence by exact Hf. apply IH2; auto.
      - apply strip_idem.
      - now apply nl_free_strip, nl_free_skip, nl_free_strip. }
    destruct (parse_lines_step_canonical l ls Hl Hne Hf) as (b & -> & Hb).
    now constructor.
  - intros lang acc Hlang Hlf Hc Hf. cbn [code_loop]. fold (closes l).
    destruct (closes l) eqn:Hcl.
    + constructor; [| exact IH1]. constructor; auto. now apply code_text_lines.
    + apply IH2; auto; apply Forall_app; split; auto.
Qed.

(** *** Blank bodies *)

Lemma code_loop_nonempty k lang ls acc : code_loop k lang ls acc <> [].
Proof.
  revert acc. induction ls as [|l ls IH]; intros acc; cbn [code_loop]; [discriminate |].
  destruct (startswith fence (strip l)); [discriminate | apply IH].
Qed.

Lemma parse_lines_nil ls :
  parse_lines ls = [] <-> Forall (fun l => is_empty (strip l) = true) ls.
Proof.
  induction ls as [|l ls IH]; [split; auto |].
  destruct (is_empty (strip l)) eqn:Hne.
  - cbn [parse_lines]. rewrite Hne. rewrite IH. split; intros H.
    + now constructor.
    + now inversion H.
  - split; intros H; [| inversion H; congruence]. exfalso.
    destruct (startswith fence (strip l)) eqn:Hf.
    + rewrite parse_lines_fence in H by exact Hf. now apply code_loop_nonempty in H.
    + destruct (parse_lines_step l ls Hne Hf) as (b & Hb & _). congruence.
Qed.

(** *** Numbered items *)

Lemma count_leading_all p ds c s :
  all_chars p ds = true -> p c = false ->
  count_leading p (ds +:+ String c s) = String.length ds.
Proof.
  intros Hd Hc. induction ds as [|d ds IH]; cbn.
  - now rewrite Hc.
  - cbn in Hd. apply andb_prop in Hd. destruct Hd as [-> Hd]. now rewrite IH.
Qed.

Lemma skip_length_app a b : skip (String.length a) (a +:+ b) = b.
Proof. induction a as [|c a IH]; [reflexivity | exact IH]. Qed.

Lemma digit_not_space c : is_digit c = true -> is_space c = false.
Proof.
  destruct c as [[] [] [] [] [] [] [] []]; vm_compute; congruence.
Qed.

Lemma one_line_body line :
  nl_free line = true -> markdown_to_blocks line = parse_lines [line].
Proof. intros H. unfold markdown_to_blocks. now rewrite split_nl_free. Qed.

Lemma all_digits_nl_free ds : all_chars is_digit ds = true -> nl_free ds = true.
Proof.
  induction ds as [|c ds IH]; [reflexivity |]. cbn. intros H.
  apply andb_prop in H. destruct H as [Hc Hd]. rewrite (IH Hd), andb_true_r.
  destruct (Ascii.eqb c newline) eqn:E; [| reflexivity].
  apply Ascii.eqb_eq in E. subst c. discriminate.
Qed.

Lemma parse_numbered_line ds t more :
  is_empty ds = false -> all_chars is_digit ds = true -> tight t ->
  parse_lines ((ds +:+ ". " +:+ t) :: more)
  = _create_numbered_list_item t :: parse_lines more.
Proof.
  intros Hne Hd Ht. destruct ds as [|c ds]; [discriminate |].
  cbn in Hd. apply andb_prop in Hd. destruct Hd as [Hc Hd].
  assert (Hline : tight (String c ds +:+ ". " +:+ t)).
  { change (tight (String c (ds +:+ ". " +:+ t))). rewrite <- append_assoc.
    apply tight_app_head; [now apply digit_not_space | exact Ht]. }
  rewrite (parse_lines_tight _ _ Hline).
  change (String c ds +:+ ". " +:+ t) with (String c (ds +:+ ". " +:+ t)).
  rewrite not_heading by (now apply digit_not_hash).
  assert (Hnf : startswith fence (String c (ds +:+ ". " +:+ t)) = false).
  { cbn [startswith fence]. destruct (Ascii.eqb "`" c) eqn:E; [| reflexivity].
    apply Ascii.eqb_eq in E. subst c. discriminate. }
  assert (Hnb : startswith "- " (String c (ds +:+ ". " +:+ t))
                || startswith "* " (String c (ds +:+ ". " +:+ t)) = false).
  { cbn [startswith].
    destruct (Ascii.eqb "-" c) eqn:E1;
      [apply Ascii.eqb_eq in E1; subst c; discriminate |].
    destruct (Ascii.eqb "*" c) eqn:E2;
      [apply Ascii.eqb_eq in E2; subst c; discriminate |]. reflexivity. }
  rewrite Hnf, Hnb.
  assert (Hm : numbered_match (String c (ds +:+ ". " +:+ t)) = Some t).
  { unfold numbered_match.
    change (String c (ds +:+ ". " +:+ t)) with (String c ds +:+ String "." (String " " t)).
    rewrite count_leading_all by (cbn; try rewrite Hc; auto).
    rewrite skip_length_app. cbn [String.length Nat.leb].
    now apply ws_then_text_render. }
  now rewrite Hm.
Qed.

End ConverterMore.

(** * Further facts about the parser of documents *)

Module ParserMore.
Import Py BlockConverter World MarkdownParser MarkdownHeadings
       Aux Paths AuxExtra TextFacts ConverterFacts EngineFacts.

Lemma rstrip_empty_lstrip s : rstrip s = "" -> lstrip s = "".
Proof.
  induction s as [|c s IH]; [reflexivity |]. cbn [rstrip lstrip].
  destruct (rstrip s) as [|d r]; [| discriminate].
  destruct (is_space c); [intros _; now apply IH | discriminate].
Qed.

Lemma lstrip_rstrip s : lstrip (rstrip s) = strip s.
Proof.
  unfold strip. induction s as [|c s IH]; [reflexivity |].
  destruct (is_space c) eqn:Hc.
  - cbn [lstrip rstrip]. rewrite Hc.
    destruct (rstrip s) as [|d r] eqn:E.
    + rewrite (rstrip_empty_lstrip s E). reflexivity.
    + rewrite <- IH. cbn [lstrip]. now rewrite Hc.
  - rewrite rstrip_cons_keep, !lstrip_head by exact Hc.
    now rewrite rstrip_cons_keep.
Qed.

Lemma hash_not_space c : is_hash c = true -> is_space c = false.
Proof.
  unfold is_hash. intros H. apply Ascii.eqb_eq in H. now subst c.
Qed.

(** trimming on the right reaches neither the leading hashes nor their
    number *)
Lemma count_hash_rstrip s :
  count_leading is_hash (rstrip s) = count_leading is_hash s.
Proof.
  induction s as [|c s IH]; [reflexivity |].
  destruct (is_hash c) eqn:Hc.
  - rewrite rstrip_cons_keep by (now apply hash_not_space).
    cbn [count_leading]. now rewrite Hc, IH.
  - cbn [rstrip count_leading]. rewrite Hc.
    destruct (rstrip s); [destruct (is_space c) |]; cbn [count_leading];
      now rewrite ?Hc.
Qed.

Lemma skip_hash_rstrip s n :
  n <= count_leading is_hash s -> skip n (rstrip s) = rstrip (skip n s).
Proof.
  revert s. induction n as [|n IH]; intros s Hn; [reflexivity |].
  destruct s as [|c s]; [reflexivity |]. cbn [count_leading] in Hn.
  destruct (is_hash c) eqn:Hc; [| lia].
  rewrite rstrip_cons_keep by (now apply hash_not_space).
  cbn [skip]. apply IH. lia.
Qed.

Lemma ws_then_text_strip r t :
  rfix r -> ws_then_text r = Some t -> t = lstrip r.
Proof.
  destruct r as [|c r]; [discriminate |]. intros Hr. cbn [ws_then_text lstrip].
  destruct (is_space c); [| discriminate].
  destruct (lstrip r) as [|d u] eqn:E.
  - apply rfix_lstrip_empty in E; [| eapply rfix_tail; eauto]. subst r. discriminate.
  - now intros [= <-].
Qed.

Lemma startswith_hash line :
  startswith "#" line = true -> lstrip line = line /\ 1 <= count_leading is_hash line.
Proof.
  destruct line as [|c r]; [discriminate |]. cbn [startswith].
  destruct (Ascii.eqb "#" c) eqn:E; [| discriminate]. intros _.
  apply Ascii.eqb_eq in E. subst c. split; [reflexivity |]. cbn. lia.
Qed.

Lemma heading_line_agrees line h t :
  startswith "#" line = true ->
  heading_match (strip line) = Some (h, t) ->
  count_leading is_hash line = String.length h
  /\ strip (skip (count_leading is_hash line) line) = t.
Proof.
  intros Hs Hm. destruct (startswith_hash line Hs) as [Hl _].
  unfold strip in Hm. rewrite Hl in Hm.
  unfold heading_match in Hm. rewrite count_hash_rstrip in Hm.
  set (n := count_leading is_hash line) in *.
  destruct ((1 <=? n) && (n <=? 3)); [| discriminate].
  destruct (ws_then_text (skip n (rstrip line))) as [t'|] eqn:E; [| discriminate].
  injection Hm as <- <-.
  rewrite length_keep.
  2:{ subst n. rewrite <- count_hash_rstrip. apply count_leading_le. }
  split; [reflexivity |].
  apply ws_then_text_strip in E; [| apply rfix_skip, rstrip_idem].
  rewrite E, skip_hash_rstrip by (subst n; lia). symmetry. apply lstrip_rstrip.
Qed.

Lemma title_line_heading line :
  startswith "# " line = true ->
  startswith "#" line = true
  /\ count_leading is_hash line = 1
  /\ strip (skip 1 line) = strip (skip 2 line).
Proof.
  intros H. destruct (startswith_2 _ _ _ H) as [r ->].
  split; [reflexivity | split; reflexivity].
Qed.

Lemma first_h1_in_headings lines t :
  first_h1 lines = Some t -> In (1, t) (headings_of lines).
Proof.
  induction lines as [|l ls IH]; [discriminate |]. cbn [first_h1 headings_of].
  destruct (startswith "# " l) eqn:E.
  - intros [= <-]. destruct (title_line_heading l E) as (H1 & H2 & H3).
    rewrite H1, H2, H3. now left.
  - intros H. specialize (IH H).
    destruct (startswith "#" l); [now right | exact IH].
Qed.

Lemma first_h1_none lines :
  first_h1 lines = None <-> Forall (fun l => startswith "# " l = false) lines.
Proof.
  induction lines as [|l ls IH]; [split; auto |]. cbn [first_h1].
  destruct (startswith "# " l) eqn:E.
  - split; [discriminate | intros H; inversion H; congruence].
  - rewrite IH. split; intros H; [now constructor | now inversion H].
Qed.


Lemma set_fs_set_fs {R} f g (w : world R) : set_fs g (set_fs f w) = set_fs g w.
Proof. reflexivity. Qed.

Lemma update_frontmatter_frame {R} path u (w : world R) r w' :
  update_frontmatter path u w = (r, w') ->
  (forall p, p <> path -> fs w' !! p = fs w !! p)
  /\ readonly w' = readonly w /\ clock w' = clock w
  /\ (forall e, r = Raise e -> w' = w).
Proof.
  unfold update_frontmatter, bind, path_exists.
  destruct (bool_decide (is_Some (fs w !! path))); cbn [negb].
  2:{ intros [= <- <-]. repeat split; auto. }
  unfold load_post. destruct (fs w !! path) as [[[q| |e0] mt]|].
  2,3,4: intros [= <- <-]; repeat split; auto.
  unfold write_post. destruct (bool_decide (path ∈ readonly w)).
  { intros [= <- <-]. repeat split; auto. }
  intros [= <- <-]. repeat split; auto.
  - intros p Hp. cbn. now apply lookup_insert_ne.
  - discriminate.
Qed.

End ParserMore.
(** * Further facts about the engine *)

Module EngineMore.
Import Py Datetime World MarkdownParser SyncEngine BlockConverter
       Aux Paths AuxExtra EngineAux TextFacts EngineFacts ParserMore.
Local Open Scope world_scope.

Section WithGateway.
Context {R : Type} {G : Gateway R}.

Lemma keeps_ret {A} (a : A) : keeps_files (R:=R) (ret a).
Proof. intros w r w' [= <- <-]. auto 10. Qed.

Lemma keeps_raise {A} e : keeps_files (R:=R) (raise (A:=A) e).
Proof. intros w r w' [= <- <-]. auto 10. Qed.

Lemma keeps_lift {A} (x : res A) : keeps_files (R:=R) (lift x).
Proof. intros w r w' [= <- <-]. auto 10. Qed.

Lemma keeps_bind {A B} (m : M (R:=R) A) (k : A -> M (R:=R) B) :
  keeps_files m -> (forall a, keeps_files (k a)) -> keeps_files (bind m k).
Proof.
  intros Hm Hk w r w'. unfold bind.
  destruct (m w) as [[a|e] w1] eqn:E.
  - intros E2. destruct (Hm _ _ _ E) as (H1 & H2 & H3 & H4 & H4').
    destruct (Hk a _ _ _ E2) as (H5 & H6 & H7 & H8 & H8').
    repeat split; congruence.
  - intros [= <- <-]. now apply (Hm _ _ _ E).
Qed.

Lemma keeps_try_catch {A} (m : M (R:=R) A) (h : exn -> M (R:=R) A) :
  keeps_files m -> (forall e, keeps_files (h e)) -> keeps_files (try_catch m h).
Proof.
  intros Hm Hh w r w'. unfold try_catch.
  destruct (m w) as [[a|e] w1] eqn:E.
  - intros [= <- <-]. now apply (Hm _ _ _ E).
  - intros E2. destruct (Hm _ _ _ E) as (H1 & H2 & H3 & H4 & H4').
    destruct (Hh e _ _ _ E2) as (H5 & H6 & H7 & H8 & H8').
    repeat split; congruence.
Qed.

Lemma keeps_gateway_call {A} c (op : R -> res A * R) :
  keeps_files (gateway_call c op).
Proof.
  intros w r w'. unfold gateway_call. destruct (op (remote w)) as [x rem].
  intros [= <- <-]. auto.
Qed.

Lemma keeps_path_exists p : keeps_files (path_exists (R:=R) p).
Proof. intros w r w' [= <- <-]. auto 10. Qed.

Lemma keeps_load_post p : keeps_files (load_post (R:=R) p).
Proof.
  intros w r w'. unfold load_post.
  destruct (fs w !! p) as [[[q| |e0] mt]|]; intros [= <- <-]; auto 10.
Qed.

Lemma keeps_getmtime p : keeps_files (getmtime (R:=R) p).
Proof.
  intros w r w'. unfold getmtime.
  destruct (fs w !! p); intros [= <- <-]; auto 10.
Qed.

Lemma keeps_now : keeps_files (now (R:=R)).
Proof. intros w r w' [= <- <-]. auto 10. Qed.

Lemma keeps_local_fromtimestamp t : keeps_files (local_fromtimestamp (R:=R) t).
Proof. intros w r w' [= <- <-]. auto 10. Qed.

Lemma keeps_parse_file p : keeps_files (parse_file (R:=R) p).
Proof.
  unfold parse_file. apply keeps_bind; [apply keeps_path_exists |].
  intros []; cbn [negb]; [| apply keeps_raise].
  apply keeps_bind; [apply keeps_load_post |]. intros q. apply keeps_ret.
Qed.

Lemma keeps_probe_page i : keeps_files (probe_page i).
Proof.
  unfold probe_page. destruct (truthy i); [| apply keeps_ret].
  apply keeps_try_catch; [| intros; apply keeps_ret].
  apply keeps_bind; [apply keeps_gateway_call | intros; apply keeps_ret].
Qed.

Lemma keeps_client_get_page cfg i : keeps_files (client_get_page cfg i).
Proof.
  unfold client_get_page. destruct (has_client cfg);
    [apply keeps_gateway_call | apply keeps_raise].
Qed.

Lemma keeps_detect_conflicts cfg path i : keeps_files (detect_conflicts cfg path i).
Proof.
  unfold detect_conflicts. apply keeps_try_catch; [| intros; apply keeps_ret].
  unfold detect_conflicts_body.
  apply keeps_bind; [apply keeps_parse_file |]. intros [header raw].
  destruct (negb (truthy (default PNone (header !! "last_synced"))));
    [apply keeps_ret |].
  apply keeps_bind; [apply keeps_lift |]. intros synced.
  apply keeps_bind; [apply keeps_client_get_page |]. intros page.
  apply keeps_bind; [apply keeps_lift |]. intros edited.
  apply keeps_bind; [apply keeps_lift |]. intros edited_dt.
  apply keeps_bind; [apply keeps_getmtime |]. intros mtime.
  apply keeps_bind; [apply keeps_local_fromtimestamp |]. intros file_dt.
  apply keeps_bind; [apply keeps_lift |]. intros b1.
  apply keeps_bind; [apply keeps_lift |]. intros b2.
  apply keeps_ret.
Qed.

(** *** Only one file is touched *)

Lemma keeps_touches {A} path (m : M (R:=R) A) : keeps_files m -> touches_only path m.
Proof.
  intros H w r w' E. destruct (H _ _ _ E) as (H1 & H2 & H3 & H4 & H5).
  repeat split; auto. intros q _. now rewrite H1.
Qed.

Lemma touches_bind {A B} path (m : M (R:=R) A) (k : A -> M (R:=R) B) :
  touches_only path m -> (forall a, touches_only path (k a)) ->
  touches_only path (bind m k).
Proof.
  intros Hm Hk w r w'. unfold bind.
  destruct (m w) as [[a|e] w1] eqn:E.
  - intros E2. destruct (Hm _ _ _ E) as (H1 & H2 & H3 & H4 & H4').
    destruct (Hk a _ _ _ E2) as (H5 & H6 & H7 & H8 & H8').
    repeat split; try congruence. intros q Hq. now rewrite H5, H1.
  - intros [= <- <-]. now apply (Hm _ _ _ E).
Qed.

Lemma touches_try_catch {A} path (m : M (R:=R) A) (h : exn -> M (R:=R) A) :
  touches_only path m -> (forall e, touches_only path (h e)) ->
  touches_only path (try_catch m h).
Proof.
  intros Hm Hh w r w'. unfold try_catch.
  destruct (m w) as [[a|e] w1] eqn:E.
  - intros [= <- <-]. now apply (Hm _ _ _ E).
  - intros E2. destruct (Hm _ _ _ E) as (H1 & H2 & H3 & H4 & H4').
    destruct (Hh e _ _ _ E2) as (H5 & H6 & H7 & H8 & H8').
    repeat split; try congruence. intros q Hq. now rewrite H5, H1.
Qed.

Lemma touches_write_post path p : touches_only (R:=R) path (write_post path p).
Proof.
  intros w r w'. unfold write_post.
  destruct (bool_decide (path ∈ readonly w)); intros [= <- <-];
    repeat split; auto.
  intros q Hq. cbn. now apply lookup_insert_ne.
Qed.

Lemma touches_write_with handler path p :
  touches_only (R:=R) path (write_with handler path p).
Proof.
  intros w r w'. unfold write_with.
  destruct (bool_decide (path ∈ readonly w)).
  { intros [= <- <-]. repeat split; auto. }
  destruct (match handler with
            | PStr s => format_with (library w) s p
            | _ => Raise (AttributeError (type_name handler) "format")
            end) as [p'|e]; intros [= <- <-]; repeat split; auto;
    intros q Hq; cbn; now apply lookup_insert_ne.
Qed.

Lemma touches_update_frontmatter path u :
  touches_only (R:=R) path (update_frontmatter path u).
Proof.
  unfold update_frontmatter.
  apply touches_bind; [apply keeps_touches, keeps_path_exists |].
  intros []; cbn [negb]; [| apply keeps_touches, keeps_raise].
  apply touches_bind; [apply keeps_touches, keeps_load_post |].
  intros q. apply touches_write_post.
Qed.

Lemma touches_create path header text :
  touches_only (R:=R) path (create_markdown_with_frontmatter path header text).
Proof.
  unfold create_markdown_with_frontmatter.
  destruct (bool_decide (is_Some (header !! "content")));
    [apply keeps_touches, keeps_raise |].
  destruct (truthy (default PNone (header !! "handler")));
    [apply touches_write_with | apply touches_write_post].
Qed.

Lemma touches_finish_push path msg : touches_only (R:=R) path (finish_push path msg).
Proof.
  unfold finish_push. apply touches_bind; [apply keeps_touches, keeps_now |].
  intros t. apply touches_bind; [apply touches_update_frontmatter |].
  intros _. apply keeps_touches, keeps_ret.
Qed.

Lemma touches_update_existing path i title blocks :
  touches_only path (update_existing path i title blocks).
Proof.
  unfold update_existing.
  apply touches_bind; [apply keeps_touches, keeps_gateway_call |].
  intros _. apply touches_finish_push.
Qed.

Lemma touches_create_new cfg path header title blocks :
  touches_only path (create_new cfg path header title blocks).
Proof.
  unfold create_new.
  destruct (notion_parent_page_id cfg) as [configured|];
    [| apply keeps_touches, keeps_ret].
  destruct (is_empty configured); [apply keeps_touches, keeps_ret |].
  apply touches_bind.
  { apply keeps_touches, keeps_try_catch; [| intros; apply keeps_ret].
    apply keeps_bind; [apply keeps_gateway_call | intros; apply keeps_ret]. }
  intros properties.
  apply touches_bind; [apply keeps_touches, keeps_gateway_call |]. intros page.
  apply touches_bind; [apply keeps_touches, keeps_lift |]. intros i.
  apply touches_bind; [apply keeps_touches, keeps_gateway_call |]. intros _.
  apply touches_bind; [apply keeps_touches, keeps_now |]. intros t.
  apply touches_bind; [apply touches_update_frontmatter |]. intros _.
  apply touches_finish_push.
Qed.

Lemma touches_sync_file cfg path : touches_only path (sync_file_to_notion cfg path).
Proof.
  unfold sync_file_to_notion.
  destruct (negb (has_client cfg)); [apply keeps_touches, keeps_ret |].
  apply touches_try_catch; [| intros; apply keeps_touches, keeps_ret].
  unfold sync_file_body.
  apply touches_bind; [apply keeps_touches, keeps_parse_file |].
  intros [header raw].
  apply touches_bind; [apply keeps_touches, keeps_probe_page |].
  intros []; [apply touches_update_existing | apply touches_create_new].
Qed.

Lemma touches_sync_notion cfg i c p :
  touches_only (String c p) (sync_notion_to_file cfg i (Some (String c p))).
Proof.
  unfold sync_notion_to_file.
  destruct (negb (has_client cfg)); [apply keeps_touches, keeps_ret |].
  apply touches_try_catch; [| intros; apply keeps_touches, keeps_ret].
  unfold sync_notion_body.
  apply touches_bind; [apply keeps_touches, keeps_gateway_call |]. intros page.
  apply touches_bind; [apply keeps_touches, keeps_lift |]. intros title.
  apply touches_bind; [apply keeps_touches, keeps_gateway_call |]. intros blocks.
  apply touches_bind; [apply keeps_touches, keeps_lift |]. intros text.
  apply touches_bind; [apply keeps_touches, keeps_now |]. intros t.
  apply touches_bind; [apply keeps_touches, keeps_lift |]. intros header.
  apply touches_bind; [apply keeps_touches, keeps_path_exists |]. intros found.
  apply touches_bind; [apply touches_create |]. intros _.
  apply keeps_touches, keeps_ret.
Qed.

(** *** What a successful push leaves *)

Ltac keeps_tac :=
  repeat first
    [ apply keeps_ret | apply keeps_raise | apply keeps_lift
    | apply keeps_gateway_call | apply keeps_now | apply keeps_path_exists
    | apply keeps_load_post | apply keeps_getmtime
    | apply keeps_local_fromtimestamp | apply keeps_parse_file
    | apply keeps_probe_page
    | apply keeps_bind; [| intros ?]
    | apply keeps_try_catch; [| intros ?] ].

Ltac kept E H :=
  match type of E with
  | ?m ?w = _ =>
      let K := fresh "K" in
      assert (K : keeps_files m) by keeps_tac;
      pose proof (K _ _ _ E) as H; clear K
  end.

Lemma bind_ok_inv {A B} (m : M (R:=R) A) (k : A -> M (R:=R) B) w b w' :
  bind m k w = (Ok b, w') -> exists a w1, m w = (Ok a, w1) /\ k a w1 = (Ok b, w').
Proof. unfold bind. destruct (m w) as [[a|e] w1]; [eauto | discriminate]. Qed.

Lemma bind_raise_inv {A B} (m : M (R:=R) A) (k : A -> M (R:=R) B) w e w' :
  bind m k w = (Raise e, w') ->
  m w = (Raise e, w') \/ exists a w1, m w = (Ok a, w1) /\ k a w1 = (Raise e, w').
Proof. unfold bind. destruct (m w) as [[a|e'] w1]; [eauto | intros [= <- <-]; auto]. Qed.

Lemma update_frontmatter_ok path u (w : world R) x w' :
  update_frontmatter path u w = (Ok x, w') ->
  exists p mt,
    fs w !! path = Some (File (Document p) mt)
    /\ (path ∉ readonly w)
    /\ w' = set_fs (<[path := File (dumped (library w)
                                          (Post (merge (loadable (metadata p)) u)
                                                (as_read (content p))))
                                   (clock w)]> (fs w)) w.
Proof.
  unfold update_frontmatter, bind, path_exists.
  destruct (bool_decide (is_Some (fs w !! path))); cbn [negb];
    [| unfold raise; discriminate].
  unfold load_post. destruct (fs w !! path) as [[[q| |e0] mt]|]; try discriminate.
  unfold write_post. destruct (bool_decide (path ∈ readonly w)) eqn:Hro;
    [discriminate |].
  intros [= _ <-]. exists q, mt. repeat split.
  now apply bool_decide_eq_false_1 in Hro.
Qed.

Lemma update_frontmatter_raise path u (w : world R) e w' :
  update_frontmatter path u w = (Raise e, w') -> w' = w.
Proof.
  intros H. destruct (update_frontmatter_frame path u w _ w' H) as (_ & _ & _ & H4).
  now apply (H4 e).
Qed.

Lemma finish_push_ok path msg (w : world R) r w' :
  finish_push path msg w = (Ok r, w') ->
  r = (true, msg)
  /\ exists p mt,
       fs w !! path = Some (File (Document p) mt)
       /\ w' = set_fs (<[path := File (dumped (library w)
                                             (Post (merge (loadable (metadata p))
                                                          [("last_synced", stamp w)])
                                                   (as_read (content p))))
                                      (clock w)]> (fs w)) w.
Proof.
  unfold finish_push. intros H.
  apply bind_ok_inv in H as (t & w1 & E1 & H). unfold now in E1.
  injection E1 as <- <-.
  apply bind_ok_inv in H as (x & w2 & E2 & H). unfold ret in H.
  injection H as <- <-.
  apply update_frontmatter_ok in E2 as (p & mt & Hf & _ & ->).
  split; [reflexivity |]. now exists p, mt.
Qed.

Lemma finish_push_raise path msg (w : world R) e w' :
  finish_push path msg w = (Raise e, w') -> w' = w.
Proof.
  unfold finish_push. intros H.
  apply bind_raise_inv in H as [H | (t & w1 & E1 & H)]; [discriminate |].
  unfold now in E1. injection E1 as <- <-.
  apply bind_raise_inv in H as [H | (x & w2 & E2 & H)]; [| discriminate].
  now apply update_frontmatter_raise in H.
Qed.

(** the header a push writes: the header of the document with the page id
    and the time of the push *)
Lemma dumped_stamped (w : world R) (p : post) i :
  reserved (metadata p) = None ->
  rereads_unchanged w (merge (metadata p)
                         [("notion_page_id", i); ("last_synced", stamp w)]) ->
  dumped (library w)
    (Post (merge (metadata p) [("notion_page_id", i); ("last_synced", stamp w)])
          (content p))
  = Document (Post (merge (metadata p)
                      [("notion_page_id", i); ("last_synced", stamp w)])
                   (as_read (content p))).
Proof.
  intros Hr Hl. unfold dumped. cbn [metadata content].
  rewrite reserved_merge; [| exact Hr | |].
  - unfold rereads_unchanged in Hl. now rewrite Hl.
  - cbn. rewrite !not_elem_of_cons. repeat split; try discriminate.
    apply not_elem_of_nil.
  - cbn. rewrite !not_elem_of_cons. repeat split; try discriminate.
    apply not_elem_of_nil.
Qed.

Lemma merge_stamp_again (m : gmap string pyval) i v :
  merge (merge m [("notion_page_id", i); ("last_synced", v)]) [("last_synced", v)]
  = merge m [("notion_page_id", i); ("last_synced", v)].
Proof. cbn [merge foldl fst snd]. apply insert_insert_eq. Qed.

Lemma merge_linked (m : gmap string pyval) i v :
  m !! "notion_page_id" = Some i ->
  merge m [("last_synced", v)] = merge m [("notion_page_id", i); ("last_synced", v)].
Proof.
  intros H. cbn [merge foldl fst snd]. now rewrite (insert_id m "notion_page_id" i H).
Qed.

Lemma sync_file_ok cfg path (w w' : world R) p mtime msg :
  fs w !! path = Some (File (Document p) mtime) ->
  reserved (metadata p) = None ->
  (forall i, rereads_unchanged w
               (merge (metadata p)
                  [("notion_page_id", i); ("last_synced", stamp w)])) ->
  sync_file_to_notion cfg path w = (Ok (true, msg), w') ->
  exists i,
    fs w' !! path
    = Some (File (Document
                    (Post (merge (metadata p)
                             [("notion_page_id", i); ("last_synced", stamp w)])
                          (as_read (content p))))
                 (clock w)).
Proof.
  intros Hp0 Hres Hl. unfold sync_file_to_notion.
  destruct (negb (has_client cfg)); [discriminate |].
  unfold try_catch.
  destruct (sync_file_body cfg path w) as [[r|e] w1] eqn:E; [| discriminate].
  intros [= -> <-]. unfold sync_file_body in E.
  apply bind_ok_inv in E as ([header raw] & w2 & E1 & E).
  pose proof (parse_file_pure _ _ _ _ E1) as ->.
  rewrite (parse_file_run path w p mtime Hp0) in E1.
  rewrite (loadable_id _ Hres) in E1. injection E1 as <- <-.
  apply bind_ok_inv in E as (linked & w3 & E2 & E). kept E2 K2.
  destruct K2 as (Kf & _ & Kc & Ko & Kl).
  assert (Ks : stamp w3 = stamp w) by (unfold stamp; now rewrite Kc, Ko).
  destruct linked.
  - destruct (metadata p !! "notion_page_id") as [i|] eqn:Hid.
    2:{ rewrite probe_page_run in E2. cbn in E2. discriminate. }
    unfold update_existing in E.
    apply bind_ok_inv in E as (x & w4 & E3 & E). kept E3 K3.
    destruct K3 as (Kf3 & _ & Kc3 & Ko3 & Kl3).
    apply finish_push_ok in E as (_ & p1 & mt1 & Hf1 & ->).
    rewrite Kf3, Kf, Hp0 in Hf1. injection Hf1 as <- <-.
    exists i. cbn [fs set_fs]. rewrite lookup_insert_eq.
    rewrite (loadable_id _ Hres).
    assert (Ks4 : stamp w4 = stamp w) by (unfold stamp; now rewrite Kc3, Ko3, Kc, Ko).
    rewrite Ks4, (merge_linked _ i _ Hid), Kl3, Kl, Kc3, Kc, dumped_as_read.
    pose proof (dumped_stamped w p i Hres (Hl i)) as D. now rewrite D.
  - unfold create_new in E.
    destruct (notion_parent_page_id cfg) as [configured|]; [| discriminate].
    destruct (is_empty configured); [discriminate |].
    apply bind_ok_inv in E as (properties & w4 & E3 & E). kept E3 K3.
    apply bind_ok_inv in E as (page & w5 & E4 & E). kept E4 K4.
    apply bind_ok_inv in E as (i & w6 & E5 & E). kept E5 K5.
    apply bind_ok_inv in E as (x & w7 & E6 & E). kept E6 K6.
    apply bind_ok_inv in E as (t & w8 & E7 & E). unfold now in E7.
    injection E7 as <- <-.
    apply bind_ok_inv in E as (y & w9 & E8 & E).
    destruct K3 as (F3 & _ & C3 & O3 & L3), K4 as (F4 & _ & C4 & O4 & L4),
             K5 as (F5 & _ & C5 & O5 & L5), K6 as (F6 & _ & C6 & O6 & L6).
    assert (Kf7 : fs w7 = fs w) by congruence.
    assert (Kc7 : clock w7 = clock w) by congruence.
    assert (Ko7 : local_offset w7 = local_offset w) by congruence.
    assert (Kl7 : library w7 = library w) by congruence.
    assert (Ks7 : PStr (isoformat (fromtimestamp (local_offset w7) (clock w7)))
                  = stamp w) by (unfold stamp; now rewrite Kc7, Ko7).
    pose proof (dumped_stamped w p i Hres (Hl i)) as D.
    assert (Hres1 : reserved (merge (metadata p)
                                [("notion_page_id", i); ("last_synced", stamp w)])
                    = None).
    { apply reserved_merge; [exact Hres | |];
        cbn; rewrite !not_elem_of_cons; repeat split; try discriminate;
        apply not_elem_of_nil. }
    pose proof (Hl i) as Hi. unfold rereads_unchanged in Hi.
    set (written := merge (metadata p)
                      [("notion_page_id", i); ("last_synced", stamp w)]) in *.
    apply update_frontmatter_ok in E8 as (p1 & mt1 & Hf1 & _ & Hw9).
    rewrite Kf7, Hp0 in Hf1. injection Hf1 as <- <-.
    rewrite (loadable_id _ Hres), Ks7, Kl7, dumped_as_read in Hw9.
    fold written in Hw9. rewrite D, Kc7, Kf7 in Hw9.
    apply finish_push_ok in E as (_ & p2 & mt2 & Hf2 & ->).
    assert (Ks9 : stamp w9 = stamp w).
    { rewrite Hw9. unfold stamp. cbn [clock local_offset set_fs].
      now rewrite Kc7, Ko7. }
    rewrite Ks9. rewrite Hw9 in Hf2. cbn [fs set_fs] in Hf2.
    rewrite lookup_insert_eq in Hf2. injection Hf2 as <- <-.
    exists i. rewrite Hw9. cbn [fs set_fs clock library local_offset].
    rewrite lookup_insert_eq. cbn [metadata content].
    rewrite (loadable_id _ Hres1). unfold written at 1.
    rewrite merge_stamp_again. fold written.
    unfold dumped. cbn [metadata content]. rewrite Hres1, Kl7, Hi, Kc7.
    now rewrite !as_read_idem.
Qed.

(** *** A push that fails has changed no file *)

Lemma clean_keeps (m : M (R:=R) (bool * string)) : keeps_files m -> fails_clean m.
Proof. intros K w r w' E _. now apply (K _ _ _ E). Qed.

Lemma clean_bind {A} (m : M (R:=R) A) (k : A -> M (R:=R) (bool * string)) :
  keeps_files m -> (forall a, fails_clean (k a)) -> fails_clean (bind m k).
Proof.
  intros Km Hk w r w'. unfold bind.
  destruct (m w) as [[a|e] w1] eqn:E.
  - intros E2 Hr. rewrite (Hk a _ _ _ E2 Hr). now apply (Km _ _ _ E).
  - intros [= <- <-] _. now apply (Km _ _ _ E).
Qed.

Lemma clean_try_catch (m : M (R:=R) (bool * string)) msg :
  fails_clean m -> fails_clean (try_catch m (fun e => ret (false, msg e))).
Proof.
  intros Hm w r w'. unfold try_catch.
  destruct (m w) as [[a|e] w1] eqn:E.
  - intros [= <- <-] Hr. now apply (Hm _ _ _ E).
  - intros [= <- <-] _. now apply (Hm _ _ _ E).
Qed.

Lemma clean_finish_push path msg : fails_clean (R:=R) (finish_push path msg).
Proof.
  intros w [r|e] w' E Hr.
  - apply finish_push_ok in E as (-> & _). discriminate.
  - now rewrite (finish_push_raise _ _ _ _ _ E).
Qed.

(** the file the first update of a push leaves can be read, so the second
    update goes through *)
Lemma clean_create_tail path i v msg :
  fails_clean (R:=R)
    (bind (update_frontmatter path [("notion_page_id", i); ("last_synced", v)])
          (fun _ => finish_push path msg)).
Proof.
  intros w [r|e] w' E Hr.
  - apply bind_ok_inv in E as (x & w1 & _ & E).
    apply finish_push_ok in E as (-> & _). discriminate.
  - apply bind_raise_inv in E as [E | (x & w1 & E1 & E)].
    + now rewrite (update_frontmatter_raise _ _ _ _ _ E).
    + exfalso. apply update_frontmatter_ok in E1 as (p & mt & Hf & Hro & ->).
      unfold finish_push, bind, now in E.
      unfold dumped in E. cbn [metadata content] in E.
      rewrite reserved_merge in E.
      * rewrite (update_frontmatter_run path _ _
                   (Post (reread (library w)
                            (merge (loadable (metadata p))
                               [("notion_page_id", i); ("last_synced", v)]))
                         (as_read (as_read (content p)))) (clock w)) in E.
        -- discriminate.
        -- apply lookup_insert_eq.
        -- exact Hro.
      * apply reserved_loadable.
      * cbn. rewrite !not_elem_of_cons. repeat split; try discriminate.
        apply not_elem_of_nil.
      * cbn. rewrite !not_elem_of_cons. repeat split; try discriminate.
        apply not_elem_of_nil.
Qed.

Lemma clean_sync_file cfg path : fails_clean (sync_file_to_notion cfg path).
Proof.
  unfold sync_file_to_notion.
  destruct (negb (has_client cfg)); [apply clean_keeps, keeps_ret |].
  apply (clean_try_catch _ (fun e => "Error syncing file to Notion: " +:+ exn_msg e)).
  unfold sync_file_body.
  apply clean_bind; [apply keeps_parse_file |]. intros [header raw].
  apply clean_bind; [apply keeps_probe_page |]. intros [].
  - unfold update_existing. apply clean_bind; [apply keeps_gateway_call |].
    intros _. apply clean_finish_push.
  - unfold create_new.
    destruct (notion_parent_page_id cfg) as [configured|];
      [| apply clean_keeps, keeps_ret].
    destruct (is_empty configured); [apply clean_keeps, keeps_ret |].
    apply clean_bind; [keeps_tac |]. intros properties.
    apply clean_bind; [keeps_tac |]. intros page.
    apply clean_bind; [keeps_tac |]. intros i.
    apply clean_bind; [keeps_tac |]. intros _.
    apply clean_bind; [keeps_tac |]. intros t.
    apply clean_create_tail.
Qed.

(** *** A pull that fails has at most emptied a file *)

Lemma softly_keeps (m : M (R:=R) (bool * string)) : keeps_files m -> fails_softly m.
Proof. intros K w r w' E _. left. now apply (K _ _ _ E). Qed.

Lemma softly_bind {A} (m : M (R:=R) A) (k : A -> M (R:=R) (bool * string)) :
  keeps_files m -> (forall a, fails_softly (k a)) -> fails_softly (bind m k).
Proof.
  intros Km Hk w r w'. unfold bind.
  destruct (m w) as [[a|e] w1] eqn:E.
  - intros E2 Hr. destruct (Km _ _ _ E) as (Kf & _ & Kc & _).
    destruct (Hk a _ _ _ E2 Hr) as [H | [path H]].
    + left. congruence.
    + right. exists path. rewrite H. unfold emptied_at. now rewrite Kf, Kc.
  - intros [= <- <-] _. left. now apply (Km _ _ _ E).
Qed.

Lemma softly_try_catch (m : M (R:=R) (bool * string)) msg :
  fails_softly m -> fails_softly (try_catch m (fun e => ret (false, msg e))).
Proof.
  intros Hm w r w'. unfold try_catch.
  destruct (m w) as [[a|e] w1] eqn:E.
  - intros [= <- <-] Hr. now apply (Hm _ _ _ E).
  - intros [= <- <-] _. now apply (Hm _ _ _ E).
Qed.

Lemma softly_write path header text msg :
  fails_softly (R:=R)
    (bind (create_markdown_with_frontmatter path header text)
          (fun _ => ret (true, msg))).
Proof.
  intros w [r|e] w' E Hr.
  - apply bind_ok_inv in E as (x & w1 & _ & E). unfold ret in E.
    injection E as <- _. discriminate.
  - apply bind_raise_inv in E as [E | (x & w1 & _ & E)]; [| discriminate].
    unfold create_markdown_with_frontmatter in E.
    destruct (bool_decide (is_Some (header !! "content")));
      [unfold raise in E; injection E as _ <-; now left |].
    destruct (truthy (default PNone (header !! "handler"))).
    + unfold write_with in E. destruct (bool_decide (path ∈ readonly w));
        [injection E as _ <-; now left |].
      destruct (match default PNone (header !! "handler") with
                | PStr s => format_with (library w) s
                              (Post (delete "handler" header) text)
                | _ => Raise (AttributeError
                                (type_name (default PNone (header !! "handler")))
                                "format")
                end) as [p'|e']; [discriminate |].
      injection E as _ <-. right. now exists path.
    + unfold write_post in E. destruct (bool_decide (path ∈ readonly w));
        [injection E as _ <-; now left | discriminate].
Qed.

Lemma softly_sync_notion cfg i path : fails_softly (sync_notion_to_file cfg i path).
Proof.
  unfold sync_notion_to_file.
  destruct (negb (has_client cfg)); [apply softly_keeps, keeps_ret |].
  apply (softly_try_catch _
           (fun e => "Error syncing Notion page to file: " +:+ exn_msg e)).
  unfold sync_notion_body.
  apply softly_bind; [keeps_tac |]. intros page.
  apply softly_bind; [keeps_tac |]. intros title.
  apply softly_bind; [keeps_tac |]. intros blocks.
  apply softly_bind; [keeps_tac |]. intros text.
  apply softly_bind; [keeps_tac |]. intros t.
  apply softly_bind; [keeps_tac |]. intros header.
  destruct path as [[|c p]|].
  - apply softly_bind; [keeps_tac |]. intros f. apply softly_write.
  - apply softly_bind; [keeps_tac |]. intros found. apply softly_write.
  - apply softly_bind; [keeps_tac |]. intros f. apply softly_write.
Qed.

(** *** What a successful pull leaves *)






(** the steps of a pull up to the writing of the file *)
Lemma sync_notion_steps cfg i file_path (w : world R) r w' :
  sync_notion_body cfg i file_path w = (Ok r, w') ->
  exists page rem1 blocks rem2 text title header,
    get_page i (remote w) = (Ok page, rem1)
    /\ get_page_blocks i rem1 = (Ok blocks, rem2)
    /\ blocks_to_markdown blocks = Ok text
    /\ page_title page = Ok title
    /\ (let* properties := get page "properties" (PDict []) in
        let* l := items properties in
        pulled_properties
          (<["last_synced" := stamp w]>
             (<["notion_page_id" := i]> (<["title" := title]> ∅))) l) = Ok header
    /\ match file_path with
       | Some (String c p) =>
           bind (path_exists (String c p))
             (fun found =>
                bind (create_markdown_with_frontmatter (String c p) header text)
                  (fun _ => ret (true, (if found then "Updated markdown file: "
                                        else "Created new markdown file: ")
                                       +:+ String c p)))
       | _ =>
           bind (lift (sanitize_title title))
             (fun filename =>
                bind (create_markdown_with_frontmatter
                        (path_join (default "./docs" (directories_markdown_root cfg))
                           (filename +:+ ".md")) header text)
                  (fun _ => ret (true, "Created new markdown file: "
                                       +:+ path_join
                                             (default "./docs"
                                                (directories_markdown_root cfg))
                                             (filename +:+ ".md"))))
       end (logged (GetPageBlocks i) rem2 (logged (GetPage i) rem1 w)) = (Ok r, w').
Proof.
  intros E. unfold sync_notion_body in E.
  apply bind_ok_inv in E as (page & w2 & E1 & E).
  unfold gateway_call in E1.
  destruct (get_page i (remote w)) as [r1 rem1] eqn:G1. injection E1 as -> <-.
  apply bind_ok_inv in E as (title & w3 & E2 & E). unfold lift in E2.
  injection E2 as E2 <-.
  apply bind_ok_inv in E as (blocks & w4 & E3 & E).
  unfold gateway_call in E3. cbn [remote logged] in E3.
  destruct (get_page_blocks i rem1) as [r2 rem2] eqn:G2. injection E3 as -> <-.
  apply bind_ok_inv in E as (text & w5 & E4 & E). unfold lift in E4.
  injection E4 as E4 <-.
  apply bind_ok_inv in E as (t & w6 & E5 & E). unfold now in E5.
  injection E5 as <- <-.
  apply bind_ok_inv in E as (header & w7 & E6 & E). unfold lift in E6.
  injection E6 as E6 <-.
  exists page, rem1, blocks, rem2, text, title, header.
  split; [reflexivity |]. split; [exact G2 |]. split; [exact E4 |].
  split; [exact E2 |]. split; [exact E6 |].
  destruct file_path as [[|c p]|]; exact E.
Qed.

(** the file [create_markdown_with_frontmatter] leaves when it returns *)
Lemma create_ok path header text (w : world R) x w' :
  create_markdown_with_frontmatter path header text w = (Ok x, w') ->
  (exists p', w' = set_fs (<[path := File (Document p') (clock w)]> (fs w)) w)
  /\ (header !! "handler" = None ->
      w' = set_fs (<[path := File (Document (Post (reread (library w) header)
                                                  (as_read text)))
                                  (clock w)]> (fs w)) w).
Proof.
  unfold create_markdown_with_frontmatter.
  destruct (bool_decide (is_Some (header !! "content"))) eqn:Ec;
    [unfold raise; discriminate |].
  apply bool_decide_eq_false_1 in Ec.
  assert (Hc : header !! "content" = None)
    by (destruct (header !! "content"); [exfalso; eauto | reflexivity]).
  assert (Hres : reserved (delete "handler" header) = None).
  { apply reserved_none. split; [| apply lookup_delete_eq].
    now rewrite lookup_delete_ne by discriminate. }
  destruct (truthy (default PNone (header !! "handler"))) eqn:Eh.
  - unfold write_with. destruct (bool_decide (path ∈ readonly w)); [discriminate |].
    destruct (match default PNone (header !! "handler") with
              | PStr s => format_with (library w) s
                            (Post (delete "handler" header) text)
              | _ => Raise (AttributeError
                                (type_name (default PNone (header !! "handler")))
                                "format")
              end) as [p'|e']; [| discriminate].
    intros [= _ <-]. split; [now exists p' |].
    intros Hn. rewrite Hn in Eh. discriminate.
  - unfold write_post. destruct (bool_decide (path ∈ readonly w)); [discriminate |].
    intros [= _ <-]. unfold dumped. cbn [metadata content]. rewrite Hres.
    split; [now eexists |].
    intros Hn. now rewrite (delete_id header "handler" Hn).
Qed.

Lemma sync_notion_message cfg i c p (w : world R) msg w' :
  sync_notion_to_file cfg i (Some (String c p)) w = (Ok (true, msg), w') ->
  msg = (if bool_decide (is_Some (fs w !! String c p))
         then "Updated markdown file: " else "Created new markdown file: ")
        +:+ String c p.
Proof.
  unfold sync_notion_to_file. destruct (negb (has_client cfg)); [discriminate |].
  unfold try_catch.
  destruct (sync_notion_body cfg i (Some (String c p)) w) as [[r|e] w1] eqn:E;
    [| discriminate].
  intros [= -> <-].
  apply sync_notion_steps in E
    as (page & rem1 & blocks & rem2 & text & title & header & _ & _ & _ & _ & _ & E).
  apply bind_ok_inv in E as (found & w8 & E7 & E). unfold path_exists in E7.
  injection E7 as <- <-.
  apply bind_ok_inv in E as (x & w9 & E8 & E). unfold ret in E.
  now injection E as <- _.
Qed.


Lemma sync_notion_derived cfg i file_path (w : world R) msg w' :
  file_path = None \/ file_path = Some "" ->
  sync_notion_to_file cfg i file_path w = (Ok (true, msg), w') ->
  exists page title name text header,
    (get_page i (remote w)).1 = Ok page
    /\ page_title page = Ok title
    /\ sanitize_title title = Ok name
    /\ msg = "Created new markdown file: "
             +:+ path_join (default "./docs" (directories_markdown_root cfg))
                   (name +:+ ".md")
    /\ fs w' = <[path_join (default "./docs" (directories_markdown_root cfg))
                   (name +:+ ".md")
                 := File (Document (Post header text)) (clock w)]> (fs w).
Proof.
  intros Hp. unfold sync_notion_to_file.
  destruct (negb (has_client cfg)); [discriminate |].
  unfold try_catch.
  destruct (sync_notion_body cfg i file_path w) as [[r|e] w1] eqn:E;
    [| discriminate].
  intros [= -> <-].
  apply sync_notion_steps in E
    as (page & rem1 & blocks & rem2 & text & title & header
        & G1 & G2 & E4 & E2 & E6 & E).
  assert (E' : bind (lift (sanitize_title title))
                 (fun filename =>
                    bind (create_markdown_with_frontmatter
                            (path_join (default "./docs" (directories_markdown_root cfg))
                               (filename +:+ ".md")) header text)
                      (fun _ => ret (true, "Created new markdown file: "
                                           +:+ path_join
                                                 (default "./docs"
                                                    (directories_markdown_root cfg))
                                                 (filename +:+ ".md"))))
                 (logged (GetPageBlocks i) rem2 (logged (GetPage i) rem1 w))
               = (Ok (true, msg), w1)).
  { destruct Hp as [-> | ->]; exact E. }
  clear E. apply bind_ok_inv in E' as (name & w8 & E7 & E). unfold lift in E7.
  injection E7 as E7 <-.
  apply bind_ok_inv in E as (x & w9 & E8 & E). unfold ret in E.
  injection E as <- <-.
  apply create_ok in E8 as [[p' ->] _].
  exists page, title, name, (content p'), (metadata p').
  rewrite G1. cbn [fst snd fs set_fs clock logged].
  split; [reflexivity |]. split; [exact E2 |]. split; [exact E7 |].
  split; [reflexivity |]. now destruct p'.
Qed.

Lemma slices_back (s : string) :
  String.length s = 32 ->
  slice 0 8 s +:+ slice 8 12 s +:+ slice 12 16 s +:+ slice 16 20 s +:+ skip 20 s = s.
Proof.
  intros H.
  do 32 (destruct s as [|? s]; [discriminate |]).
  destruct s; [reflexivity | discriminate].
Qed.

End WithGateway.

(** *** The dashes of a parent id *)

Lemma filter_dashes_app (a b : string) :
  filter_chars (fun c => negb (Ascii.eqb c "-")) (a +:+ b)
  = filter_chars (fun c => negb (Ascii.eqb c "-")) a
    +:+ filter_chars (fun c => negb (Ascii.eqb c "-")) b.
Proof.
  induction a as [|c a IH]; [reflexivity |]. cbn [String.append filter_chars].
  destruct (negb (Ascii.eqb c "-")); cbn [String.append]; now rewrite IH.
Qed.

Lemma filter_dashes_free (s : string) :
  contains_char "-" s = false ->
  filter_chars (fun c => negb (Ascii.eqb c "-")) s = s.
Proof.
  induction s as [|c s IH]; [reflexivity |]. cbn [contains_char filter_chars].
  intros H. apply orb_false_elim in H as [-> H]. cbn [negb]. now rewrite IH.
Qed.

Lemma dash_free_skip n : forall s,
  contains_char "-" s = false -> contains_char "-" (skip n s) = false.
Proof.
  induction n as [|n IH]; intros [|c s]; cbn [skip contains_char]; auto.
  intros H. apply orb_false_elim in H as [_ H]. now apply IH.
Qed.

Lemma dash_free_keep n : forall s,
  contains_char "-" s = false -> contains_char "-" (keep n s) = false.
Proof.
  induction n as [|n IH]; intros [|c s]; cbn [keep contains_char]; auto.
  intros H. apply orb_false_elim in H as [-> H]. cbn [orb]. now apply IH.
Qed.

Lemma contains_dash_app (a b : string) :
  contains_char "-" (a +:+ b) = contains_char "-" a || contains_char "-" b.
Proof.
  induction a as [|c a IH]; [reflexivity |]. cbn [String.append contains_char].
  now rewrite IH, orb_assoc.
Qed.

(** *** The file name made of a title *)

Lemma kept_char_facts c :
  keeps_char c = true ->
  name_char (lower_char (if Ascii.eqb c " " then "-"%char else c)) = true
  /\ keeps_char (lower_char (if Ascii.eqb c " " then "-"%char else c)) = true
  /\ Ascii.eqb (lower_char (if Ascii.eqb c " " then "-"%char else c)) " " = false
  /\ lower_char (lower_char (if Ascii.eqb c " " then "-"%char else c))
     = lower_char (if Ascii.eqb c " " then "-"%char else c).
Proof.
  destruct c as [[] [] [] [] [] [] [] []]; vm_compute; intros H;
    try discriminate; repeat split.
Qed.

Lemma name_char_facts c :
  name_char c = true ->
  Ascii.eqb c "/" = false /\ Ascii.eqb c "." = false /\ Ascii.eqb c " " = false.
Proof.
  destruct c as [[] [] [] [] [] [] [] []]; vm_compute; intros H;
    try discriminate; repeat split.
Qed.

Lemma sanitized_chars s :
  let f := lower (replace_char " " "-" (filter_chars keeps_char s)) in
  all_chars name_char f = true
  /\ lower (replace_char " " "-" (filter_chars keeps_char f)) = f.
Proof.
  induction s as [|c s [IH1 IH2]]; [split; reflexivity |].
  cbn [filter_chars]. destruct (keeps_char c) eqn:E; [| now split].
  cbn [replace_char lower all_chars filter_chars].
  destruct (kept_char_facts c E) as (H1 & H2 & H3 & H4).
  rewrite H1, H2. cbn [replace_char lower andb]. rewrite H3, H4.
  split; [exact IH1 | now f_equal].
Qed.

Lemma name_chars_plain f :
  all_chars name_char f = true ->
  contains_char "/" f = false /\ contains_char "." f = false.
Proof.
  induction f as [|c f IH]; [now split |]. cbn [all_chars contains_char].
  intros H. apply andb_prop in H as [Hc Hf].
  destruct (name_char_facts c Hc) as (H1 & H2 & _). rewrite H1, H2.
  now apply IH.
Qed.

End EngineMore.
(** * Facts about the paths of the pull commands *)

Module CliFacts.
Import Py World MarkdownParser SyncEngine Cli TextFacts.
Local Open Scope world_scope.

Lemma length_append (a b : string) :
  String.length (a +:+ b) = String.length a + String.length b.
Proof. induction a as [|c a IH]; [reflexivity |]. cbn. now rewrite IH. Qed.

Lemma append_inj_r (z : string) : forall x y : string, x +:+ z = y +:+ z -> x = y.
Proof.
  assert (L : forall x y : string,
             String.length x = String.length y -> x +:+ z = y +:+ z -> x = y).
  { induction x as [|a x IH]; intros [|b y] Hl H; try discriminate; [reflexivity |].
    cbn in H. injection H as -> H. f_equal. apply IH; [| exact H].
    cbn in Hl. lia. }
  intros x y H. apply L; [| exact H].
  apply (f_equal String.length) in H. rewrite !length_append in H. lia.
Qed.

Lemma numbered_path_inj original j k :
  numbered_path original j = numbered_path original k -> j = k.
Proof.
  unfold numbered_path. destruct (splitext original) as [name ext]. intros H.
  apply String.app_inj in H. apply (String.app_inj "-") in H.
  apply append_inj_r in H. now apply pretty_nat_inj in H.
Qed.

Lemma numbered_path_nonempty original k : numbered_path original k <> "".
Proof.
  unfold numbered_path. destruct (splitext original) as [name ext]. intros H.
  apply (f_equal String.length) in H. rewrite !length_append in H.
  cbn in H. lia.
Qed.

Lemma append_nonempty (a b : string) : is_empty b = false -> is_empty (a +:+ b) = false.
Proof. intros H. destruct a; [exact H | reflexivity]. Qed.

Lemma path_join_nonempty a b : is_empty b = false -> is_empty (path_join a b) = false.
Proof.
  intros Hb. unfold path_join. destruct (startswith "/" b); [exact Hb |].
  destruct (_ || _); apply append_nonempty; [exact Hb |].
  now apply append_nonempty.
Qed.

Section WithRemote.
Context {R : Type}.

Lemma free_path_step fuel counter original p (w : world R) :
  free_path (S fuel) counter original p w
  = if bool_decide (is_Some (fs w !! p))
    then free_path fuel (S counter) original (numbered_path original counter) w
    else (Ok (Some p), w).
Proof.
  cbn [free_path]. unfold bind at 1, path_exists at 1.
  now destruct (bool_decide (is_Some (fs w !! p))).
Qed.

Lemma free_path_run original (w : world R) fuel : forall counter p,
  exists o,
    free_path fuel counter original p w = (Ok o, w)
    /\ match o with
       | Some q =>
           fs w !! q = None
           /\ (q = p \/ exists k, q = numbered_path original k)
           /\ (fs w !! p = None -> q = p)
       | None =>
           is_Some (fs w !! p)
           /\ forall k, counter <= k < counter + fuel ->
                is_Some (fs w !! numbered_path original k)
       end.
Proof.
  induction fuel as [|fuel IH]; intros counter p.
  - cbn [free_path]. unfold bind, path_exists.
    destruct (bool_decide (is_Some (fs w !! p))) eqn:E.
    + exists None. split; [reflexivity |]. apply bool_decide_eq_true_1 in E.
      split; [exact E |]. intros k Hk. lia.
    + exists (Some p). split; [reflexivity |]. apply bool_decide_eq_false_1 in E.
      assert (fs w !! p = None) by (destruct (fs w !! p); [exfalso; eauto | reflexivity]).
      auto.
  - rewrite free_path_step.
    destruct (bool_decide (is_Some (fs w !! p))) eqn:E.
    + apply bool_decide_eq_true_1 in E.
      destruct (IH (S counter) (numbered_path original counter)) as (o & Ho & H).
      exists o. split; [exact Ho |]. destruct o as [q|].
      * destruct H as (H1 & H2 & H3). split; [exact H1 |]. split.
        -- right. destruct H2 as [-> | H2]; [now exists counter | exact H2].
        -- intros Hn. rewrite Hn in E. now destruct E.
      * destruct H as (H1 & H2). split; [exact E |]. intros k Hk.
        destruct (decide (k = counter)) as [-> | Hne]; [exact H1 |].
        apply H2. lia.
    + exists (Some p). split; [reflexivity |]. apply bool_decide_eq_false_1 in E.
      assert (fs w !! p = None) by (destruct (fs w !! p); [exfalso; eauto | reflexivity]).
      auto.
Qed.

(** more numbered paths than files cannot all be taken *)
Lemma numbered_paths_run_out original (w : world R) counter :
  ~ (forall k, counter <= k < counter + S (size (fs w)) ->
       is_Some (fs w !! numbered_path original k)).
Proof.
  intros H.
  pose (l := numbered_path original <$> seq counter (S (size (fs w)))).
  assert (Hnd : NoDup l).
  { apply NoDup_fmap_2; [| apply NoDup_seq].
    intros j k. apply numbered_path_inj. }
  assert (Hsub : (list_to_set l : gset string) ⊆ dom (fs w)).
  { intros q Hq. apply elem_of_list_to_set in Hq. unfold l in Hq.
    apply list_elem_of_fmap in Hq as (k & -> & Hk).
    apply elem_of_seq in Hk. apply elem_of_dom. apply H. lia. }
  apply subseteq_size in Hsub. rewrite size_list_to_set in Hsub by exact Hnd.
  rewrite size_dom in Hsub. unfold l in Hsub.
  rewrite length_fmap, length_seq in Hsub. lia.
Qed.

Lemma free_path_found original (w : world R) p :
  exists q,
    free_path (S (size (fs w))) 1 original p w = (Ok (Some q), w)
    /\ fs w !! q = None
    /\ (q = p \/ exists k, q = numbered_path original k)
    /\ (fs w !! p = None -> q = p).
Proof.
  destruct (free_path_run original w (S (size (fs w))) 1 p) as (o & Ho & H).
  destruct o as [q|].
  - now exists q.
  - destruct H as [_ H]. now apply numbered_paths_run_out in H.
Qed.

Lemma cli_pull_path_is_free_aux pull_directory title page_id filename (w : world R) :
  pull_filename title page_id = Ok filename ->
  exists path,
    pull_path pull_directory title page_id w = (Ok (Some path), w)
    /\ fs w !! path = None
    /\ is_empty path = false.
Proof.
  intros Hn.
  assert (He : is_empty filename = false).
  { unfold pull_filename in Hn.
    destruct (sanitize_title title) as [f|]; [| discriminate].
    cbn [res_bind] in Hn. injection Hn as <-. now destruct f. }
  unfold pull_path, bind, lift. rewrite Hn.
  destruct (free_path_found (path_join pull_directory (filename +:+ ".md")) w
              (path_join pull_directory (filename +:+ ".md")))
    as (q & Hq & Hfree & Hshape & Hsame).
  exists q. split; [exact Hq |]. split; [exact Hfree |].
  destruct Hshape as [-> | [k ->]].
  - apply path_join_nonempty. now apply append_nonempty.
  - pose proof (numbered_path_nonempty
                  (path_join pull_directory (filename +:+ ".md")) k) as H.
    now destruct (numbered_path _ k).
Qed.

End WithRemote.

End CliFacts.
(** * Facts about the configuration and the patterns of the watcher *)

Module ConfigFacts.
Import Py ConfigFile FileWatcher CliFacts.

Lemma split_on_nonempty sep s : split_on sep s <> [].
Proof.
  destruct s as [|c s]; cbn [split_on]; [discriminate |].
  destruct (Ascii.eqb c sep); [discriminate |].
  destruct (split_on sep s); discriminate.
Qed.

Lemma assoc_dict_set k v d : assoc k (dict_set k v d) = Some v.
Proof.
  induction d as [|[k' v'] d IH]; cbn [dict_set assoc].
  - now rewrite String.eqb_refl.
  - destruct (String.eqb k k') eqn:E; cbn [assoc]; rewrite ?String.eqb_refl, ?E; auto.
Qed.

(** what [set] has put is what the loop of [get] finds *)
Lemma walk_assign default value keys : forall data data',
  assign keys value data = Ok data' -> walk keys data' default = value.
Proof.
  induction keys as [|k rest IH]; intros data data' H; [discriminate |].
  cbn [assign] in H. destruct rest as [|r rs].
  - destruct data as [| | | | |d]; try discriminate. cbn [setitem] in H.
    injection H as <-. cbn [walk]. now rewrite assoc_dict_set.
  - destruct data as [| | |s| |d]; try discriminate.
    + now destruct (contains k s).
    + destruct (assign (r :: rs) value
                  match assoc k d with Some v => v | None => PDict [] end)
        as [child'|e] eqn:E; cbn [res_bind] in H; [| discriminate].
      injection H as <-. change (walk (k :: r :: rs) (PDict (dict_set k child' d)) default)
        with (match assoc k (dict_set k child' d) with
              | Some v => walk (r :: rs) v default
              | None => default
              end).
      rewrite assoc_dict_set. now apply (IH _ _ E).
Qed.

(** under a new dictionary [set] goes through *)
Lemma assign_fresh value keys : keys <> [] ->
  exists data', assign keys value (PDict []) = Ok data'.
Proof.
  induction keys as [|k rest IH]; intros Hne; [congruence |].
  cbn [assign]. destruct rest as [|r rs]; [now eexists |].
  cbn [assoc]. destruct IH as [child' ->]; [discriminate |]. now eexists.
Qed.

Lemma keep_length_app a b : keep (String.length a) (a +:+ b) = a.
Proof. induction a as [|c a IH]; [now destruct b | cbn; now rewrite IH]. Qed.

Lemma startswith_app a b : startswith a (a +:+ b) = true.
Proof.
  induction a as [|c a IH]; [reflexivity |]. cbn. now rewrite Ascii.eqb_refl.
Qed.

Lemma skip_app a b : skip (String.length a) (a +:+ b) = b.
Proof. induction a as [|c a IH]; [reflexivity | exact IH]. Qed.

Lemma endswith_app a b : endswith b (a +:+ b) = true.
Proof.
  unfold endswith. rewrite length_append.
  replace (String.length a + String.length b - String.length b)
    with (String.length a) by lia.
  rewrite skip_app, String.eqb_refl.
  rewrite andb_true_r. apply Nat.leb_le. lia.
Qed.

Lemma excluded_by patterns pattern path :
  In pattern patterns -> pattern_excludes pattern path = true ->
  _is_excluded patterns path = true.
Proof.
  induction patterns as [|p ps IH]; intros Hin Hp; [destruct Hin |].
  cbn [_is_excluded]. destruct Hin as [-> | Hin]; [now rewrite Hp |].
  destruct (pattern_excludes p path); [reflexivity | now apply IH].
Qed.

End ConfigFacts.
(** * The claims *)

Import Py BlockConverter Aux ConverterFacts TextFacts.

(** C2.  One round trip is structurally idempotent: for every body,
    [blocks_to_markdown] succeeds on the blocks [markdown_to_blocks] builds,
    and parsing the text it writes gives the same block sequence again. *)
Theorem roundtrip_idempotent (body : string) :
  exists document,
    blocks_to_markdown (markdown_to_blocks body) = Ok document
    /\ markdown_to_blocks document = markdown_to_blocks body.
Proof.
  unfold markdown_to_blocks, blocks_to_markdown.
  destruct (roundtrip_lines (length (split_nl body)) (split_nl body)
              (Nat.le_refl _) (split_nl_all_free body)) as (out & Hout & Hre).
  exists (join_nl out). rewrite Hout. split; [reflexivity |].
  now rewrite parse_split_join.
Qed.

(** ** The converter *)

Lemma single_line line :
  nl_free line = true -> markdown_to_blocks line = parse_lines [line].
Proof. intros H. unfold markdown_to_blocks. now rewrite split_nl_free. Qed.

(** C4, as the code has it.  A line of [n] hashes, a space and a text is a
    heading exactly when [n] is 1, 2 or 3, and its level is then [n]; with
    four hashes or more the line is no heading at all but a paragraph
    holding the whole line.  (The clamp to 3 sits in
    [_create_heading_block], which the parser never calls with a level
    above 3.) *)
Theorem heading_level_is_hash_count (n : nat) (text : string) :
  1 <= n -> tight text -> nl_free text = true ->
  markdown_to_blocks (repeat_char "#" n +:+ " " +:+ text)
  = [if n <=? 3 then _create_heading_block text n
     else _create_paragraph_block (repeat_char "#" n +:+ " " +:+ text)].
Proof.
  intros Hn Ht Hf. rewrite single_line.
  2:{ apply nl_free_app; [clear; induction n; auto |].
      now apply (nl_free_app " "). }
  destruct (n <=? 3) eqn:E.
  - apply Nat.leb_le in E. now rewrite reparse_heading by (auto; lia).
  - apply Nat.leb_gt in E. now rewrite many_hashes_paragraph.
Qed.

Lemma heading_level_is_hash_count_witness :
  markdown_to_blocks "## Title" = [_create_heading_block "Title" 2].
Proof.
  apply (heading_level_is_hash_count 2 "Title");
    [lia | split; reflexivity | reflexivity].
Defined.

(** C4 as stated fails: five hashes give a paragraph, not a heading of
    level 3. *)
Lemma five_hashes_give_a_paragraph :
  markdown_to_blocks "##### Title" = [_create_paragraph_block "##### Title"]
  /\ markdown_to_blocks "##### Title" <> [_create_heading_block "Title" 3].
Proof. split; [reflexivity | vm_compute; discriminate]. Qed.

(** the clamp of the constructor itself *)
Example heading_block_clamps text :
  _create_heading_block text 5 = _create_heading_block text 3.
Proof. reflexivity. Qed.

(** C5, as the code has it.  A line whose trimmed form begins with the fence
    opens a code block; its language is the trimmed rest of that line.  The
    lines after it are code, verbatim, up to the first line whose trimmed
    form BEGINS WITH the fence (it need not be the fence alone); that line is
    dropped and parsing resumes after it.  With no such line every remaining
    line is code. *)
Theorem fenced_region (raw : string) (code : list string) :
  startswith fence (strip raw) = true ->
  Forall (fun l => closes l = false) code ->
  (forall closing after, closes closing = true ->
     parse_lines (raw :: code ++ closing :: after)%list
     = _create_code_block (join_nl code) (strip (skip 3 (strip raw)))
         :: parse_lines after)
  /\ parse_lines (raw :: code)
     = [_create_code_block (join_nl code) (strip (skip 3 (strip raw)))].
Proof.
  intros Hopen Hcode.
  assert (Hspan : forall closing after, closes closing = true ->
            code_span (code ++ closing :: after)%list = (code, after)).
  { intros closing after Hc. induction Hcode as [|l c Hl _ IH]; cbn [app code_span].
    - now rewrite Hc.
    - now rewrite Hl, IH. }
  assert (Hend : code_span code = (code, [])).
  { clear Hspan. induction Hcode as [|l c Hl _ IH]; cbn [code_span]; [reflexivity |].
    now rewrite Hl, IH. }
  split.
  - intros closing after Hc.
    rewrite parse_lines_fence, code_loop_span, Hspan by assumption. reflexivity.
  - rewrite parse_lines_fence, code_loop_span, Hend by assumption. reflexivity.
Qed.

Lemma fenced_region_witness :
  parse_lines ["```python"; "def hello_world():"; "```"; "after"]
  = [_create_code_block "def hello_world():" "python";
     _create_paragraph_block "after"].
Proof.
  apply (proj1 (fenced_region "```python" ["def hello_world():"]
                  ltac:(reflexivity)
                  ltac:(repeat constructor)) "```" ["after"]).
  reflexivity.
Defined.

(** C5 as stated fails: a line that only begins with the fence closes the
    region too. *)
Lemma fence_with_trailing_text_closes :
  markdown_to_blocks (join_nl ["```"; "a"; "```b"; "c"])
  = [_create_code_block "a" ""; _create_paragraph_block "c"]
  /\ markdown_to_blocks (join_nl ["```"; "a"; "```b"; "c"])
     <> [_create_code_block (join_nl ["a"; "```b"; "c"]) ""].
Proof. split; [reflexivity | vm_compute; discriminate]. Qed.

(** C9.  [markdown_to_blocks] is a total function of the body: it has no
    failing branch, and the number of blocks it returns is the number of
    non-blank lines outside fenced regions plus the number of fenced
    regions. *)
Theorem one_block_per_line (body : string) :
  length (markdown_to_blocks body) = block_units false (split_nl body).
Proof. apply parse_lines_units. Qed.

(** C10.  Every block [markdown_to_blocks] returns has the shape of a remote
    block object: a [type] naming its one payload key, and under that key a
    [rich_text] of one item of type [text] whose content is text of the
    body; a code block has a [language] besides. *)
Theorem blocks_are_well_formed (body : string) :
  Forall (well_formed_block body) (markdown_to_blocks body).
Proof. now apply (proj1 (parse_lines_well_formed body (split_nl body)) []). Qed.

Example integration_sample :
  map (fun b => match get b "type" PNone with Ok (PStr t) => t | _ => "" end)
      (markdown_to_blocks
         (join_nl ["# Test Heading"; ""; "Some **bold** text."; "";
                   "## Secondary Heading"; ""; "- List item 1"; "- List item 2";
                   ""; "> This is a quote"; ""; "```python";
                   "def hello_world():"; "    print(1)"; "```"; "";
                   "1. Numbered item 1"; "2. Numbered item 2"; ""]))
  = ["heading_1"; "paragraph"; "heading_2"; "bulleted_list_item";
     "bulleted_list_item"; "quote"; "code"; "numbered_list_item";
     "numbered_list_item"].
Proof. reflexivity. Qed.

(** ** The front matter *)

Import Datetime World MarkdownParser SyncEngine Paths EngineFacts
       MemoryGateway Examples.




(** the header of the integration test, read back after the update *)
Example frontmatter_roundtrip :
  let w' := (update_frontmatter "doc.md"
               [("last_synced", PStr "2023-06-09T10:00:00");
                ("status", PStr "synced")]
               (one_document test_header T0 "2024-01-01T12:00:01.000Z")).2 in
  match (parse_file "doc.md" w').1 with
  | Ok (header, _) =>
      [header !! "title"; header !! "notion_page_id"; header !! "tags";
       header !! "last_synced"; header !! "status"]
  | Raise _ => []
  end
  = [Some (PStr "Test Document"); Some (PStr "abc123");
     Some (PList [PStr "test"; PStr "integration"]);
     Some (PStr "2023-06-09T10:00:00"); Some (PStr "synced")].
Proof. vm_compute. reflexivity. Qed.

(** ** The engine *)

(** what the caller of an entry point gets when the [try] block raises *)
Lemma push_failure_is_reported {R : Type} {G : Gateway R} cfg path (w w' : world R) e :
  has_client cfg = true ->
  sync_file_body cfg path w = (Raise e, w') ->
  sync_file_to_notion cfg path w
  = (Ok (false, "Error syncing file to Notion: " +:+ exn_msg e), w').
Proof.
  intros Hc Hb. unfold sync_file_to_notion. rewrite Hc. cbn [negb].
  unfold try_catch. now rewrite Hb.
Qed.

Lemma pull_failure_is_reported {R : Type} {G : Gateway R} cfg i path (w w' : world R) e :
  has_client cfg = true ->
  sync_notion_body cfg i path w = (Raise e, w') ->
  sync_notion_to_file cfg i path w
  = (Ok (false, "Error syncing Notion page to file: " +:+ exn_msg e), w').
Proof.
  intros Hc Hb. unfold sync_notion_to_file. rewrite Hc. cbn [negb].
  unfold try_catch. now rewrite Hb.
Qed.

(** C7.  Whatever the configuration, the gateway, the files and the
    arguments, both entry points return a pair of a flag and a message;
    neither ever raises. *)
Theorem entry_points_never_raise {R : Type} {G : Gateway R}
    (cfg : config) (w : world R) :
  (forall file_path, exists success message w',
      sync_file_to_notion cfg file_path w = (Ok (success, message), w'))
  /\ (forall notion_page_id file_path, exists success message w',
        sync_notion_to_file cfg notion_page_id file_path w
        = (Ok (success, message), w')).
Proof.
  split.
  - intros path. unfold sync_file_to_notion.
    destruct (has_client cfg); cbn [negb]; [| now eexists _, _, _].
    unfold try_catch.
    destruct (sync_file_body cfg path w) as [[[b m]|e] w']; now eexists _, _, _.
  - intros i path. unfold sync_notion_to_file.
    destruct (has_client cfg); cbn [negb]; [| now eexists _, _, _].
    unfold try_catch.
    destruct (sync_notion_body cfg i path w) as [[[b m]|e] w']; now eexists _, _, _.
Qed.

(** a push of a file that is not there: the failure comes back as a message *)
Example push_of_a_missing_file :
  (sync_file_to_notion configured "nofile.md"
     (one_document test_header T0 "2024-01-01T12:00:01.000Z")).1
  = Ok (false, "Error syncing file to Notion: Markdown file not found: nofile.md").
Proof. vm_compute. reflexivity. Qed.



(** a document without a stored id, and one whose stored id no longer
    resolves, are both created anew *)
Example push_of_an_unlinked_document :
  let r := sync_file_to_notion configured "doc.md"
             (one_document unlinked_header T0 "2024-01-01T12:00:01.000Z") in
  r.1 = Ok (true, "Created new Notion page: Test Document")
  /\ map call_name (calls r.2)
     = ["databases_retrieve"; "create_page"; "update_page_blocks"].
Proof. vm_compute. split; reflexivity. Qed.

Example push_of_a_stale_link :
  let r := sync_file_to_notion configured "doc.md"
             (one_document stale_header T0 "2024-01-01T12:00:01.000Z") in
  r.1 = Ok (true, "Created new Notion page: Test Document")
  /\ map call_name (calls r.2)
     = ["get_page"; "databases_retrieve"; "create_page"; "update_page_blocks"].
Proof. vm_compute. split; reflexivity. Qed.

(** ** Conflict detection *)

(** [detect_conflicts] always returns a truth value. *)
Lemma detect_conflicts_returns {R : Type} {G : Gateway R} cfg path i (w : world R) :
  exists b w', detect_conflicts cfg path i w = (Ok b, w').
Proof.
  unfold detect_conflicts, try_catch.
  destruct (detect_conflicts_body cfg path i w) as [[b|e] w']; now eexists _, _.
Qed.

(** a document never synced has no conflict *)
Lemma never_synced_no_conflict {R : Type} {G : Gateway R} cfg path i (w : world R)
    (header : gmap string pyval) raw :
  parse_file path w = (Ok (header, raw), w) ->
  truthy (default PNone (header !! "last_synced")) = false ->
  detect_conflicts cfg path i w = (Ok false, w).
Proof.
  intros Hparse Hnever. unfold detect_conflicts, try_catch, detect_conflicts_body.
  unfold bind at 1. rewrite Hparse, Hnever. reflexivity.
Qed.

(** When the three times can be compared, that is when [last_synced] and
    the remote time are both written without an offset, the answer is the
    conjunction the comments of the code describe. *)
Lemma conflict_of_naive_times {R : Type} {G : Gateway R} cfg path i (w : world R)
    (header : gmap string pyval) raw page rem s f synced edited :
  has_client cfg = true ->
  parse_file path w = (Ok (header, raw), w) ->
  truthy (default PNone (header !! "last_synced")) = true ->
  fromisoformat (default PNone (header !! "last_synced")) = Ok (Datetime synced None) ->
  get_page i (remote w) = (Ok page, rem) ->
  get page "last_edited_time" PNone = Ok (PStr s) ->
  fromisoformat_str (replace_Z s) = Ok (Datetime edited None) ->
  fs w !! path = Some f ->
  (detect_conflicts cfg path i w).1
  = Ok ((synced <? edited)%Z && (synced <? f_mtime f + local_offset w)%Z).
Proof.
  intros Hc Hparse Hsynced Hls Hget Hle Hedited Hf.
  unfold detect_conflicts, try_catch, detect_conflicts_body.
  unfold bind at 1. rewrite Hparse, Hsynced. cbn [negb].
  unfold bind at 1, lift at 1. rewrite Hls.
  unfold bind at 1, client_get_page. rewrite Hc. unfold gateway_call. rewrite Hget.
  unfold bind at 1, lift at 1. rewrite Hle.
  unfold bind at 1, lift at 1. cbn [with_utc_offset res_bind fromisoformat].
  rewrite Hedited.
  unfold bind at 1, getmtime. cbn [fs logged]. rewrite Hf.
  reflexivity.
Qed.

(** The remote side writes its time with the suffix [Z], which makes it
    aware, while the time of the file is naive: whatever [last_synced] is,
    one of the two comparisons raises, and the answer is "conflict". *)
Lemma conflict_of_an_aware_remote_time {R : Type} {G : Gateway R} cfg path i
    (w : world R) (header : gmap string pyval) raw page rem s edited offset :
  has_client cfg = true ->
  parse_file path w = (Ok (header, raw), w) ->
  truthy (default PNone (header !! "last_synced")) = true ->
  get_page i (remote w) = (Ok page, rem) ->
  get page "last_edited_time" PNone = Ok (PStr s) ->
  fromisoformat_str (replace_Z s) = Ok (Datetime edited (Some offset)) ->
  (detect_conflicts cfg path i w).1 = Ok true.
Proof.
  intros Hc Hparse Hsynced Hget Hle Hedited.
  unfold detect_conflicts, try_catch, detect_conflicts_body.
  unfold bind at 1. rewrite Hparse, Hsynced. cbn [negb].
  unfold bind at 1, lift at 1.
  destruct (fromisoformat (default PNone (header !! "last_synced")))
    as [[synced tz]|e]; [| reflexivity].
  unfold bind at 1, client_get_page. rewrite Hc. unfold gateway_call. rewrite Hget.
  unfold bind at 1, lift at 1. rewrite Hle.
  unfold bind at 1, lift at 1. cbn [with_utc_offset res_bind fromisoformat].
  rewrite Hedited.
  unfold bind at 1, getmtime. cbn [fs logged].
  destruct (fs w !! path) as [f|]; [| reflexivity].
  destruct tz as [tz|]; reflexivity.
Qed.

(** C1 fails on the code.  With [last_synced] = T0 as the engine writes it,
    the remote page last edited at T0 + 1 s as the remote side writes it and
    the file last modified at T0 - 1 s, only one side has changed, yet
    [detect_conflicts] answers true: the comparison of the remote time with
    [last_synced] raises and the handler answers for it. *)
Theorem one_sided_change_is_reported_as_conflict :
  (detect_conflicts configured "doc.md" (PStr "abc123")
     (one_document synced_header (T0 - second) "2024-01-01T12:00:01.000Z")).1
  = Ok true.
Proof. vm_compute. reflexivity. Qed.

(** the two cases of the specification, for a remote time without offset *)
Example conflict_check_with_naive_remote_time :
  (detect_conflicts configured "doc.md" (PStr "abc123")
     (one_document synced_header (T0 - second) "2024-01-01T12:00:01")).1 = Ok false
  /\ (detect_conflicts configured "doc.md" (PStr "abc123")
        (one_document synced_header (T0 + 2 * second) "2024-01-01T12:00:01")).1
     = Ok true.
Proof. vm_compute. split; reflexivity. Qed.

(** ** The file name of a pull *)

Example sanitized_title : sanitize_title (PStr "My: Test/Page!") = Ok "my-testpage".
Proof. reflexivity. Qed.

(** C3 fails on the code.  A pull without a path writes to the root joined
    with the sanitized title: a title that sanitizes to nothing gives the
    name [.md], with no fallback to [untitled-<id>], and a file already at
    the target is overwritten, with no suffix [-1]. *)
Theorem pull_without_path_has_no_fallback_and_overwrites :
  let r := sync_notion_to_file configured (PStr "0123456789abcdef") None
             (pull_world "Notes") in
  let r' := sync_notion_to_file configured (PStr "0123456789abcdef") None
              (pull_world "!!!") in
  content_at "./docs/notes.md" (pull_world "Notes") = Some "my own notes"
  /\ r.1 = Ok (true, "Created new markdown file: ./docs/notes.md")
  /\ content_at "./docs/notes.md" r.2 = Some "remote text"
  /\ content_at "./docs/notes-1.md" r.2 = None
  /\ r'.1 = Ok (true, "Created new markdown file: ./docs/.md")
  /\ content_at "./docs/untitled-01234567.md" r'.2 = None.
Proof. vm_compute. repeat split; reflexivity. Qed.

(** * Further properties of the code *)

Import AuxExtra ConverterMore.

(** ** block_converter.py *)

(** X1.  From remote blocks to text and back: when every block is either in
    the form the parser gives or of a type the converter has no branch for,
    [blocks_to_markdown] succeeds and parsing its text returns the blocks of
    the first kind, unchanged and in order; the others are dropped. *)
Theorem remote_blocks_round_trip (blocks : list pyval) :
  Forall (fun b => canonical b \/ unsupported b) blocks ->
  exists document,
    blocks_to_markdown blocks = Ok document
    /\ markdown_to_blocks document = List.filter supported blocks.
Proof.
  intros H. destruct (mixed_roundtrip_lines blocks H) as (ls & Hls & Hp).
  exists (join_nl ls). unfold blocks_to_markdown, markdown_to_blocks.
  rewrite Hls. split; [reflexivity |]. now rewrite parse_split_join.
Qed.

Lemma remote_blocks_round_trip_witness :
  exists document,
    blocks_to_markdown
      [_create_heading_block "Title" 1;
       PDict [("type", PStr "image"); ("image", PDict [])];
       _create_code_block "x = 1" "python"] = Ok document
    /\ markdown_to_blocks document
       = [_create_heading_block "Title" 1; _create_code_block "x = 1" "python"].
Proof.
  apply (remote_blocks_round_trip
           [_create_heading_block "Title" 1;
            PDict [("type", PStr "image"); ("image", PDict [])];
            _create_code_block "x = 1" "python"]).
  constructor; [| constructor; [| constructor; [| constructor]]].
  - left. apply (canonical_heading 1 "Title"); [lia | split; reflexivity | reflexivity].
  - right. eexists. split; reflexivity.
  - left. apply (canonical_code "x = 1" "python");
      [reflexivity | reflexivity | repeat constructor].
Defined.

(** X2.  Every block [markdown_to_blocks] returns is in canonical form: a
    heading has level 1 to 3, the text of a heading, list item, quote or
    paragraph is trimmed, not empty and on one line, the language of a code
    block is trimmed, and no line of its code begins with the fence. *)
Theorem parsed_blocks_are_canonical (body : string) :
  Forall canonical (markdown_to_blocks body).
Proof. apply parse_lines_canonical, split_nl_all_free. Qed.

(** X3.  A block of a handled type without the payload of that type makes
    [blocks_to_markdown] raise [KeyError] for the type, wherever the block
    stands, provided the blocks before it can be written. *)
Theorem missing_payload_raises (t : string) (b : pyval) (before after : list pyval)
    (ls : list string) :
  lacks_payload t b -> markdown_lines before = Ok ls ->
  blocks_to_markdown (before ++ b :: after) = Raise (KeyError t).
Proof.
  intros Hb Hpre. unfold blocks_to_markdown.
  rewrite (markdown_lines_raise before (b :: after) ls (KeyError t) Hpre);
    [reflexivity |].
  cbn [markdown_lines]. now rewrite (block_lines_lacking t b Hb).
Qed.

Lemma missing_payload_raises_witness :
  blocks_to_markdown
    ([_create_paragraph_block "before"] ++ PDict [("type", PStr "quote")] :: [])
  = Raise (KeyError "quote").
Proof.
  apply (missing_payload_raises "quote" (PDict [("type", PStr "quote")])
           [_create_paragraph_block "before"] [] ["before"; ""]).
  - exists [("type", PStr "quote")].
    split; [reflexivity | split; [| split; reflexivity]].
    unfold handled_tags. cbn [In]. do 5 right. left. reflexivity.
  - reflexivity.
Defined.

(** X4.  The document of two non-empty block lists put together is the two
    documents joined by a newline. *)
Theorem document_of_concatenation (a b : list pyval) (da db : string) :
  a <> [] -> b <> [] ->
  blocks_to_markdown a = Ok da -> blocks_to_markdown b = Ok db ->
  blocks_to_markdown (a ++ b) = Ok (da +:+ String newline db).
Proof.
  unfold blocks_to_markdown. intros Ha Hb.
  destruct (markdown_lines a) as [la|e] eqn:Ea; [| discriminate].
  destruct (markdown_lines b) as [lb|e] eqn:Eb; [| discriminate].
  cbn [res_bind]. intros [= <-] [= <-].
  rewrite (markdown_lines_app a b la lb Ea Eb). cbn [res_bind].
  rewrite join_nl_app; [reflexivity | |].
  - exact (markdown_lines_nonempty a la Ha Ea).
  - exact (markdown_lines_nonempty b lb Hb Eb).
Qed.

Lemma document_of_concatenation_witness :
  blocks_to_markdown ([_create_heading_block "A" 1] ++ [_create_quote_block "b"])
  = Ok (join_nl ["# A"; ""] +:+ String newline (join_nl ["> b"; ""])).
Proof.
  apply (document_of_concatenation
           [_create_heading_block "A" 1] [_create_quote_block "b"]);
    [discriminate | discriminate | reflexivity | reflexivity].
Defined.

(** X5.  A body gives no block at all exactly when every line of it is
    blank. *)
Theorem no_blocks_iff_blank (body : string) :
  markdown_to_blocks body = []
  <-> Forall (fun l => is_empty (strip l) = true) (split_nl body).
Proof. apply parse_lines_nil. Qed.

(** X6.  Numbered items are not renumbered from their source: a line of any
    digits, a dot, a space and a text becomes a numbered item, and the item
    is written back with the number 1. *)
Theorem numbered_items_are_written_as_one (digits text : string) :
  is_empty digits = false -> all_chars is_digit digits = true ->
  tight text -> nl_free text = true ->
  markdown_to_blocks (digits +:+ ". " +:+ text) = [_create_numbered_list_item text]
  /\ blocks_to_markdown (markdown_to_blocks (digits +:+ ". " +:+ text))
     = Ok ("1. " +:+ text +:+ String newline "").
Proof.
  intros Hne Hd Ht Hf.
  assert (E : markdown_to_blocks (digits +:+ ". " +:+ text)
              = [_create_numbered_list_item text]).
  { rewrite one_line_body.
    - now rewrite parse_numbered_line.
    - apply nl_free_app; [now apply all_digits_nl_free |].
      now apply (nl_free_app ". "). }
  split; [exact E |]. rewrite E. unfold blocks_to_markdown. cbn [markdown_lines].
  rewrite block_lines_numbered. cbn [res_bind app join_nl].
  now rewrite append_assoc.
Qed.

Lemma numbered_items_are_written_as_one_witness :
  markdown_to_blocks "42. answer" = [_create_numbered_list_item "answer"]
  /\ blocks_to_markdown (markdown_to_blocks "42. answer")
     = Ok ("1. answer" +:+ String newline "").
Proof.
  apply (numbered_items_are_written_as_one "42" "answer");
    [reflexivity | reflexivity | split; reflexivity | reflexivity].
Defined.

(** ** markdown_parser.py *)

Import MarkdownHeadings ParserMore.

(** X7.  The title [extract_title] finds is the text of a line that
    [extract_headings] lists as a heading of level 1. *)
Theorem title_is_among_the_headings (content title : string) :
  extract_title content = Some title ->
  In (1, title) (extract_headings content).
Proof. apply first_h1_in_headings. Qed.

Lemma title_is_among_the_headings_witness :
  In (1, "Title") (extract_headings (join_nl ["## Intro"; "# Title  "; "# Other"])).
Proof.
  apply (title_is_among_the_headings
           (join_nl ["## Intro"; "# Title  "; "# Other"]) "Title").
  reflexivity.
Defined.

(** X8.  [extract_title] finds nothing exactly when no line of the content
    starts with a hash followed by a space. *)
Theorem no_title_iff_no_h1_line (content : string) :
  extract_title content = None
  <-> Forall (fun l => startswith "# " l = false) (split_nl content).
Proof. apply first_h1_none. Qed.

(** X9.  On a line that starts with a hash, the converter and
    [extract_headings] agree: when the converter makes a heading of the
    line, [extract_headings] reports it with the same level and the same
    text. *)
Theorem heading_line_read_alike (line hashes text : string) :
  nl_free line = true ->
  startswith "#" line = true ->
  heading_match (strip line) = Some (hashes, text) ->
  markdown_to_blocks line = [_create_heading_block text (String.length hashes)]
  /\ extract_headings line = [(String.length hashes, text)].
Proof.
  intros Hf Hs Hm. split.
  - rewrite one_line_body by exact Hf. cbn [parse_lines].
    assert (Hne : is_empty (strip line) = false).
    { destruct (strip line); [discriminate | reflexivity]. }
    now rewrite Hne, Hm.
  - unfold extract_headings. rewrite split_nl_free by exact Hf.
    cbn [headings_of]. rewrite Hs.
    destruct (heading_line_agrees line hashes text Hs Hm) as [-> ->]. reflexivity.
Qed.

Lemma heading_line_read_alike_witness :
  markdown_to_blocks "##   Two  " = [_create_heading_block "Two" 2]
  /\ extract_headings "##   Two  " = [(2, "Two")].
Proof.
  apply (heading_line_read_alike "##   Two  " "##" "Two"); reflexivity.
Defined.



(** X11.  On a path where no file is, [parse_file] and [update_frontmatter]
    both raise [FileNotFoundError] with the path in the message, and
    nothing changes. *)
Theorem missing_file_is_reported {R : Type} (path : string)
    (updates : list (string * pyval)) (w : world R) :
  fs w !! path = None ->
  parse_file path w
  = (Raise (Exn "FileNotFoundError" ("Markdown file not found: " +:+ path)), w)
  /\ update_frontmatter path updates w
     = (Raise (Exn "FileNotFoundError" ("Markdown file not found: " +:+ path)), w).
Proof.
  intros Hf. unfold parse_file, update_frontmatter, bind, path_exists.
  rewrite Hf. rewrite bool_decide_eq_false_2 by (intros [x Hx]; discriminate).
  split; reflexivity.
Qed.

Lemma missing_file_is_reported_witness :
  parse_file "nofile.md" (one_document test_header T0 "2024-01-01T12:00:01.000Z")
  = (Raise (Exn "FileNotFoundError" "Markdown file not found: nofile.md"),
     one_document test_header T0 "2024-01-01T12:00:01.000Z")
  /\ update_frontmatter "nofile.md" [("status", PStr "synced")]
       (one_document test_header T0 "2024-01-01T12:00:01.000Z")
     = (Raise (Exn "FileNotFoundError" "Markdown file not found: nofile.md"),
        one_document test_header T0 "2024-01-01T12:00:01.000Z").
Proof.
  apply (missing_file_is_reported "nofile.md" [("status", PStr "synced")]
           (one_document test_header T0 "2024-01-01T12:00:01.000Z")).
  vm_compute. reflexivity.
Defined.



(** X13.  Whatever [update_frontmatter] does to the file it is given, it
    leaves every other file as it was, and when it raises it has changed
    nothing at all. *)
Theorem update_touches_one_file {R : Type} (path : string)
    (updates : list (string * pyval)) (w w' : world R) (r : res unit) :
  update_frontmatter path updates w = (r, w') ->
  (forall p, p <> path -> fs w' !! p = fs w !! p)
  /\ (forall e, r = Raise e -> w' = w).
Proof.
  intros H. destruct (update_frontmatter_frame path updates w r w' H)
    as (H1 & _ & _ & H2).
  now split.
Qed.

Lemma update_touches_one_file_witness :
  let w := one_document test_header T0 "2024-01-01T12:00:01.000Z" in
  let out := update_frontmatter "doc.md" [("status", PStr "synced")] w in
  (forall p, p <> "doc.md" -> fs out.2 !! p = fs w !! p)
  /\ (forall e, out.1 = Raise e -> out.2 = w).
Proof.
  intros w out.
  apply (update_touches_one_file "doc.md" [("status", PStr "synced")] w out.2 out.1).
  apply surjective_pairing.
Defined.

(** ** sync_engine.py *)

Import EngineAux EngineMore.

(** X14.  The file name a pull makes of a title that is a text of this
    development, a string of characters with code points up to 255: it is
    made of letters, digits, [-] and [_] only, so it holds no separator, no
    dot and no space, and making a name of it again gives it back. *)
Theorem sanitized_title_is_a_plain_name (title : string) :
  exists name,
    sanitize_title (PStr title) = Ok name
    /\ all_chars name_char name = true
    /\ contains_char "/" name = false
    /\ contains_char "." name = false
    /\ sanitize_title (PStr name) = Ok name.
Proof.
  destruct (sanitized_chars title) as [H1 H2].
  destruct (name_chars_plain _ H1) as [H3 H4].
  eexists. split; [reflexivity |].
  split; [exact H1 |]. split; [exact H3 |]. split; [exact H4 |].
  cbn [sanitize_title res_bind]. now rewrite H2.
Qed.

(** X15.  After a push that reports success the file is the document with
    its content as it was read and its header changed under two keys only:
    the time of the push under [last_synced] and a page id under
    [notion_page_id].  (The headers so made must be ones that YAML rereads
    as they were written.) *)
Theorem successful_push_stamps_the_file {R : Type} {G : Gateway R} (cfg : config)
    (path : string) (w w' : world R) (p : post) (mtime : Z) (message : string) :
  fs w !! path = Some (File (Document p) mtime) ->
  metadata p !! "content" = None -> metadata p !! "handler" = None ->
  (forall i, reread (library w)
               (merge (metadata p)
                  [("notion_page_id", i); ("last_synced", stamp w)])
             = merge (metadata p)
                 [("notion_page_id", i); ("last_synced", stamp w)]) ->
  sync_file_to_notion cfg path w = (Ok (true, message), w') ->
  exists i,
    fs w' !! path
    = Some (File (Document
                    (Post (merge (metadata p)
                             [("notion_page_id", i); ("last_synced", stamp w)])
                          (as_read (content p))))
                 (clock w)).
Proof.
  intros Hf Hc Hh Hre.
  apply (sync_file_ok cfg path w w' p mtime message Hf); [| exact Hre].
  now apply reserved_none.
Qed.

Lemma successful_push_stamps_the_file_witness :
  let w := one_document unlinked_header T0 "2024-01-01T12:00:01.000Z" in
  let w' := (sync_file_to_notion configured "doc.md" w).2 in
  exists i,
    fs w' !! "doc.md"
    = Some (File (Document
                    (Post (merge unlinked_header
                             [("notion_page_id", i); ("last_synced", stamp w)])
                          (as_read (content test_document))))
                 (clock w)).
Proof.
  intros w w'.
  apply (successful_push_stamps_the_file configured "doc.md" w w'
           (Post unlinked_header (content test_document)) T0
           "Created new Notion page: Test Document").
  - vm_compute. reflexivity.
  - vm_compute. reflexivity.
  - vm_compute. reflexivity.
  - intros i. reflexivity.
  - vm_compute. reflexivity.
Defined.

(** X16.  A push changes no file but the one it is given, and a push that
    reports a failure has changed no file at all. *)
Theorem push_touches_one_file {R : Type} {G : Gateway R} (cfg : config)
    (path : string) (w w' : world R) (r : res (bool * string)) :
  sync_file_to_notion cfg path w = (r, w') ->
  (forall q, q <> path -> fs w' !! q = fs w !! q)
  /\ (forall message, r = Ok (false, message) -> fs w' = fs w).
Proof.
  intros E. split.
  - now apply (touches_sync_file cfg path w r w' E).
  - intros message ->. now apply (clean_sync_file cfg path w _ w' E).
Qed.

Lemma push_touches_one_file_witness :
  let w := one_document stale_header T0 "2024-01-01T12:00:01.000Z" in
  let out := sync_file_to_notion configured "doc.md" w in
  (forall q, q <> "doc.md" -> fs out.2 !! q = fs w !! q)
  /\ (forall message, out.1 = Ok (false, message) -> fs out.2 = fs w).
Proof.
  intros w out.
  apply (push_touches_one_file configured "doc.md" w out.2 out.1).
  apply surjective_pairing.
Defined.

(** X17.  A pull to a given path changes no file but the one at that
    path, and a pull that reports a failure has left the files as they
    were or, at worst, one file emptied: the one it had opened for writing
    when [frontmatter.dumps] raised. *)
Theorem pull_touches_one_file {R : Type} {G : Gateway R} (cfg : config)
    (notion_page_id : pyval) (file_path : option string) (w w' : world R)
    (r : res (bool * string)) :
  sync_notion_to_file cfg notion_page_id file_path w = (r, w') ->
  (forall path, file_path = Some path -> path <> "" ->
   forall q, q <> path -> fs w' !! q = fs w !! q)
  /\ (forall message, r = Ok (false, message) ->
      fs w' = fs w
      \/ exists path, fs w' = <[path := File emptied (clock w)]> (fs w)).
Proof.
  intros E. split.
  - intros [|c p] -> Hne; [congruence |].
    now apply (touches_sync_notion cfg notion_page_id c p w r w' E).
  - intros message ->.
    now apply (softly_sync_notion cfg notion_page_id file_path w _ w' E).
Qed.

Lemma pull_touches_one_file_witness :
  let w := pull_world "Notes" in
  let out := sync_notion_to_file configured (PStr "0123456789abcdef")
               (Some "pulled.md") w in
  (forall path, Some "pulled.md" = Some path -> path <> "" ->
   forall q, q <> path -> fs out.2 !! q = fs w !! q)
  /\ (forall message, out.1 = Ok (false, message) ->
      fs out.2 = fs w
      \/ exists path, fs out.2 = <[path := File emptied (clock w)]> (fs w)).
Proof.
  intros w out.
  apply (pull_touches_one_file configured (PStr "0123456789abcdef")
           (Some "pulled.md") w out.2 out.1).
  apply surjective_pairing.
Defined.



(** X19.  [detect_conflicts] always answers, and it leaves every file as it
    was. *)
Theorem conflict_check_only_reads {R : Type} {G : Gateway R} (cfg : config)
    (path : string) (notion_page_id : pyval) (w : world R) :
  exists b w',
    detect_conflicts cfg path notion_page_id w = (Ok b, w') /\ fs w' = fs w.
Proof.
  destruct (detect_conflicts_returns cfg path notion_page_id w) as (b & w' & E).
  exists b, w'. split; [exact E |].
  now apply (keeps_detect_conflicts cfg path notion_page_id w _ w' E).
Qed.

(** X20.  A document whose header has no [last_synced], or an empty one, is
    never in conflict, and the remote side is not asked. *)
Theorem never_synced_is_no_conflict {R : Type} {G : Gateway R} (cfg : config)
    (path : string) (notion_page_id : pyval) (w : world R) (p : post) (mtime : Z) :
  fs w !! path = Some (File (Document p) mtime) ->
  truthy (default PNone (metadata p !! "last_synced")) = false ->
  detect_conflicts cfg path notion_page_id w = (Ok false, w).
Proof.
  intros Hf Hn.
  apply (never_synced_no_conflict cfg path notion_page_id w
           (loadable (metadata p)) (as_read (content p)));
    [now apply (parse_file_run path w p mtime) |].
  now rewrite loadable_lookup by discriminate.
Qed.

Lemma never_synced_is_no_conflict_witness :
  detect_conflicts configured "doc.md" (PStr "abc123")
    (one_document test_header T0 "2024-01-01T12:00:01.000Z")
  = (Ok false, one_document test_header T0 "2024-01-01T12:00:01.000Z").
Proof.
  apply (never_synced_is_no_conflict configured "doc.md" (PStr "abc123")
           (one_document test_header T0 "2024-01-01T12:00:01.000Z")
           (Post test_header (content test_document)) T0).
  - vm_compute. reflexivity.
  - vm_compute. reflexivity.
Defined.

(** X21.  A file that is missing, or whose front matter cannot be read,
    counts as a conflict, and the remote side is not asked. *)
Theorem unreadable_file_is_a_conflict {R : Type} {G : Gateway R} (cfg : config)
    (path : string) (notion_page_id : pyval) (w : world R) :
  fs w !! path = None \/ (exists mtime, fs w !! path = Some (File Malformed mtime)) ->
  detect_conflicts cfg path notion_page_id w = (Ok true, w).
Proof.
  intros H.
  assert (E : exists e, parse_file path w = (Raise e, w)).
  { unfold parse_file, bind, path_exists. destruct H as [Hf | [mtime Hf]]; rewrite Hf.
    - rewrite bool_decide_eq_false_2 by (intros [x Hx]; discriminate).
      cbn [negb]. now eexists.
    - rewrite bool_decide_eq_true_2 by eauto. cbn [negb]. unfold load_post.
      rewrite Hf. now eexists. }
  destruct E as [e E]. unfold detect_conflicts, try_catch, detect_conflicts_body.
  unfold bind at 1. now rewrite E.
Qed.

Lemma unreadable_file_is_a_conflict_witness :
  detect_conflicts configured "nofile.md" (PStr "abc123")
    (one_document test_header T0 "2024-01-01T12:00:01.000Z")
  = (Ok true, one_document test_header T0 "2024-01-01T12:00:01.000Z").
Proof.
  apply (unreadable_file_is_a_conflict configured "nofile.md" (PStr "abc123")
           (one_document test_header T0 "2024-01-01T12:00:01.000Z")).
  left. vm_compute. reflexivity.
Defined.

(** X22.  Without a token there is no client, and [detect_conflicts]
    answers "conflict" for every document that has a [last_synced] and "no
    conflict" for every document that has none. *)
Theorem conflict_check_without_client {R : Type} {G : Gateway R} (cfg : config)
    (path : string) (notion_page_id : pyval) (w : world R) (p : post) (mtime : Z) :
  has_client cfg = false ->
  fs w !! path = Some (File (Document p) mtime) ->
  detect_conflicts cfg path notion_page_id w
  = (Ok (truthy (default PNone (metadata p !! "last_synced"))), w).
Proof.
  intros Hc Hf. unfold detect_conflicts, try_catch, detect_conflicts_body.
  unfold bind at 1. rewrite (parse_file_run path w p mtime Hf).
  rewrite loadable_lookup by discriminate.
  destruct (truthy (default PNone (metadata p !! "last_synced"))); cbn [negb];
    [| reflexivity].
  unfold bind at 1, lift at 1.
  destruct (fromisoformat (default PNone (metadata p !! "last_synced")));
    [| reflexivity].
  unfold bind at 1, client_get_page. rewrite Hc. reflexivity.
Qed.

Lemma conflict_check_without_client_witness :
  detect_conflicts (Config None (Some "parent") None) "doc.md" (PStr "abc123")
    (one_document synced_header T0 "2024-01-01T12:00:01.000Z")
  = (Ok (truthy (default PNone
                   (metadata (Post synced_header (content test_document))
                      !! "last_synced"))),
     one_document synced_header T0 "2024-01-01T12:00:01.000Z").
Proof.
  apply (conflict_check_without_client (Config None (Some "parent") None) "doc.md"
           (PStr "abc123") (one_document synced_header T0 "2024-01-01T12:00:01.000Z")
           (Post synced_header (content test_document)) T0).
  - reflexivity.
  - vm_compute. reflexivity.
Defined.

(** X23.  When [last_synced] and the time of the remote page are both
    written without an offset, [detect_conflicts] answers "conflict"
    exactly when the page and the file were both changed after
    [last_synced]; the time of the file is taken in the local zone. *)
Theorem comparable_times_give_the_conjunction {R : Type} {G : Gateway R}
    (cfg : config) (path : string) (notion_page_id : pyval) (w : world R)
    (p : post) (mtime : Z) (last_synced edited_at : string) (page : pyval)
    (synced edited : Z) :
  has_client cfg = true ->
  fs w !! path = Some (File (Document p) mtime) ->
  metadata p !! "last_synced" = Some (PStr last_synced) ->
  fromisoformat_str last_synced = Ok (Datetime synced None) ->
  (get_page notion_page_id (remote w)).1 = Ok page ->
  get page "last_edited_time" PNone = Ok (PStr edited_at) ->
  fromisoformat_str (replace_Z edited_at) = Ok (Datetime edited None) ->
  (detect_conflicts cfg path notion_page_id w).1
  = Ok ((synced <? edited)%Z && (synced <? mtime + local_offset w)%Z).
Proof.
  intros Hc Hf Hls Hs Hg Hle He.
  destruct (get_page notion_page_id (remote w)) as [r rem] eqn:G1.
  cbn [fst] in Hg. subst r.
  apply (conflict_of_naive_times cfg path notion_page_id w (loadable (metadata p))
           (as_read (content p)) page rem edited_at (File (Document p) mtime)
           synced edited);
    auto.
  - now apply (parse_file_run path w p mtime).
  - rewrite loadable_lookup by discriminate.
    rewrite Hls. destruct last_synced; [discriminate | reflexivity].
  - rewrite loadable_lookup by discriminate. now rewrite Hls.
Qed.

Lemma comparable_times_give_the_conjunction_witness :
  (detect_conflicts configured "doc.md" (PStr "abc123")
     (one_document synced_header (T0 + 2 * second) "2024-01-01T12:00:01")).1
  = Ok ((T0 <? T0 + second)%Z
        && (T0 <? (T0 + 2 * second)
                  + local_offset (one_document synced_header (T0 + 2 * second)
                                    "2024-01-01T12:00:01"))%Z).
Proof.
  apply (comparable_times_give_the_conjunction configured "doc.md" (PStr "abc123")
           (one_document synced_header (T0 + 2 * second) "2024-01-01T12:00:01")
           (Post synced_header (content test_document)) (T0 + 2 * second)
           "2024-01-01T12:00:00" "2024-01-01T12:00:01"
           (remote_page "abc123" "Test Document" "2024-01-01T12:00:01")
           T0 (T0 + second)).
  all: vm_compute; reflexivity.
Defined.

(** X24.  When the time of the remote page is written with an offset, as
    the suffix [Z] makes it, [detect_conflicts] answers "conflict" for
    every document that has a [last_synced], whatever the three times
    are. *)
Theorem remote_time_with_offset_is_a_conflict {R : Type} {G : Gateway R}
    (cfg : config) (path : string) (notion_page_id : pyval) (w : world R)
    (p : post) (mtime : Z) (edited_at : string) (page : pyval) (edited offset : Z) :
  has_client cfg = true ->
  fs w !! path = Some (File (Document p) mtime) ->
  truthy (default PNone (metadata p !! "last_synced")) = true ->
  (get_page notion_page_id (remote w)).1 = Ok page ->
  get page "last_edited_time" PNone = Ok (PStr edited_at) ->
  fromisoformat_str (replace_Z edited_at) = Ok (Datetime edited (Some offset)) ->
  (detect_conflicts cfg path notion_page_id w).1 = Ok true.
Proof.
  intros Hc Hf Hls Hg Hle He.
  destruct (get_page notion_page_id (remote w)) as [r rem] eqn:G1.
  cbn [fst] in Hg. subst r.
  apply (conflict_of_an_aware_remote_time cfg path notion_page_id w
           (loadable (metadata p)) (as_read (content p)) page rem edited_at edited offset);
    auto.
  - now apply (parse_file_run path w p mtime).
  - now rewrite loadable_lookup by discriminate.
Qed.

Lemma remote_time_with_offset_is_a_conflict_witness :
  (detect_conflicts configured "doc.md" (PStr "abc123")
     (one_document synced_header (T0 - second) "2024-01-01T11:00:00.000Z")).1
  = Ok true.
Proof.
  apply (remote_time_with_offset_is_a_conflict configured "doc.md" (PStr "abc123")
           (one_document synced_header (T0 - second) "2024-01-01T11:00:00.000Z")
           (Post synced_header (content test_document)) (T0 - second)
           "2024-01-01T11:00:00.000Z"
           (remote_page "abc123" "Test Document" "2024-01-01T11:00:00.000Z")
           (T0 - 3600 * second) 0).
  all: vm_compute; reflexivity.
Defined.

(** ** cli.py *)

Import Cli CliFacts.

(** X25.  The path the pull commands choose for a page: the loop over the
    numbered paths ends within one round more than there are files, the
    path it ends on is not taken, and it is the path made of the title
    when that one is not taken.  The file name is never empty. *)
Theorem cli_pull_path_is_free {R : Type} (pull_directory : string) (title : pyval)
    (page_id filename : string) (w : world R) :
  pull_filename title page_id = Ok filename ->
  is_empty filename = false
  /\ exists path,
       pull_path pull_directory title page_id w = (Ok (Some path), w)
       /\ fs w !! path = None
       /\ is_empty path = false
       /\ (fs w !! path_join pull_directory (filename +:+ ".md") = None ->
           path = path_join pull_directory (filename +:+ ".md")).
Proof.
  intros Hn.
  assert (He : is_empty filename = false).
  { unfold pull_filename in Hn.
    destruct (sanitize_title title) as [f|]; [| discriminate].
    cbn [res_bind] in Hn. injection Hn as <-. now destruct f. }
  split; [exact He |].
  unfold pull_path, bind, lift. rewrite Hn.
  destruct (free_path_found (path_join pull_directory (filename +:+ ".md")) w
              (path_join pull_directory (filename +:+ ".md")))
    as (q & Hq & Hfree & Hshape & Hsame).
  exists q. split; [exact Hq |]. split; [exact Hfree |]. split; [| exact Hsame].
  destruct Hshape as [-> | [k ->]].
  - apply path_join_nonempty. now apply append_nonempty.
  - pose proof (numbered_path_nonempty
                  (path_join pull_directory (filename +:+ ".md")) k) as H.
    now destruct (numbered_path _ k).
Qed.

Lemma cli_pull_path_is_free_witness :
  is_empty "notes" = false
  /\ exists path,
       pull_path "./docs" (PStr "Notes") "0123456789abcdef" (pull_world "Notes")
       = (Ok (Some path), pull_world "Notes")
       /\ fs (pull_world "Notes") !! path = None
       /\ is_empty path = false
       /\ (fs (pull_world "Notes") !! path_join "./docs" ("notes" +:+ ".md") = None ->
           path = path_join "./docs" ("notes" +:+ ".md")).
Proof.
  apply (cli_pull_path_is_free "./docs" (PStr "Notes") "0123456789abcdef" "notes"
           (pull_world "Notes")).
  reflexivity.
Defined.

(** X26.  A page pulled to the path the pull commands choose overwrites
    nothing: every file that was there is left as it was, and a pull that
    succeeds reports a new file. *)
Theorem cli_pull_overwrites_nothing {R : Type} {G : Gateway R} (cfg : config)
    (pull_directory : string) (title : pyval) (page_id filename : string)
    (w : world R) :
  pull_filename title page_id = Ok filename ->
  exists path,
    pull_path pull_directory title page_id w = (Ok (Some path), w)
    /\ forall r w',
         sync_notion_to_file cfg (PStr page_id) (Some path) w = (r, w') ->
         (forall q, is_Some (fs w !! q) -> fs w' !! q = fs w !! q)
         /\ (forall message, r = Ok (true, message) ->
             message = "Created new markdown file: " +:+ path).
Proof.
  intros Hn.
  destruct (cli_pull_path_is_free_aux pull_directory title page_id filename w Hn)
    as (path & Hp & Hfree & Hne).
  exists path. split; [exact Hp |]. intros r w' E.
  destruct path as [|c p]; [discriminate |]. split.
  - intros q Hq. apply (touches_sync_notion cfg (PStr page_id) c p w r w' E).
    intros ->. rewrite Hfree in Hq. now destruct Hq.
  - intros message ->.
    pose proof (sync_notion_message cfg (PStr page_id) c p w message w' E) as Hm.
    rewrite Hfree in Hm.
    now rewrite bool_decide_eq_false_2 in Hm by (intros [x Hx]; discriminate).
Qed.

Lemma cli_pull_overwrites_nothing_witness :
  exists path,
    pull_path "./docs" (PStr "Notes") "0123456789abcdef" (pull_world "Notes")
    = (Ok (Some path), pull_world "Notes")
    /\ forall r w',
         sync_notion_to_file configured (PStr "0123456789abcdef") (Some path)
           (pull_world "Notes") = (r, w') ->
         (forall q, is_Some (fs (pull_world "Notes") !! q) ->
                    fs w' !! q = fs (pull_world "Notes") !! q)
         /\ (forall message, r = Ok (true, message) ->
             message = "Created new markdown file: " +:+ path).
Proof.
  apply (cli_pull_overwrites_nothing configured "./docs" (PStr "Notes")
           "0123456789abcdef" "notes" (pull_world "Notes")).
  reflexivity.
Defined.

(** ** config.py *)

Import ConfigFile ConfigFacts.

(** X27.  What [Config.set] has stored, [Config.get] returns for the same
    key, unless the environment has a variable for the key: that one is
    returned whatever has been set.  The environment is not changed by
    [set]. *)
Theorem config_set_then_get (upper : string -> string) (st st' : state)
    (key : string) (value : pyval) :
  ConfigFile.set st key value = (Ok tt, st') ->
  environ st' = environ st
  /\ forall default,
       ConfigFile.get upper st' key default
       = match environ st !! env_key upper key with
         | Some env_value => PStr env_value
         | None => value
         end.
Proof.
  unfold ConfigFile.set, ConfigFile.get.
  destruct (assign (split_on "." key) value (config_data st)) as [data|e] eqn:E;
    [| discriminate].
  intros [= <-]. cbn [environ config_data]. split; [reflexivity |].
  intros default. destruct (environ st !! env_key upper key); [reflexivity |].
  now apply (walk_assign default value _ _ _ E).
Qed.

Lemma config_set_then_get_witness :
  let st := State {["SYNC_DIRECTION" := "bidirectional"]}
              (PDict [("notion", PDict [("token", PStr "old")])]) in
  let st' := (ConfigFile.set st "notion.parent_page_id" (PStr "abc")).2 in
  environ st' = environ st
  /\ forall default,
       ConfigFile.get ascii_upper st' "notion.parent_page_id" default
       = match environ st !! env_key ascii_upper "notion.parent_page_id" with
         | Some env_value => PStr env_value
         | None => PStr "abc"
         end.
Proof.
  intros st st'.
  apply (config_set_then_get ascii_upper st st' "notion.parent_page_id" (PStr "abc")).
  reflexivity.
Defined.

(** ** file_watcher.py *)

Import FileWatcher.

(** X28.  A pattern [dir/**] excludes by the characters of the path, not by
    its directories: with the pattern among the excluded ones, every path
    that starts with [dir] is excluded, and no event on it is handled. *)
Theorem directory_pattern_excludes_by_prefix (excluded_patterns : list string)
    (dir rest : string) (is_directory : bool) :
  In (dir +:+ "/**") excluded_patterns ->
  _is_excluded excluded_patterns (dir +:+ rest) = true
  /\ handles excluded_patterns is_directory (dir +:+ rest) = false.
Proof.
  intros Hin.
  assert (E : _is_excluded excluded_patterns (dir +:+ rest) = true).
  { apply (excluded_by _ (dir +:+ "/**")); [exact Hin |].
    unfold pattern_excludes. rewrite endswith_app. rewrite length_append.
    replace (String.length dir + String.length "/**" - 3) with (String.length dir)
      by (cbn; lia).
    rewrite keep_length_app. apply startswith_app. }
  split; [exact E |]. unfold handles. rewrite E. cbn [negb].
  now rewrite andb_false_r.
Qed.

Lemma directory_pattern_excludes_by_prefix_witness :
  _is_excluded ["*.tmp"; "node_modules" +:+ "/**"] ("node_modules" +:+ "-notes/a.md")
  = true
  /\ handles ["*.tmp"; "node_modules" +:+ "/**"] false
       ("node_modules" +:+ "-notes/a.md") = false.
Proof.
  apply (directory_pattern_excludes_by_prefix ["*.tmp"; "node_modules" +:+ "/**"]
           "node_modules" "-notes/a.md" false).
  right. left. reflexivity.
Defined.

(** ** sync_engine.py, the parent id and the pull without a path *)

(** X29.  A parent id of 32 characters without a dash is sent with dashes
    after its characters 8, 12, 16 and 20: the result has 36 characters,
    it is the id again once the dashes are taken out, and formatting it a
    second time changes nothing. *)
Theorem parent_id_gets_its_dashes (parent_id : string) :
  String.length parent_id = 32 ->
  contains_char "-" parent_id = false ->
  String.length (format_parent_id parent_id) = 36
  /\ filter_chars (fun c => negb (Ascii.eqb c "-")) (format_parent_id parent_id)
     = parent_id
  /\ format_parent_id (format_parent_id parent_id) = format_parent_id parent_id.
Proof.
  intros Hl Hd.
  assert (E : format_parent_id parent_id
              = slice 0 8 parent_id +:+ "-" +:+ slice 8 12 parent_id +:+ "-"
                +:+ slice 12 16 parent_id +:+ "-" +:+ slice 16 20 parent_id +:+ "-"
                +:+ skip 20 parent_id).
  { unfold format_parent_id. now rewrite Hl, Hd. }
  assert (L : String.length (format_parent_id parent_id) = 36).
  { rewrite E. clear E Hd.
    do 32 (destruct parent_id as [|? parent_id]; [discriminate |]).
    destruct parent_id; [reflexivity | discriminate]. }
  split; [exact L |]. split.
  - rewrite E. rewrite !filter_dashes_app. cbn [filter_chars Ascii.eqb negb].
    unfold slice. rewrite !filter_dashes_free
      by (try apply dash_free_keep; try apply dash_free_skip; exact Hd).
    cbn [String.append]. now apply slices_back.
  - unfold format_parent_id at 1. now rewrite L.
Qed.

Lemma parent_id_gets_its_dashes_witness :
  String.length (format_parent_id "0123456789abcdef0123456789abcdef") = 36
  /\ filter_chars (fun c => negb (Ascii.eqb c "-"))
       (format_parent_id "0123456789abcdef0123456789abcdef")
     = "0123456789abcdef0123456789abcdef"
  /\ format_parent_id (format_parent_id "0123456789abcdef0123456789abcdef")
     = format_parent_id "0123456789abcdef0123456789abcdef".
Proof.
  apply (parent_id_gets_its_dashes "0123456789abcdef0123456789abcdef");
    reflexivity.
Defined.

(** X30.  A pull without a path that reports success has written the file
    named after the title in the configured root, [./docs] by default,
    whether or not a file was there, and always reports it as new; no
    other file has changed. *)
Theorem pull_without_path_writes_the_derived_file {R : Type} {G : Gateway R}
    (cfg : config) (notion_page_id : pyval) (file_path : option string)
    (w w' : world R) (message : string) :
  file_path = None \/ file_path = Some "" ->
  sync_notion_to_file cfg notion_page_id file_path w = (Ok (true, message), w') ->
  exists page title name text header,
    (get_page notion_page_id (remote w)).1 = Ok page
    /\ page_title page = Ok title
    /\ sanitize_title title = Ok name
    /\ message = "Created new markdown file: "
                 +:+ path_join (default "./docs" (directories_markdown_root cfg))
                       (name +:+ ".md")
    /\ fs w' = <[path_join (default "./docs" (directories_markdown_root cfg))
                   (name +:+ ".md")
                 := File (Document (Post header text)) (clock w)]> (fs w).
Proof. apply sync_notion_derived. Qed.

Lemma pull_without_path_writes_the_derived_file_witness :
  let w := pull_world "Notes" in
  let w' := (sync_notion_to_file configured (PStr "0123456789abcdef") None w).2 in
  exists page title name text header,
    (get_page (PStr "0123456789abcdef") (remote w)).1 = Ok page
    /\ page_title page = Ok title
    /\ sanitize_title title = Ok name
    /\ "Created new markdown file: ./docs/notes.md"
       = "Created new markdown file: "
         +:+ path_join (default "./docs" (directories_markdown_root configured))
               (name +:+ ".md")
    /\ fs w' = <[path_join (default "./docs" (directories_markdown_root configured))
                   (name +:+ ".md")
                 := File (Document (Post header text)) (clock w)]> (fs w).
Proof.
  intros w w'.
  apply (pull_without_path_writes_the_derived_file configured
           (PStr "0123456789abcdef") None w w'
           "Created new markdown file: ./docs/notes.md").
  - now left.
  - vm_compute. reflexivity.
Defined.
